(** * TR-ZERO: the agent-based carbon-market simulation

    A shallow embedding of [src/ajan_tabanli_simulasyon.py] (the classes
    [PiyasaOperatoru], [EndustriyelTesis], [IhracatciAjani], [MRVAjani],
    [Hanehalki], [ProjeGelistirici] and [TurkiyeETSModel]) and the
    properties of the emissions-trading design that are checked against it.

    Numbers: Python floats and ints that take part in arithmetic are exact
    rationals ([Q]); years, remaining investment durations and counters are
    integers ([Z]).  Objects are records, a mutated attribute is a record
    update, the agent roster is a list updated by position.  The random
    generators, the shuffle of the roster and the floating-point square root
    belong to libraries outside the repository and are taken as an
    interface ([Kutuphane]). *)

From Stdlib Require Import QArith Qpower Lqa ZArith List String Bool Lia.
From Stdlib Require Import Relations.Relation_Operators.
Import ListNotations.
Open Scope Q_scope.

(* ------------------------------------------------------------------ *)
(** ** Python arithmetic on rationals *)

Definition Qltb (a b : Q) : bool := negb (Qle_bool b a).
Definition Qgtb (a b : Q) : bool := Qltb b a.
Definition Qgeb (a b : Q) : bool := Qle_bool b a.

(** [max(a, b)] and [min(a, b)] keep the first argument on a tie. *)
Definition py_max (a b : Q) : Q := if Qgtb b a then b else a.
Definition py_min (a b : Q) : Q := if Qltb b a then b else a.
Definition py_abs (a : Q) : Q := if Qltb a 0 then - a else a.

(** [a / b] raises ZeroDivisionError on a zero divisor. *)
Definition py_div (a b : Q) : option Q :=
  if Qeq_bool b 0 then None else Some (a / b).

(** [range(a, b)] for naturals. *)
Definition range (a b : nat) : list nat := seq a (b - a).

(* ------------------------------------------------------------------ *)
(** ** ETS_PARAMS and SEKTOR_PROFILLERI *)

Definition PILOT_BASLANGIC : Z := 2026.
Definition TAM_UYGULAMA : Z := 2028.
Definition TABAN_FIYAT : Q := 20.
Definition TAVAN_FIYAT : Q := 150.
Definition CEZA_MIKTARI : Q := 100.

Inductive Duyarlilik := Vergi | Tesvik.
Inductive Durum := Aktif | Donusum | Temiz | Kapali.
Inductive Karar := yatirim | kapat | bekle.

Definition Duyarlilik_eqb (a b : Duyarlilik) : bool :=
  match a, b with Vergi, Vergi | Tesvik, Tesvik => true | _, _ => false end.

Definition Durum_eqb (a b : Durum) : bool :=
  match a, b with
  | Aktif, Aktif | Donusum, Donusum | Temiz, Temiz | Kapali, Kapali => true
  | _, _ => false
  end.

(** One abatement measure of a sector's catalog. *)
Record Onlem := { mac : Q; potansiyel : Q; sure : Z }.

Record Profil := {
  baz_emisyon : Q;
  ihracat_orani : Q;
  skdm_kapsam : bool;
  profil_maliyet_limit : Q;
  profil_yatirim_bedeli : Q;
  profil_duyarlilik : Duyarlilik;
  mac_onlemler : list (string * Onlem)   (* a dict, in insertion order *)
}.

Definition profil_Enerji : Profil :=
  {| baz_emisyon := 1.0; ihracat_orani := 0.05; skdm_kapsam := false;
     profil_maliyet_limit := 90; profil_yatirim_bedeli := 200;
     profil_duyarlilik := Vergi;
     mac_onlemler :=
       [ ("enerji_verimliligi"%string, {| mac := -15; potansiyel := 0.08; sure := 2 |});
         ("yakit_degisimi"%string, {| mac := 35; potansiyel := 0.20; sure := 3 |});
         ("yenilenebilir"%string, {| mac := 50; potansiyel := 0.35; sure := 5 |}) ] |}.

Definition profil_Sanayi : Profil :=
  {| baz_emisyon := 0.75; ihracat_orani := 0.40; skdm_kapsam := true;
     profil_maliyet_limit := 110; profil_yatirim_bedeli := 250;
     profil_duyarlilik := Vergi;
     mac_onlemler :=
       [ ("enerji_verimliligi"%string, {| mac := -5; potansiyel := 0.10; sure := 2 |});
         ("proses_iyilestirme"%string, {| mac := 25; potansiyel := 0.15; sure := 3 |});
         ("teknoloji_degisimi"%string, {| mac := 60; potansiyel := 0.30; sure := 6 |}) ] |}.

Definition profil_Tarim : Profil :=
  {| baz_emisyon := 0.3; ihracat_orani := 0.20; skdm_kapsam := false;
     profil_maliyet_limit := 999; profil_yatirim_bedeli := 300;
     profil_duyarlilik := Tesvik;
     mac_onlemler :=
       [ ("gubre_optimizasyonu"%string, {| mac := 10; potansiyel := 0.15; sure := 1 |});
         ("metan_yakalama"%string, {| mac := 40; potansiyel := 0.25; sure := 5 |}) ] |}.

Definition SEKTOR_PROFILLERI : list (string * Profil) :=
  [ ("Enerji"%string, profil_Enerji);
    ("Sanayi"%string, profil_Sanayi);
    ("Tarim"%string, profil_Tarim) ].

(** [d.get(k, v)] on a dict kept as an association list. *)
Fixpoint dict_get {A : Type} (d : list (string * A)) (k : string) (v : A) : A :=
  match d with
  | [] => v
  | (k', x) :: d' => if String.eqb k' k then x else dict_get d' k v
  end.

(** The attributes of the model object that the agents read and write. *)
Record Ortam := {
  yil : Z;
  karbon_fiyati : Q;
  ab_skdm_fiyat : Q;
  tesvik_miktari : Q;
  yenilenebilir_kapasite : Q
}.

(* ------------------------------------------------------------------ *)
(** ** class EndustriyelTesis *)

Module EndustriyelTesis.

Record t := {
  sektor : string;
  city : string;
  profil : Profil;
  emisyon : Q;
  baslangic_emisyon : Q;
  ihracatci : bool;
  durum : Durum;
  yatirim_durumu : option string;
  kalan_yatirim_suresi : Z;
  emisyon_azalma_potansiyeli : Q;
  maliyet_limit : Q;
  yatirim_bedeli : Q;
  duyarlilik : Duyarlilik;
  ucretsiz_tahsisat : Q;
  izin_bankasi : Q;
  net_emisyon : Q;
  ceza_durumu : bool;
  ceza_miktari : Q;
  (* the attribute [_yatirim_onlemi_kaydet]; [None] while it is not set *)
  yatirim_onlemi_kaydet : option (string * Onlem)
}.

(** Attribute assignments. *)

Definition set_emisyon (v : Q) (self : t) : t :=
  {| sektor := sektor self; city := city self; profil := profil self; emisyon := v;
     baslangic_emisyon := baslangic_emisyon self; ihracatci := ihracatci self; durum
     := durum self; yatirim_durumu := yatirim_durumu self; kalan_yatirim_suresi :=
     kalan_yatirim_suresi self; emisyon_azalma_potansiyeli :=
     emisyon_azalma_potansiyeli self; maliyet_limit := maliyet_limit self;
     yatirim_bedeli := yatirim_bedeli self; duyarlilik := duyarlilik self;
     ucretsiz_tahsisat := ucretsiz_tahsisat self; izin_bankasi := izin_bankasi self;
     net_emisyon := net_emisyon self; ceza_durumu := ceza_durumu self; ceza_miktari
     := ceza_miktari self; yatirim_onlemi_kaydet := yatirim_onlemi_kaydet self |}.

Definition set_durum (v : Durum) (self : t) : t :=
  {| sektor := sektor self; city := city self; profil := profil self; emisyon :=
     emisyon self; baslangic_emisyon := baslangic_emisyon self; ihracatci :=
     ihracatci self; durum := v; yatirim_durumu := yatirim_durumu self;
     kalan_yatirim_suresi := kalan_yatirim_suresi self; emisyon_azalma_potansiyeli
     := emisyon_azalma_potansiyeli self; maliyet_limit := maliyet_limit self;
     yatirim_bedeli := yatirim_bedeli self; duyarlilik := duyarlilik self;
     ucretsiz_tahsisat := ucretsiz_tahsisat self; izin_bankasi := izin_bankasi self;
     net_emisyon := net_emisyon self; ceza_durumu := ceza_durumu self; ceza_miktari
     := ceza_miktari self; yatirim_onlemi_kaydet := yatirim_onlemi_kaydet self |}.

Definition set_yatirim_durumu (v : option string) (self : t) : t :=
  {| sektor := sektor self; city := city self; profil := profil self; emisyon :=
     emisyon self; baslangic_emisyon := baslangic_emisyon self; ihracatci :=
     ihracatci self; durum := durum self; yatirim_durumu := v; kalan_yatirim_suresi
     := kalan_yatirim_suresi self; emisyon_azalma_potansiyeli :=
     emisyon_azalma_potansiyeli self; maliyet_limit := maliyet_limit self;
     yatirim_bedeli := yatirim_bedeli self; duyarlilik := duyarlilik self;
     ucretsiz_tahsisat := ucretsiz_tahsisat self; izin_bankasi := izin_bankasi self;
     net_emisyon := net_emisyon self; ceza_durumu := ceza_durumu self; ceza_miktari
     := ceza_miktari self; yatirim_onlemi_kaydet := yatirim_onlemi_kaydet self |}.

Definition set_kalan_yatirim_suresi (v : Z) (self : t) : t :=
  {| sektor := sektor self; city := city self; profil := profil self; emisyon :=
     emisyon self; baslangic_emisyon := baslangic_emisyon self; ihracatci :=
     ihracatci self; durum := durum self; yatirim_durumu := yatirim_durumu self;
     kalan_yatirim_suresi := v; emisyon_azalma_potansiyeli :=
     emisyon_azalma_potansiyeli self; maliyet_limit := maliyet_limit self;
     yatirim_bedeli := yatirim_bedeli self; duyarlilik := duyarlilik self;
     ucretsiz_tahsisat := ucretsiz_tahsisat self; izin_bankasi := izin_bankasi self;
     net_emisyon := net_emisyon self; ceza_durumu := ceza_durumu self; ceza_miktari
     := ceza_miktari self; yatirim_onlemi_kaydet := yatirim_onlemi_kaydet self |}.

Definition set_emisyon_azalma_potansiyeli (v : Q) (self : t) : t :=
  {| sektor := sektor self; city := city self; profil := profil self; emisyon :=
     emisyon self; baslangic_emisyon := baslangic_emisyon self; ihracatci :=
     ihracatci self; durum := durum self; yatirim_durumu := yatirim_durumu self;
     kalan_yatirim_suresi := kalan_yatirim_suresi self; emisyon_azalma_potansiyeli
     := v; maliyet_limit := maliyet_limit self; yatirim_bedeli := yatirim_bedeli
     self; duyarlilik := duyarlilik self; ucretsiz_tahsisat := ucretsiz_tahsisat self;
     izin_bankasi := izin_bankasi self; net_emisyon := net_emisyon self; ceza_durumu
     := ceza_durumu self; ceza_miktari := ceza_miktari self; yatirim_onlemi_kaydet :=
     yatirim_onlemi_kaydet self |}.

Definition set_ucretsiz_tahsisat (v : Q) (self : t) : t :=
  {| sektor := sektor self; city := city self; profil := profil self; emisyon :=
     emisyon self; baslangic_emisyon := baslangic_emisyon self; ihracatci :=
     ihracatci self; durum := durum self; yatirim_durumu := yatirim_durumu self;
     kalan_yatirim_suresi := kalan_yatirim_suresi self; emisyon_azalma_potansiyeli
     := emisyon_azalma_potansiyeli self; maliyet_limit := maliyet_limit self;
     yatirim_bedeli := yatirim_bedeli self; duyarlilik := duyarlilik self;
     ucretsiz_tahsisat := v; izin_bankasi := izin_bankasi self; net_emisyon :=
     net_emisyon self; ceza_durumu := ceza_durumu self; ceza_miktari := ceza_miktari
     self; yatirim_onlemi_kaydet := yatirim_onlemi_kaydet self |}.

Definition set_izin_bankasi (v : Q) (self : t) : t :=
  {| sektor := sektor self; city := city self; profil := profil self; emisyon :=
     emisyon self; baslangic_emisyon := baslangic_emisyon self; ihracatci :=
     ihracatci self; durum := durum self; yatirim_durumu := yatirim_durumu self;
     kalan_yatirim_suresi := kalan_yatirim_suresi self; emisyon_azalma_potansiyeli
     := emisyon_azalma_potansiyeli self; maliyet_limit := maliyet_limit self;
     yatirim_bedeli := yatirim_bedeli self; duyarlilik := duyarlilik self;
     ucretsiz_tahsisat := ucretsiz_tahsisat self; izin_bankasi := v; net_emisyon
     := net_emisyon self; ceza_durumu := ceza_durumu self; ceza_miktari :=
     ceza_miktari self; yatirim_onlemi_kaydet := yatirim_onlemi_kaydet self |}.

Definition set_net_emisyon (v : Q) (self : t) : t :=
  {| sektor := sektor self; city := city self; profil := profil self; emisyon :=
     emisyon self; baslangic_emisyon := baslangic_emisyon self; ihracatci :=
     ihracatci self; durum := durum self; yatirim_durumu := yatirim_durumu self;
     kalan_yatirim_suresi := kalan_yatirim_suresi self; emisyon_azalma_potansiyeli
     := emisyon_azalma_potansiyeli self; maliyet_limit := maliyet_limit self;
     yatirim_bedeli := yatirim_bedeli self; duyarlilik := duyarlilik self;
     ucretsiz_tahsisat := ucretsiz_tahsisat self; izin_bankasi := izin_bankasi self;
     net_emisyon := v; ceza_durumu := ceza_durumu self; ceza_miktari :=
     ceza_miktari self; yatirim_onlemi_kaydet := yatirim_onlemi_kaydet self |}.

Definition set_ceza_durumu (v : bool) (self : t) : t :=
  {| sektor := sektor self; city := city self; profil := profil self; emisyon :=
     emisyon self; baslangic_emisyon := baslangic_emisyon self; ihracatci :=
     ihracatci self; durum := durum self; yatirim_durumu := yatirim_durumu self;
     kalan_yatirim_suresi := kalan_yatirim_suresi self; emisyon_azalma_potansiyeli
     := emisyon_azalma_potansiyeli self; maliyet_limit := maliyet_limit self;
     yatirim_bedeli := yatirim_bedeli self; duyarlilik := duyarlilik self;
     ucretsiz_tahsisat := ucretsiz_tahsisat self; izin_bankasi := izin_bankasi self;
     net_emisyon := net_emisyon self; ceza_durumu := v; ceza_miktari :=
     ceza_miktari self; yatirim_onlemi_kaydet := yatirim_onlemi_kaydet self |}.

Definition set_ceza_miktari (v : Q) (self : t) : t :=
  {| sektor := sektor self; city := city self; profil := profil self; emisyon :=
     emisyon self; baslangic_emisyon := baslangic_emisyon self; ihracatci :=
     ihracatci self; durum := durum self; yatirim_durumu := yatirim_durumu self;
     kalan_yatirim_suresi := kalan_yatirim_suresi self; emisyon_azalma_potansiyeli
     := emisyon_azalma_potansiyeli self; maliyet_limit := maliyet_limit self;
     yatirim_bedeli := yatirim_bedeli self; duyarlilik := duyarlilik self;
     ucretsiz_tahsisat := ucretsiz_tahsisat self; izin_bankasi := izin_bankasi self;
     net_emisyon := net_emisyon self; ceza_durumu := ceza_durumu self; ceza_miktari
     := v; yatirim_onlemi_kaydet := yatirim_onlemi_kaydet self |}.

Definition set_yatirim_onlemi_kaydet (v : option (string * Onlem)) (self : t) : t :=
  {| sektor := sektor self; city := city self; profil := profil self; emisyon :=
     emisyon self; baslangic_emisyon := baslangic_emisyon self; ihracatci :=
     ihracatci self; durum := durum self; yatirim_durumu := yatirim_durumu self;
     kalan_yatirim_suresi := kalan_yatirim_suresi self; emisyon_azalma_potansiyeli
     := emisyon_azalma_potansiyeli self; maliyet_limit := maliyet_limit self;
     yatirim_bedeli := yatirim_bedeli self; duyarlilik := duyarlilik self;
     ucretsiz_tahsisat := ucretsiz_tahsisat self; izin_bankasi := izin_bankasi self;
     net_emisyon := net_emisyon self; ceza_durumu := ceza_durumu self; ceza_miktari
     := ceza_miktari self; yatirim_onlemi_kaydet := v |}.


(** [__init__]: [uniform] is the draw of [np.random.uniform(0.7, 1.3)],
    [zar] the draw of [random.random()], [il_katsayi] the regional
    coefficient looked up by the caller. *)
Definition init (sektor_adi sehir : string) (il_katsayi uniform zar : Q) : t :=
  let p := dict_get SEKTOR_PROFILLERI sektor_adi profil_Sanayi in
  let e := baz_emisyon p * uniform * il_katsayi in
  {| sektor := sektor_adi; city := sehir; profil := p;
     emisyon := e; baslangic_emisyon := e;
     ihracatci := Qltb zar (ihracat_orani p);
     durum := Aktif; yatirim_durumu := None; kalan_yatirim_suresi := 0;
     emisyon_azalma_potansiyeli := 0;
     maliyet_limit := profil_maliyet_limit p;
     yatirim_bedeli := profil_yatirim_bedeli p;
     duyarlilik := profil_duyarlilik p;
     ucretsiz_tahsisat := 0; izin_bankasi := 0; net_emisyon := 0;
     ceza_durumu := false; ceza_miktari := 0;
     yatirim_onlemi_kaydet := None |}.

(** Step 1 of [step]: the effective carbon price. *)
Definition efektif_fiyat (m : Ortam) (self : t) : Q :=
  if ihracatci self && skdm_kapsam (profil self)
  then py_max (karbon_fiyati m) (ab_skdm_fiyat m)
  else karbon_fiyati m.

(** Step 2 of [step]: free allocation and banking. *)
Definition tahsisat_ve_bankalama (m : Ortam) (self : t) : t :=
  if (yil m >=? PILOT_BASLANGIC)%Z then
    let ucretsiz_oran := if (yil m <? TAM_UYGULAMA)%Z then 1.0 else 0.7 in
    let self := set_ucretsiz_tahsisat (baslangic_emisyon self * ucretsiz_oran) self in
    let fazla_tahsisat := ucretsiz_tahsisat self - emisyon self in
    if Qgtb fazla_tahsisat 0 then
      let self := set_izin_bankasi (izin_bankasi self + fazla_tahsisat) self in
      set_net_emisyon 0 self
    else
      let eksik := py_abs fazla_tahsisat in
      let bankadan_kullan := py_min eksik (izin_bankasi self) in
      let self := set_izin_bankasi (izin_bankasi self - bankadan_kullan) self in
      set_net_emisyon (eksik - bankadan_kullan) self
  else
    set_net_emisyon 0 self.

(** Step 3 of [step]: one more year of a running investment. *)
Definition yatirim_ilerlet (self : t) : t :=
  let self := set_kalan_yatirim_suresi (kalan_yatirim_suresi self - 1) self in
  if (kalan_yatirim_suresi self =? 0)%Z then
    let self := set_emisyon (emisyon self * (1 - emisyon_azalma_potansiyeli self)) self in
    let self := set_durum Temiz self in
    set_ceza_durumu false self
  else self.

(** The discount rate and the economic life of [_karar_ver]. *)
Definition r : Q := 0.08.
Definition ekonomik_omur : nat := 10.

(** The NPV of one measure, as the inner loop of [_karar_ver] adds it up. *)
Definition npv_hesapla (emisyon_ fiyat : Q) (onlem : Onlem) : Q :=
  let yillik_azaltim := emisyon_ * potansiyel onlem in
  let yillik_tasarruf := yillik_azaltim * fiyat * 1000000 in   (* 1e6 *)
  let yatirim_maliyeti :=
    if Qgtb (mac onlem) 0 then yillik_azaltim * mac onlem * 1000000 else 0 in
  fold_left (fun npv k => npv + yillik_tasarruf / (1 + r) ^ Z.of_nat k)
            (range 1 (ekonomik_omur + 1)) (- yatirim_maliyeti).

Arguments npv_hesapla : simpl never.

(** One pass of the loop over the catalog: the running best NPV and measure. *)
Definition onlem_degerlendir (emisyon_ fiyat : Q)
    (en_iyi : Q * option (string * Onlem)) (kv : string * Onlem)
    : Q * option (string * Onlem) :=
  if Qgeb (mac (snd kv)) fiyat then en_iyi
  else
    let npv := npv_hesapla emisyon_ fiyat (snd kv) in
    if Qgtb npv (fst en_iyi) then (npv, Some kv) else en_iyi.

Definition en_iyi_onlem_bul (emisyon_ fiyat : Q) (onlemler : list (string * Onlem))
    : Q * option (string * Onlem) :=
  fold_left (onlem_degerlendir emisyon_ fiyat) onlemler (-9999, None).

(** [_karar_ver]: the decision, and the object with the measure it saved. *)
Definition karar_ver (m : Ortam) (self : t) (fiyat : Q) : Karar * t :=
  if Duyarlilik_eqb (duyarlilik self) Tesvik then
    if Qgeb (tesvik_miktari m) (yatirim_bedeli self * 0.6 * 1000)
    then (yatirim, self) else (bekle, self)
  else if ceza_durumu self then (yatirim, self)
  else
    let en_iyi := en_iyi_onlem_bul (emisyon self) fiyat (mac_onlemler (profil self)) in
    if Qgtb (fst en_iyi) 0 then
      (yatirim, set_yatirim_onlemi_kaydet (snd en_iyi) self)
    else if Qgtb (net_emisyon self) 0
              && Qgtb (net_emisyon self * fiyat) (maliyet_limit self)
    then (kapat, self)
    else (bekle, self).

(** The fallback of [_yatirim_baslat]: the first measure below the price. *)
Fixpoint ilk_uygun_onlem (onlemler : list (string * Onlem)) (fiyat : Q)
    : option (string * Onlem) :=
  match onlemler with
  | [] => None
  | kv :: rest =>
      if Qltb (mac (snd kv)) fiyat then Some kv else ilk_uygun_onlem rest fiyat
  end.

(** [_yatirim_baslat]. *)
Definition yatirim_baslat (self : t) (fiyat : Q) : t :=
  let secilen :=
    match yatirim_onlemi_kaydet self with
    | Some kv => Some kv
    | None => ilk_uygun_onlem (mac_onlemler (profil self)) fiyat
    end in
  match secilen with
  | Some (onlem_adi, onlem) =>
      let self := set_yatirim_durumu (Some onlem_adi) self in
      let self := set_kalan_yatirim_suresi (sure onlem) self in
      let self := set_emisyon_azalma_potansiyeli (potansiyel onlem) self in
      set_durum Donusum self
  | None =>
      let self := set_yatirim_durumu (Some "genel_iyilestirme"%string) self in
      let self := set_kalan_yatirim_suresi 3 self in
      let self := set_emisyon_azalma_potansiyeli 0.20 self in
      set_durum Donusum self
  end.

(** Step 4 of [step]: the decision of an active facility. *)
Definition karar_uygula (m : Ortam) (self : t) (fiyat : Q) : t :=
  if Durum_eqb (durum self) Aktif then
    let (karar, self) := karar_ver m self fiyat in
    match karar with
    | yatirim => yatirim_baslat self fiyat
    | kapat => set_emisyon 0 (set_durum Kapali self)
    | bekle => self
    end
  else self.

(** [step]. *)
Definition step (m : Ortam) (self : t) : t :=
  if Durum_eqb (durum self) Kapali then self
  else
    let fiyat := efektif_fiyat m self in
    let self := tahsisat_ve_bankalama m self in
    if (kalan_yatirim_suresi self >? 0)%Z then yatirim_ilerlet self
    else karar_uygula m self fiyat.

End EndustriyelTesis.

(* ------------------------------------------------------------------ *)
(** ** class IhracatciAjani(EndustriyelTesis) *)

Module IhracatciAjani.

(** The inherited object with the attributes the subclass adds. *)
Record t := {
  taban : EndustriyelTesis.t;
  ihracat_payi : Q;
  cbam_maliyeti : Q;
  rekabet_gucu_indeksi : Q
}.

Definition init (sektor_adi sehir : string) (il_katsayi uniform zar : Q) : t :=
  let b := EndustriyelTesis.init sektor_adi sehir il_katsayi uniform zar in
  {| taban := b;
     ihracat_payi := ihracat_orani (EndustriyelTesis.profil b);
     cbam_maliyeti := 0.0;
     rekabet_gucu_indeksi := 1.0 |}.

(** [_rekabet_gucu_hesapla]. *)
Definition rekabet_gucu_hesapla (self : t) : t :=
  let maliyet_esik := 50 in
  {| taban := taban self; ihracat_payi := ihracat_payi self;
     cbam_maliyeti := cbam_maliyeti self;
     rekabet_gucu_indeksi :=
       if Qgtb (cbam_maliyeti self) 0
       then py_max 0.3 (1.0 - (cbam_maliyeti self / maliyet_esik) * 0.1)
       else 1.0 |}.

Definition set_cbam_maliyeti (v : Q) (self : t) : t :=
  {| taban := taban self; ihracat_payi := ihracat_payi self;
     cbam_maliyeti := v; rekabet_gucu_indeksi := rekabet_gucu_indeksi self |}.

Definition set_taban (v : EndustriyelTesis.t) (self : t) : t :=
  {| taban := v; ihracat_payi := ihracat_payi self;
     cbam_maliyeti := cbam_maliyeti self;
     rekabet_gucu_indeksi := rekabet_gucu_indeksi self |}.

(** The border-adjustment block of [step]. *)
Definition cbam_hesapla (m : Ortam) (self : t) : t :=
  let b := taban self in
  if EndustriyelTesis.ihracatci b && skdm_kapsam (EndustriyelTesis.profil b) then
    let self := set_cbam_maliyeti (EndustriyelTesis.emisyon b * ab_skdm_fiyat m) self in
    let self :=
      if Qgtb (karbon_fiyati m) 0 then
        let dusilebilir_miktar :=
          py_min (cbam_maliyeti self) (EndustriyelTesis.emisyon b * karbon_fiyati m) in
        set_cbam_maliyeti (cbam_maliyeti self - dusilebilir_miktar) self
      else self in
    rekabet_gucu_hesapla self
  else set_cbam_maliyeti 0.0 self.

(** [step]: the border-adjustment cost, then [super().step()]. *)
Definition step (m : Ortam) (self : t) : t :=
  if Durum_eqb (EndustriyelTesis.durum (taban self)) Kapali then self
  else
    let self := cbam_hesapla m self in
    set_taban (EndustriyelTesis.step m (taban self)) self.

End IhracatciAjani.

(* ------------------------------------------------------------------ *)
(** ** class Hanehalki *)

(** [TurkiyeETSModel.EMISYON_FAKTORU_TR]. *)
Definition EMISYON_FAKTORU_TR : Q := 0.442.

Inductive GelirGrubu := dusuk | orta | yuksek.

Module Hanehalki.

Record t := {
  city : string;
  gelir_grubu : GelirGrubu;
  tuketim : Q;
  emisyon : Q;
  baslangic_emisyon : Q;
  durum : Durum;
  elastikiyet : Q
}.

Definition tuketim_aralik (g : GelirGrubu) : Q * Q :=
  match g with
  | dusuk => (1500, 2500)
  | orta => (2500, 4000)
  | yuksek => (4000, 6000)
  end.

Definition elastikiyet_tablosu (g : GelirGrubu) : Q :=
  match g with
  | dusuk => -0.6
  | orta => -0.4
  | yuksek => -0.25
  end.

(** [__init__]: [g] is the bracket drawn by [random.choice], [tuketim_]
    the draw of [np.random.uniform] from the bracket's range. *)
Definition init (sehir : string) (g : GelirGrubu) (tuketim_ : Q) : t :=
  let e := (tuketim_ / 1000) * EMISYON_FAKTORU_TR in
  {| city := sehir; gelir_grubu := g; tuketim := tuketim_;
     emisyon := e; baslangic_emisyon := e; durum := Aktif;
     elastikiyet := elastikiyet_tablosu g |}.

Definition set_emisyon (v : Q) (self : t) : t :=
  {| city := city self; gelir_grubu := gelir_grubu self;
     tuketim := tuketim self; emisyon := v;
     baslangic_emisyon := baslangic_emisyon self; durum := durum self;
     elastikiyet := elastikiyet self |}.

(** [step]. *)
Definition step (m : Ortam) (self : t) : t :=
  if negb (Durum_eqb (durum self) Aktif) then self
  else if Qgtb (karbon_fiyati m) 0 then
    let fiyat_orani := karbon_fiyati m / 100 in
    let fiyat_etkisi := py_max 0.5 (1 + elastikiyet self * fiyat_orani) in
    set_emisyon ((tuketim self / 1000) * EMISYON_FAKTORU_TR * fiyat_etkisi) self
  else
    set_emisyon ((tuketim self / 1000) * EMISYON_FAKTORU_TR) self.

End Hanehalki.

(* ------------------------------------------------------------------ *)
(** ** class ProjeGelistirici *)

Module ProjeGelistirici.

Record Proje := { tip : string; proje_kapasite : Q; proje_yil : Z }.

Record t := {
  sermaye : Q;
  risk_primi : Q;
  projeler : list Proje;
  toplam_kapasite : Q
}.

(** The two draws of [np.random.uniform] are the arguments. *)
Definition init (sermaye_ risk_primi_ : Q) : t :=
  {| sermaye := sermaye_; risk_primi := risk_primi_;
     projeler := []; toplam_kapasite := 0 |}.

Record ProjeTipi := { kapasite : Q; yatirim_birim : Q; kf : Q; omur : nat }.

Definition proje_tipleri : list (string * ProjeTipi) :=
  [ ("GES"%string, {| kapasite := 10; yatirim_birim := 700000; kf := 0.18; omur := 25 |});
    ("RES"%string, {| kapasite := 20; yatirim_birim := 1200000; kf := 0.35; omur := 25 |}) ].

(** [_npv_hesapla]. *)
Definition npv_hesapla (self : t) (params : ProjeTipi) (karbon_fiyati_ tesvik : Q) : Q :=
  let yatirim_ := kapasite params * yatirim_birim params in
  let yillik_uretim := kapasite params * kf params * 8760 in
  let enerji_fiyati := 80 in
  let enerji_geliri := yillik_uretim * enerji_fiyati in
  let karbon_geliri := yillik_uretim * 0.5 * karbon_fiyati_ in
  let tesvik_geliri := tesvik * kapasite params in
  let yillik_gelir := enerji_geliri + karbon_geliri + tesvik_geliri in
  fold_left (fun npv k => npv + yillik_gelir / (1 + risk_primi self) ^ Z.of_nat k)
            (range 1 (omur params + 1)) (- yatirim_).

(** One pass of the loop of [step] over the project types; the second
    component is [model.yenilenebilir_kapasite]. *)
Definition proje_degerlendir (yil_ : Z) (karbon_fiyati_ tesvik : Q)
    (st : t * Q) (kv : string * ProjeTipi) : t * Q :=
  let (self, yenilenebilir) := st in
  let params := snd kv in
  let toplam_yatirim := kapasite params * yatirim_birim params in
  if Qgeb (sermaye self) toplam_yatirim then
    if Qgtb (npv_hesapla self params karbon_fiyati_ tesvik) 0 then
      ({| sermaye := sermaye self - toplam_yatirim;
          risk_primi := risk_primi self;
          projeler := projeler self ++
            [ {| tip := fst kv; proje_kapasite := kapasite params; proje_yil := yil_ |} ];
          toplam_kapasite := toplam_kapasite self + kapasite params |},
       yenilenebilir + kapasite params)
    else st
  else st.

(** [step]: the developer and the model's renewable capacity after it. *)
Definition step (m : Ortam) (self : t) : t * Q :=
  fold_left (proje_degerlendir (yil m) (karbon_fiyati m) (tesvik_miktari m))
            proje_tipleri (self, yenilenebilir_kapasite m).

End ProjeGelistirici.

(* ------------------------------------------------------------------ *)
(** ** The agent roster *)

(** An entry of [model.agents].  The market operator and the monitoring
    agent are the objects [model.piyasa_operatoru] and [model.mrv_merkezi]:
    their roster entries are references to those attributes. *)
Inductive Ajan :=
| Ref_piyasa_operatoru
| Ref_mrv_merkezi
| Tesis (a : EndustriyelTesis.t)
| IhracatciTesis (a : IhracatciAjani.t)
| HanehalkiAjan (a : Hanehalki.t)
| Gelistirici (a : ProjeGelistirici.t).

(** The facility attributes of an agent whose [ajan_tipi] is ["Tesis"] or
    ["IhracatciTesis"]. *)
Definition tesis_gorunumu (a : Ajan) : option EndustriyelTesis.t :=
  match a with
  | Tesis x => Some x
  | IhracatciTesis x => Some (IhracatciAjani.taban x)
  | _ => None
  end.

(** Writing facility attributes back through the reference. *)
Definition tesis_yaz (a : Ajan) (x : EndustriyelTesis.t) : Ajan :=
  match a with
  | Tesis _ => Tesis x
  | IhracatciTesis i => IhracatciTesis (IhracatciAjani.set_taban x i)
  | _ => a
  end.

(** Python's [sum] of a generator of numbers. *)
Definition py_sum (l : list Q) : Q := fold_left Qplus l 0.

Fixpoint secilenler {A B : Type} (f : A -> option B) (l : list A) : list B :=
  match l with
  | [] => []
  | a :: l' =>
      match f a with
      | Some b => b :: secilenler f l'
      | None => secilenler f l'
      end
  end.

(* ------------------------------------------------------------------ *)
(** ** The libraries outside the repository *)

(** Python's [random], NumPy's [np.random], the shuffle that Mesa's
    [AgentSet.shuffle_do] performs with [model.random], and the float
    operation [x ** 0.5].  Nothing is assumed about them. *)
Class Kutuphane := {
  Uretec : Type;                                  (* state of a [random.Random] *)
  NpUretec : Type;                                (* state of [np.random] *)
  py_seed : Z -> Uretec;                          (* [random.seed(s)], [Random(s)] *)
  py_random : Uretec -> Q * Uretec;               (* [random.random()] *)
  py_randbelow : Uretec -> nat -> nat * Uretec;   (* the index [random.choice] draws *)
  py_shuffle : Uretec -> nat -> list nat * Uretec;(* positions in shuffled order *)
  np_seed : Z -> NpUretec;                        (* [np.random.seed(s)] *)
  np_uniform : NpUretec -> Q -> Q -> Q * NpUretec;(* [np.random.uniform(a, b)] *)
  us_yarim : Q -> Q                               (* [x ** 0.5] *)
}.

(** The module-level generators [random] and [np.random]: process-wide
    state, shared by every model object. *)
Record Zar `{Kutuphane} := { py_durum : Uretec; np_durum : NpUretec }.

(** Computations that draw from the module-level generators. *)
Definition Rastgele `{Kutuphane} (A : Type) : Type := Zar -> A * Zar.

Definition ret `{Kutuphane} {A : Type} (a : A) : Rastgele A := fun z => (a, z).

Definition bind `{Kutuphane} {A B : Type} (c : Rastgele A) (k : A -> Rastgele B)
    : Rastgele B :=
  fun z => let (a, z') := c z in k a z'.

Notation "x <- c ;; k" := (bind c (fun x => k))
  (at level 61, c at next level, right associativity).

Definition random_random `{Kutuphane} : Rastgele Q :=
  fun z => let (x, g) := py_random (py_durum z) in
           (x, {| py_durum := g; np_durum := np_durum z |}).

Definition random_choice `{Kutuphane} {A : Type} (l : list A) (d : A) : Rastgele A :=
  fun z => let (i, g) := py_randbelow (py_durum z) (List.length l) in
           (nth i l d, {| py_durum := g; np_durum := np_durum z |}).

Definition np_random_uniform `{Kutuphane} (a b : Q) : Rastgele Q :=
  fun z => let (x, g) := np_uniform (np_durum z) a b in
           (x, {| py_durum := py_durum z; np_durum := g |}).

(** [for x in l: st = f(st, x)] with draws. *)
Fixpoint dongu `{Kutuphane} {A St : Type} (f : St -> A -> Rastgele St) (l : list A) (st : St)
    : Rastgele St :=
  match l with
  | [] => ret st
  | a :: l' => st' <- f st a ;; dongu f l' st'
  end.

(* ------------------------------------------------------------------ *)
(** ** class PiyasaOperatoru *)

Module PiyasaOperatoru.

Record t := {
  cap : Q;
  azalma_orani : Q;
  piyasa_fiyati : Q;
  fiyat_gecmisi : list Q;
  toplam_gelir : Q
}.

Definition init (baslangic_cap azalma_orani_ : Q) : t :=
  {| cap := baslangic_cap; azalma_orani := azalma_orani_;
     piyasa_fiyati := TABAN_FIYAT; fiyat_gecmisi := []; toplam_gelir := 0 |}.

(** [_toplam_emisyon_hesapla]. *)
Definition toplam_emisyon_hesapla (agents : list Ajan) : Q :=
  py_sum (secilenler
    (fun a => match tesis_gorunumu a with
              | Some x => if negb (Durum_eqb (EndustriyelTesis.durum x) Kapali)
                          then Some (EndustriyelTesis.emisyon x) else None
              | None => None
              end) agents).

Definition set_cap (v : Q) (self : t) : t :=
  {| cap := v; azalma_orani := azalma_orani self;
     piyasa_fiyati := piyasa_fiyati self;
     fiyat_gecmisi := fiyat_gecmisi self; toplam_gelir := toplam_gelir self |}.

(** The price block of [step]; [None] is an exception. *)
Definition fiyat_belirle `{Kutuphane} (yil_ : Z) (cap_ toplam_emisyon : Q) : option Q :=
  if (yil_ >=? PILOT_BASLANGIC)%Z && Qgtb cap_ 0 && Qgtb toplam_emisyon 0 then
    match py_div toplam_emisyon cap_ with
    | None => None
    | Some arz_talep_orani =>
        let fiyat :=
          if Qgtb arz_talep_orani 1
          then TABAN_FIYAT * arz_talep_orani ^ 2
          else TABAN_FIYAT * us_yarim arz_talep_orani in
        Some (py_max TABAN_FIYAT (py_min TAVAN_FIYAT fiyat))
    end
  else Some 0.

(** [step]: the operator after the step and the price it publishes as
    [model.karbon_fiyati]; [None] is an exception. *)
Definition step `{Kutuphane} (m : Ortam) (agents : list Ajan) (self : t) : option (t * Q) :=
  let self :=
    if (yil m >=? PILOT_BASLANGIC)%Z
    then set_cap (cap self * (1 - azalma_orani self)) self else self in
  let toplam_emisyon := toplam_emisyon_hesapla agents in
  match fiyat_belirle (yil m) (cap self) toplam_emisyon with
  | None => None
  | Some fiyat =>
      let acik_artirma_orani := 0.3 in
      let acik_artirma_miktari := cap self * acik_artirma_orani in
      Some ({| cap := cap self; azalma_orani := azalma_orani self;
               piyasa_fiyati := fiyat;
               fiyat_gecmisi := fiyat_gecmisi self ++ [fiyat];
               toplam_gelir :=
                 if (yil m >=? TAM_UYGULAMA)%Z && Qgtb fiyat 0
                 then toplam_gelir self + acik_artirma_miktari * fiyat
                 else toplam_gelir self |},
            fiyat)
  end.

End PiyasaOperatoru.

(* ------------------------------------------------------------------ *)
(** ** class MRVAjani *)

Module MRVAjani.

Record t := {
  denetim_olasiligi : Q;
  ceza_miktari : Q;
  toplam_denetim : Z;
  toplam_ceza : Q;
  uyumsuz_tesis_sayisi : Z
}.

Definition init : t :=
  {| denetim_olasiligi := 0.2; ceza_miktari := CEZA_MIKTARI;
     toplam_denetim := 0; toplam_ceza := 0.0; uyumsuz_tesis_sayisi := 0 |}.

(** What an audit writes on a non-compliant facility. *)
Definition ceza_yaz (ceza : Q) (x : EndustriyelTesis.t) : EndustriyelTesis.t :=
  EndustriyelTesis.set_ceza_miktari ceza (EndustriyelTesis.set_ceza_durumu true x).

(** The body of the loop of [step] for one agent of the roster: the agent
    list built so far is extended with the agent as the audit leaves it. *)
Definition denetle `{Kutuphane} (st : t * list Ajan) (a : Ajan) : Rastgele (t * list Ajan) :=
  let (self, gorulen) := st in
  match tesis_gorunumu a with
  | Some x =>
      if negb (Durum_eqb (EndustriyelTesis.durum x) Kapali) then
        z1 <- random_random ;;
        if Qltb z1 (denetim_olasiligi self) then
          let self :=
            {| denetim_olasiligi := denetim_olasiligi self;
               ceza_miktari := ceza_miktari self;
               toplam_denetim := toplam_denetim self + 1;
               toplam_ceza := toplam_ceza self;
               uyumsuz_tesis_sayisi := uyumsuz_tesis_sayisi self |} in
          z2 <- random_random ;;
          if Qltb z2 0.05 then
            u <- np_random_uniform 0.05 0.15 ;;
            let eksik_emisyon := EndustriyelTesis.emisyon x * u in
            let ceza := eksik_emisyon * ceza_miktari self in
            ret ({| denetim_olasiligi := denetim_olasiligi self;
                    ceza_miktari := ceza_miktari self;
                    toplam_denetim := toplam_denetim self;
                    toplam_ceza := toplam_ceza self + ceza;
                    uyumsuz_tesis_sayisi := uyumsuz_tesis_sayisi self + 1 |},
                 gorulen ++ [tesis_yaz a (ceza_yaz ceza x)])
          else ret (self, gorulen ++ [a])
        else ret (self, gorulen ++ [a])
      else ret (self, gorulen ++ [a])
  | None => ret (self, gorulen ++ [a])
  end.

(** [step]: the agent and the roster after the audits. *)
Definition step `{Kutuphane} (agents : list Ajan) (self : t) : Rastgele (t * list Ajan) :=
  let self :=
    {| denetim_olasiligi := denetim_olasiligi self;
       ceza_miktari := ceza_miktari self;
       toplam_denetim := toplam_denetim self;
       toplam_ceza := toplam_ceza self;
       uyumsuz_tesis_sayisi := 0 |} in
  dongu denetle agents (self, []).

End MRVAjani.

(* ------------------------------------------------------------------ *)
(** ** class TurkiyeETSModel *)

(** The arguments of the constructor. *)
Module Ayarlar.

Record t := {
  n_enerji : Z;
  n_sanayi : Z;
  n_tarim : Z;
  n_yatirimci : Z;
  n_ihracatci : Z;
  n_hanehalki : Z;
  baslangic_cap : Q;
  cap_azalma_orani : Q;
  ab_skdm_fiyat : Q;
  tesvik_miktari : Q;
  vergi_artis_orani : Q;
  senaryo_tipi : string;
  veritabani_kullan : bool;
  random_seed : option Z
}.

End Ayarlar.

(** What the constructor reads from outside the program: the clock (the
    integer [int(datetime.now().timestamp() * 1000)]) and the table of
    regional coefficients that [_veritabani_yukle] builds from the SQLite
    file (empty when the file or the table is missing). *)
Record Dis := {
  saat_ms : Z;
  il_tablosu : list (string * list (string * Q))
}.

(** One row of the data collector. *)
Record Satir := {
  Yil : Z;
  Karbon_Fiyati : Q;
  Toplam_Emisyon : Q;
  Aktif_Tesis : Z;
  Donusum_Tesis : Z;
  Temiz_Tesis : Z;
  Kapali_Tesis : Z;
  Yenilenebilir_Kapasite_MW : Q;
  Cap : Q;
  Senaryo : string;
  CBAM_Toplam_Maliyet : Q;
  MRV_Toplam_Ceza : Q;
  Ihracatci_Tesis : Z;
  Hanehalki_Sayisi : Z;
  Hanehalki_Emisyon : Q
}.

(** [str.lower] on ASCII letters. *)
Definition kucuk_harf (c : Ascii.ascii) : Ascii.ascii :=
  let n := Ascii.nat_of_ascii c in
  if ((65 <=? n) && (n <=? 90))%nat then Ascii.ascii_of_nat (n + 32) else c.

Fixpoint lower (s : string) : string :=
  match s with
  | EmptyString => EmptyString
  | String c s' => String (kucuk_harf c) (lower s')
  end.

(** [l[i] = x]; the roster never changes its length. *)
Fixpoint liste_yaz {A : Type} (i : nat) (x : A) (l : list A) : list A :=
  match l, i with
  | [], _ => []
  | _ :: l', O => x :: l'
  | a :: l', S i' => a :: liste_yaz i' x l'
  end.

Definition set_yil (v : Z) (m : Ortam) : Ortam :=
  {| yil := v; karbon_fiyati := karbon_fiyati m; ab_skdm_fiyat := ab_skdm_fiyat m;
     tesvik_miktari := tesvik_miktari m;
     yenilenebilir_kapasite := yenilenebilir_kapasite m |}.

Definition set_karbon_fiyati (v : Q) (m : Ortam) : Ortam :=
  {| yil := yil m; karbon_fiyati := v; ab_skdm_fiyat := ab_skdm_fiyat m;
     tesvik_miktari := tesvik_miktari m;
     yenilenebilir_kapasite := yenilenebilir_kapasite m |}.

Definition set_yenilenebilir_kapasite (v : Q) (m : Ortam) : Ortam :=
  {| yil := yil m; karbon_fiyati := karbon_fiyati m; ab_skdm_fiyat := ab_skdm_fiyat m;
     tesvik_miktari := tesvik_miktari m; yenilenebilir_kapasite := v |}.

Module TurkiyeETSModel.

Section Model.
Context `{K : Kutuphane}.

Record t := {
  ortam : Ortam;
  vergi_artis_orani : Q;
  senaryo_tipi : string;
  ets_aktif : bool;
  acik_artirma_aktif : bool;
  il_katsayilari : list (string * list (string * Q));
  iller : list string;
  piyasa_operatoru : PiyasaOperatoru.t;
  mrv_merkezi : MRVAjani.t;
  agents : list Ajan;
  random : Uretec;                 (* [model.random], seeded by Mesa *)
  datacollector : list Satir
}.

Definition set_ortam (v : Ortam) (self : t) : t :=
  {| ortam := v; vergi_artis_orani := vergi_artis_orani self; senaryo_tipi
     := senaryo_tipi self; ets_aktif := ets_aktif self; acik_artirma_aktif :=
     acik_artirma_aktif self; il_katsayilari := il_katsayilari self; iller :=
     iller self; piyasa_operatoru := piyasa_operatoru self; mrv_merkezi :=
     mrv_merkezi self; agents := agents self; random := random self;
     datacollector := datacollector self |}.

Definition set_ets_aktif (v : bool) (self : t) : t :=
  {| ortam := ortam self; vergi_artis_orani := vergi_artis_orani self;
     senaryo_tipi := senaryo_tipi self; ets_aktif := v; acik_artirma_aktif :=
     acik_artirma_aktif self; il_katsayilari := il_katsayilari self; iller :=
     iller self; piyasa_operatoru := piyasa_operatoru self; mrv_merkezi :=
     mrv_merkezi self; agents := agents self; random := random self;
     datacollector := datacollector self |}.

Definition set_acik_artirma_aktif (v : bool) (self : t) : t :=
  {| ortam := ortam self; vergi_artis_orani := vergi_artis_orani self;
     senaryo_tipi := senaryo_tipi self; ets_aktif := ets_aktif self;
     acik_artirma_aktif := v; il_katsayilari := il_katsayilari self; iller :=
     iller self; piyasa_operatoru := piyasa_operatoru self; mrv_merkezi :=
     mrv_merkezi self; agents := agents self; random := random self;
     datacollector := datacollector self |}.

Definition set_piyasa_operatoru (v : PiyasaOperatoru.t) (self : t) : t :=
  {| ortam := ortam self; vergi_artis_orani := vergi_artis_orani self;
     senaryo_tipi := senaryo_tipi self; ets_aktif := ets_aktif self;
     acik_artirma_aktif := acik_artirma_aktif self; il_katsayilari :=
     il_katsayilari self; iller := iller self; piyasa_operatoru := v;
     mrv_merkezi := mrv_merkezi self; agents := agents self; random := random
     self; datacollector := datacollector self |}.

Definition set_mrv_merkezi (v : MRVAjani.t) (self : t) : t :=
  {| ortam := ortam self; vergi_artis_orani := vergi_artis_orani self;
     senaryo_tipi := senaryo_tipi self; ets_aktif := ets_aktif self;
     acik_artirma_aktif := acik_artirma_aktif self; il_katsayilari :=
     il_katsayilari self; iller := iller self; piyasa_operatoru :=
     piyasa_operatoru self; mrv_merkezi := v; agents := agents self; random :=
     random self; datacollector := datacollector self |}.

Definition set_agents (v : list Ajan) (self : t) : t :=
  {| ortam := ortam self; vergi_artis_orani := vergi_artis_orani self;
     senaryo_tipi := senaryo_tipi self; ets_aktif := ets_aktif self;
     acik_artirma_aktif := acik_artirma_aktif self; il_katsayilari :=
     il_katsayilari self; iller := iller self; piyasa_operatoru :=
     piyasa_operatoru self; mrv_merkezi := mrv_merkezi self; agents := v;
     random := random self; datacollector := datacollector self |}.

Definition set_random (v : Uretec) (self : t) : t :=
  {| ortam := ortam self; vergi_artis_orani := vergi_artis_orani self;
     senaryo_tipi := senaryo_tipi self; ets_aktif := ets_aktif self;
     acik_artirma_aktif := acik_artirma_aktif self; il_katsayilari :=
     il_katsayilari self; iller := iller self; piyasa_operatoru :=
     piyasa_operatoru self; mrv_merkezi := mrv_merkezi self; agents := agents
     self; random := v; datacollector := datacollector self |}.

Definition set_datacollector (v : list Satir) (self : t) : t :=
  {| ortam := ortam self; vergi_artis_orani := vergi_artis_orani self;
     senaryo_tipi := senaryo_tipi self; ets_aktif := ets_aktif self;
     acik_artirma_aktif := acik_artirma_aktif self; il_katsayilari :=
     il_katsayilari self; iller := iller self; piyasa_operatoru :=
     piyasa_operatoru self; mrv_merkezi := mrv_merkezi self; agents := agents
     self; random := random self; datacollector := v |}.

Definition varsayilan_iller : list string :=
  [ "Istanbul"; "Ankara"; "Izmir"; "Bursa"; "Kocaeli"; "Adana";
    "Gaziantep"; "Konya"; "Antalya"; "Mersin"; "Kayseri"; "Eskisehir";
    "Sakarya"; "Denizli"; "Manisa"; "Zonguldak"; "Hatay"; "Samsun" ]%string.

(** [model.il_katsayilari.get(city, {}).get(sektor.lower(), 1.0)]. *)
Definition il_katsayi (tablo : list (string * list (string * Q))) (sehir sektor_adi : string) : Q :=
  dict_get (dict_get tablo sehir []) (lower sektor_adi) 1.0.

(** [for _ in range(n): ...], collecting the objects created. *)
Fixpoint tekrarla {A : Type} (n : nat) (c : Rastgele A) : Rastgele (list A) :=
  match n with
  | O => ret []
  | S n' => a <- c ;; l <- tekrarla n' c ;; ret (a :: l)
  end.

Definition tesis_olustur (tablo : list (string * list (string * Q)))
    (sehirler : list string) (sektor_adi : string) : Rastgele Ajan :=
  sehir <- random_choice sehirler "Istanbul"%string ;;
  uniform <- np_random_uniform 0.7 1.3 ;;
  zar <- random_random ;;
  ret (Tesis (EndustriyelTesis.init sektor_adi sehir
                (il_katsayi tablo sehir sektor_adi) uniform zar)).

Definition ihracatci_olustur (tablo : list (string * list (string * Q)))
    (sehirler : list string) : Rastgele Ajan :=
  sehir <- random_choice sehirler "Istanbul"%string ;;
  uniform <- np_random_uniform 0.7 1.3 ;;
  zar <- random_random ;;
  ret (IhracatciTesis (IhracatciAjani.init "Sanayi" sehir
                         (il_katsayi tablo sehir "Sanayi") uniform zar)).

Definition hanehalki_olustur (sehirler : list string) : Rastgele Ajan :=
  sehir <- random_choice sehirler "Istanbul"%string ;;
  g <- random_choice [dusuk; orta; yuksek] dusuk ;;
  tuketim_ <- np_random_uniform (fst (Hanehalki.tuketim_aralik g))
                                (snd (Hanehalki.tuketim_aralik g)) ;;
  ret (HanehalkiAjan (Hanehalki.init sehir g tuketim_)).

Definition gelistirici_olustur : Rastgele Ajan :=
  sermaye_ <- np_random_uniform 10000000 100000000 ;;
  risk_primi_ <- np_random_uniform 0.08 0.15 ;;
  ret (Gelistirici (ProjeGelistirici.init sermaye_ risk_primi_)).

(** [__init__]: from the arguments, the outside world and the state of
    the module-level generators before the call, the generators after it
    and the model object. *)
Definition init (a : Ayarlar.t) (d : Dis) (once : Zar) : Zar * t :=
  let seed :=
    match Ayarlar.random_seed a with
    | Some s => s
    | None => (saat_ms d mod 100000)%Z
    end in
  let z := {| py_durum := py_seed seed; np_durum := np_seed seed |} in
  let tablo := if Ayarlar.veritabani_kullan a then il_tablosu d else [] in
  let sehirler :=
    match tablo with
    | [] => varsayilan_iller
    | _ :: _ => map fst tablo
    end in
  let olustur :=
    enerji <- tekrarla (Z.to_nat (Ayarlar.n_enerji a)) (tesis_olustur tablo sehirler "Enerji") ;;
    sanayi <- tekrarla (Z.to_nat (Ayarlar.n_sanayi a)) (tesis_olustur tablo sehirler "Sanayi") ;;
    tarim <- tekrarla (Z.to_nat (Ayarlar.n_tarim a)) (tesis_olustur tablo sehirler "Tarim") ;;
    ihracatcilar <- tekrarla (Z.to_nat (Ayarlar.n_ihracatci a)) (ihracatci_olustur tablo sehirler) ;;
    haneler <- tekrarla (Z.to_nat (Ayarlar.n_hanehalki a)) (hanehalki_olustur sehirler) ;;
    yatirimcilar <- tekrarla (Z.to_nat (Ayarlar.n_yatirimci a)) gelistirici_olustur ;;
    ret (enerji ++ sanayi ++ tarim ++ ihracatcilar ++ haneler ++ yatirimcilar) in
  let (olusan, z') := olustur z in
  (z',
   {| ortam := {| yil := 2025; karbon_fiyati := 0;
                  ab_skdm_fiyat := Ayarlar.ab_skdm_fiyat a;
                  tesvik_miktari := Ayarlar.tesvik_miktari a;
                  yenilenebilir_kapasite := 0 |};
      vergi_artis_orani := Ayarlar.vergi_artis_orani a;
      senaryo_tipi := Ayarlar.senaryo_tipi a;
      ets_aktif := false;
      acik_artirma_aktif := false;
      il_katsayilari := tablo;
      iller := sehirler;
      piyasa_operatoru :=
        PiyasaOperatoru.init (Ayarlar.baslangic_cap a) (Ayarlar.cap_azalma_orani a);
      mrv_merkezi := MRVAjani.init;
      agents := Ref_piyasa_operatoru :: Ref_mrv_merkezi :: olusan;
      random := py_seed seed;
      datacollector := [] |}).

(** The reporters of the data collector. *)

Definition emisyon_katkisi (a : Ajan) : option Q :=
  match a with
  | Tesis x =>
      if negb (Durum_eqb (EndustriyelTesis.durum x) Kapali)
      then Some (EndustriyelTesis.emisyon x) else None
  | IhracatciTesis x =>
      if negb (Durum_eqb (EndustriyelTesis.durum (IhracatciAjani.taban x)) Kapali)
      then Some (EndustriyelTesis.emisyon (IhracatciAjani.taban x)) else None
  | HanehalkiAjan h =>
      if negb (Durum_eqb (Hanehalki.durum h) Kapali)
      then Some (Hanehalki.emisyon h) else None
  | _ => None
  end.

Definition toplam_emisyon (self : t) : Q :=
  py_sum (secilenler emisyon_katkisi (agents self)).

Definition tesis_sayisi (self : t) (d : Durum) : Z :=
  Z.of_nat (List.length (secilenler
    (fun a => match tesis_gorunumu a with
              | Some x => if Durum_eqb (EndustriyelTesis.durum x) d then Some tt else None
              | None => None
              end) (agents self))).

Definition cbam_toplam_maliyet (self : t) : Q :=
  py_sum (secilenler
    (fun a => match a with
              | IhracatciTesis x => Some (IhracatciAjani.cbam_maliyeti x)
              | _ => None
              end) (agents self)).

Definition ihracatci_sayisi (self : t) : Z :=
  Z.of_nat (List.length (secilenler
    (fun a => match a with IhracatciTesis _ => Some tt | _ => None end) (agents self))).

Definition hanehalki_sayisi (self : t) : Z :=
  Z.of_nat (List.length (secilenler
    (fun a => match a with HanehalkiAjan _ => Some tt | _ => None end) (agents self))).

Definition hanehalki_emisyon (self : t) : Q :=
  py_sum (secilenler
    (fun a => match a with
              | HanehalkiAjan h => Some (Hanehalki.emisyon h)
              | _ => None
              end) (agents self)).

(** [datacollector.collect(self)]. *)
Definition collect (self : t) : Satir :=
  {| Yil := yil (ortam self);
     Karbon_Fiyati := karbon_fiyati (ortam self);
     Toplam_Emisyon := toplam_emisyon self;
     Aktif_Tesis := tesis_sayisi self Aktif;
     Donusum_Tesis := tesis_sayisi self Donusum;
     Temiz_Tesis := tesis_sayisi self Temiz;
     Kapali_Tesis := tesis_sayisi self Kapali;
     Yenilenebilir_Kapasite_MW := yenilenebilir_kapasite (ortam self);
     Cap := PiyasaOperatoru.cap (piyasa_operatoru self);
     Senaryo := senaryo_tipi self;
     CBAM_Toplam_Maliyet := cbam_toplam_maliyet self;
     MRV_Toplam_Ceza := MRVAjani.toplam_ceza (mrv_merkezi self);
     Ihracatci_Tesis := ihracatci_sayisi self;
     Hanehalki_Sayisi := hanehalki_sayisi self;
     Hanehalki_Emisyon := hanehalki_emisyon self |}.

(** The call of [step] on the agent at position [i] of the roster, on the
    module-level generators and the model; [None] is an exception. *)
Definition ajan_step (i : nat) (st : Zar * t) : option (Zar * t) :=
  let (z, self) := st in
  match nth_error (agents self) i with
  | None => Some st
  | Some Ref_piyasa_operatoru =>
      match PiyasaOperatoru.step (ortam self) (agents self) (piyasa_operatoru self) with
      | None => None
      | Some (p, fiyat) =>
          Some (z, set_ortam (set_karbon_fiyati fiyat (ortam self))
                     (set_piyasa_operatoru p self))
      end
  | Some Ref_mrv_merkezi =>
      let (sonuc, z') := MRVAjani.step (agents self) (mrv_merkezi self) z in
      Some (z', set_agents (snd sonuc) (set_mrv_merkezi (fst sonuc) self))
  | Some (Tesis x) =>
      Some (z, set_agents
                 (liste_yaz i (Tesis (EndustriyelTesis.step (ortam self) x)) (agents self))
                 self)
  | Some (IhracatciTesis x) =>
      Some (z, set_agents
                 (liste_yaz i (IhracatciTesis (IhracatciAjani.step (ortam self) x))
                    (agents self))
                 self)
  | Some (HanehalkiAjan h) =>
      Some (z, set_agents
                 (liste_yaz i (HanehalkiAjan (Hanehalki.step (ortam self) h)) (agents self))
                 self)
  | Some (Gelistirici g) =>
      let (g', kapasite_) := ProjeGelistirici.step (ortam self) g in
      Some (z, set_agents (liste_yaz i (Gelistirici g') (agents self))
                 (set_ortam (set_yenilenebilir_kapasite kapasite_ (ortam self)) self))
  end.

(** The loop of [shuffle_do] over the shuffled positions. *)
Fixpoint sirayla (sira : list nat) (st : Zar * t) : option (Zar * t) :=
  match sira with
  | [] => Some st
  | i :: kalan =>
      match ajan_step i st with
      | None => None
      | Some st' => sirayla kalan st'
      end
  end.

(** The timeline block of [step] (the messages it prints are left out). *)
Definition zaman_cizelgesi (self : t) : t :=
  if (yil (ortam self) =? 2026)%Z then
    if negb (ets_aktif self) then set_ets_aktif true self else self
  else if (yil (ortam self) =? 2028)%Z then
    if negb (acik_artirma_aktif self) then set_acik_artirma_aktif true self else self
  else self.

(** [step]: one simulated year. *)
Definition step (st : Zar * t) : option (Zar * t) :=
  let (z, self) := st in
  let self := zaman_cizelgesi self in
  let self := set_datacollector (datacollector self ++ [collect self]) self in
  let (sira, g) := py_shuffle (random self) (List.length (agents self)) in
  let self := set_random g self in
  match sirayla sira (z, self) with
  | None => None
  | Some (z', self) =>
      Some (z', set_ortam (set_yil (yil (ortam self) + 1)%Z (ortam self)) self)
  end.

(** The loop of [run_simulation]. *)
Fixpoint adimla (years : nat) (st : Zar * t) : option (Zar * t) :=
  match years with
  | O => Some st
  | S n =>
      match step st with
      | None => None
      | Some st' => adimla n st'
      end
  end.

(** [run_simulation]: the generators and the model after the run, and the
    collected time series that it returns. *)
Definition run_simulation (years : nat) (st : Zar * t) : option (Zar * t * list Satir) :=
  match adimla years st with
  | None => None
  | Some st' => Some (st', datacollector (snd st'))
  end.

End Model.

End TurkiyeETSModel.

(* ------------------------------------------------------------------ *)
(** ** senaryo_karsilastirmasi and _ozet_tablo_yazdir *)

(** [d[k]] on a dict kept as an association list; [None] is KeyError. *)
Fixpoint dict_bul {A : Type} (d : list (string * A)) (k : string) : option A :=
  match d with
  | [] => None
  | (k', x) :: d' => if String.eqb k' k then Some x else dict_bul d' k
  end.

(** [d[k] = v]: the value of a key that is present is replaced in place,
    a new key goes to the end. *)
Fixpoint dict_yaz {A : Type} (d : list (string * A)) (k : string) (v : A)
    : list (string * A) :=
  match d with
  | [] => [(k, v)]
  | (k', x) :: d' =>
      if String.eqb k' k then (k', v) :: d' else (k', x) :: dict_yaz d' k v
  end.

(** [df["Senaryo"] = v] on one row. *)
Definition set_Senaryo (v : string) (row : Satir) : Satir :=
  {| Yil := Yil row; Karbon_Fiyati := Karbon_Fiyati row;
     Toplam_Emisyon := Toplam_Emisyon row; Aktif_Tesis := Aktif_Tesis row;
     Donusum_Tesis := Donusum_Tesis row; Temiz_Tesis := Temiz_Tesis row;
     Kapali_Tesis := Kapali_Tesis row;
     Yenilenebilir_Kapasite_MW := Yenilenebilir_Kapasite_MW row;
     Cap := Cap row; Senaryo := v;
     CBAM_Toplam_Maliyet := CBAM_Toplam_Maliyet row;
     MRV_Toplam_Ceza := MRV_Toplam_Ceza row;
     Ihracatci_Tesis := Ihracatci_Tesis row;
     Hanehalki_Sayisi := Hanehalki_Sayisi row;
     Hanehalki_Emisyon := Hanehalki_Emisyon row |}.

(** [df[...].iloc[-1]]: the last row; [None] is IndexError. *)
Definition son_satir (df : list Satir) : option Satir :=
  nth_error df (List.length df - 1).

(** An entry of the dict [senaryolar]. *)
Record SenaryoParametreleri := {
  s_baslangic_cap : Q;
  s_cap_azalma_orani : Q;
  s_tesvik_miktari : Q;
  s_ab_skdm_fiyat : Q;
  renk : string
}.

Definition senaryolar : list (string * SenaryoParametreleri) :=
  [ ("BAU"%string,
     {| s_baslangic_cap := 9999; s_cap_azalma_orani := 0; s_tesvik_miktari := 0;
        s_ab_skdm_fiyat := 0; renk := "#94a3b8" |});
    ("Yumusak_ETS"%string,
     {| s_baslangic_cap := 75; s_cap_azalma_orani := 0.02; s_tesvik_miktari := 30000;
        s_ab_skdm_fiyat := 60; renk := "#3b82f6" |});
    ("Siki_ETS"%string,
     {| s_baslangic_cap := 60; s_cap_azalma_orani := 0.04; s_tesvik_miktari := 50000;
        s_ab_skdm_fiyat := 90; renk := "#22c55e" |});
    ("ETS_Tesvik"%string,
     {| s_baslangic_cap := 60; s_cap_azalma_orani := 0.04; s_tesvik_miktari := 150000;
        s_ab_skdm_fiyat := 90; renk := "#8b5cf6" |}) ].

(** The arguments with which [senaryo_karsilastirmasi] constructs the
    model: the four of the scenario, the defaults for the others. *)
Definition senaryo_ayarlari (params : SenaryoParametreleri) : Ayarlar.t :=
  {| Ayarlar.n_enerji := 40; Ayarlar.n_sanayi := 30; Ayarlar.n_tarim := 30;
     Ayarlar.n_yatirimci := 15; Ayarlar.n_ihracatci := 10; Ayarlar.n_hanehalki := 50;
     Ayarlar.baslangic_cap := s_baslangic_cap params;
     Ayarlar.cap_azalma_orani := s_cap_azalma_orani params;
     Ayarlar.ab_skdm_fiyat := s_ab_skdm_fiyat params;
     Ayarlar.tesvik_miktari := s_tesvik_miktari params;
     Ayarlar.vergi_artis_orani := 5; Ayarlar.senaryo_tipi := "Siki_ETS";
     Ayarlar.veritabani_kullan := false; Ayarlar.random_seed := None |}.

(** A line of the table that [_ozet_tablo_yazdir] prints. *)
Record OzetSatiri := {
  ozet_senaryo : string;
  ozet_emisyon : Q;
  ozet_azaltim : Q;
  ozet_fiyat : Q;
  ozet_temiz : Z
}.

(** The reduction in per cent against the reference scenario. *)
Definition azaltim (bau_emisyon emisyon_ : Q) : Q :=
  if Qgtb bau_emisyon 0 then (bau_emisyon - emisyon_) / bau_emisyon * 100 else 0.

(** The loop of [_ozet_tablo_yazdir]; [None] is an exception. *)
Fixpoint ozet_satirlari (bau_emisyon : Q) (sonuclar : list (string * list Satir))
    : option (list OzetSatiri) :=
  match sonuclar with
  | [] => Some []
  | (senaryo_adi, df) :: kalan =>
      match son_satir df with
      | None => None
      | Some son =>
          match ozet_satirlari bau_emisyon kalan with
          | None => None
          | Some satirlar =>
              Some ({| ozet_senaryo := senaryo_adi;
                       ozet_emisyon := Toplam_Emisyon son;
                       ozet_azaltim := azaltim bau_emisyon (Toplam_Emisyon son);
                       ozet_fiyat := Karbon_Fiyati son;
                       ozet_temiz := Temiz_Tesis son |} :: satirlar)
          end
      end
  end.

(** [_ozet_tablo_yazdir]: the lines it prints; [None] is an exception. *)
Definition ozet_tablo_yazdir (sonuclar : list (string * list Satir))
    : option (list OzetSatiri) :=
  match dict_bul sonuclar "BAU" with
  | None => None
  | Some bau_df =>
      match son_satir bau_df with
      | None => None
      | Some bau => ozet_satirlari (Toplam_Emisyon bau) sonuclar
      end
  end.

Section Senaryolar.
Context `{K : Kutuphane}.

(** The loop of [senaryo_karsilastirmasi] over the scenarios: [saat k] is
    what the [k]-th construction of a model reads from outside, [z] the
    module-level generators, [sonuclar] the dict built so far; [None] is an
    exception. *)
Fixpoint senaryo_dongusu (l : list (string * SenaryoParametreleri))
    (saat : nat -> Dis) (k : nat) (z : Zar) (sonuclar : list (string * list Satir))
    : option (Zar * list (string * list Satir)) :=
  match l with
  | [] => Some (z, sonuclar)
  | (senaryo_adi, params) :: kalan =>
      match TurkiyeETSModel.run_simulation 11
              (TurkiyeETSModel.init (senaryo_ayarlari params) (saat k) z) with
      | None => None
      | Some (son, df) =>
          let df := map (set_Senaryo senaryo_adi) df in
          let sonuclar := dict_yaz sonuclar senaryo_adi df in
          match son_satir df with
          | None => None
          | Some _ => senaryo_dongusu kalan saat (S k) (fst son) sonuclar
          end
      end
  end.

(** [senaryo_karsilastirmasi]: the generators afterwards and the dict of
    series it returns. *)
Definition senaryo_karsilastirmasi (saat : nat -> Dis) (z : Zar)
    : option (Zar * list (string * list Satir)) :=
  match senaryo_dongusu senaryolar saat 0 z [] with
  | None => None
  | Some (z', sonuclar) =>
      match ozet_tablo_yazdir sonuclar with
      | None => None
      | Some _ => Some (z', sonuclar)
      end
  end.

End Senaryolar.

(* ------------------------------------------------------------------ *)
(** ** csv_kaydet *)





(* ------------------------------------------------------------------ *)
(** ** An executable instance of the library interface

    A counter as generator and a truncated square root, to run the model
    on concrete inputs. *)

Definition sonraki (g : nat) : nat := S g.

(** The tenths 0.0, 0.9, 0.8, ..., 0.1, 0.0, ... *)
Definition birim_aralik (g : nat) : Q := Z.of_nat ((g * 9) mod 10) # 10.

Definition karekok_yaklasik (x : Q) : Q :=
  Z.sqrt (Qnum x * Zpos (Qden x) * 1000000000000) # (Qden x * 1000000).

Definition ornek_kutuphane : Kutuphane :=
  {| Uretec := nat;
     NpUretec := nat;
     py_seed := fun s => Z.to_nat s;
     py_random := fun g => (birim_aralik g, sonraki g);
     py_randbelow := fun g n => (((g * 5) mod n)%nat, sonraki g);
     py_shuffle := fun g n => (if Nat.even g then seq 0 n else rev (seq 0 n), sonraki g);
     np_seed := fun s => Z.to_nat (s + 1);
     np_uniform := fun g a b => (a + (b - a) * birim_aralik g, sonraki g);
     us_yarim := karekok_yaklasik |}.

(* ------------------------------------------------------------------ *)
(** ** Vocabulary of the design document *)

(** The discounted sum [sum over t = 1..n of tasarruf / (1 + oran)^t]. *)
Fixpoint indirgenmis_toplam (tasarruf oran : Q) (n : nat) : Q :=
  match n with
  | O => 0
  | S k => indirgenmis_toplam tasarruf oran k + tasarruf / (1 + oran) ^ Z.of_nat (S k)
  end.

(** The net present value of a measure as the design document words it:
    annual savings = reduction potential * current emission * effective
    price; investment cost = reduction potential * current emission *
    marginal cost when the marginal cost is positive, else 0; ten years at
    8 per cent. *)
Definition NPV_tanim (emisyon_ fiyat : Q) (onlem : Onlem) : Q :=
  let yillik_tasarruf := potansiyel onlem * emisyon_ * fiyat in
  let yatirim_maliyeti :=
    if Qgtb (mac onlem) 0 then potansiyel onlem * emisyon_ * mac onlem else 0 in
  - yatirim_maliyeti + indirgenmis_toplam yillik_tasarruf 0.08 10.

(** [kv] is the entry of [l] of highest value among the entries that
    satisfy [uygun], the earliest one on a tie. *)
Definition ilk_en_iyi {A : Type} (deger : A -> Q) (uygun : A -> Prop)
    (l : list A) (kv : A) : Prop :=
  exists l1 l2,
    l = l1 ++ kv :: l2 /\ uygun kv /\
    (forall y, In y l1 -> uygun y -> deger y < deger kv) /\
    (forall y, In y l2 -> uygun y -> deger y <= deger kv).

(** What can happen to a facility object in a run: its own [step] under
    some state of the model, or the penalty that an audit writes on a
    facility that is not closed. *)
Inductive tesis_islemi : EndustriyelTesis.t -> EndustriyelTesis.t -> Prop :=
| islem_step (m : Ortam) (x : EndustriyelTesis.t) :
    tesis_islemi x (EndustriyelTesis.step m x)
| islem_ceza (ceza : Q) (x : EndustriyelTesis.t) :
    EndustriyelTesis.durum x <> Kapali ->
    tesis_islemi x (MRVAjani.ceza_yaz ceza x).

(** The facility attributes of the agent at position [i] of a roster. *)
Definition gorunum (agents : list Ajan) (i : nat) : option EndustriyelTesis.t :=
  match nth_error agents i with
  | Some a => tesis_gorunumu a
  | None => None
  end.

(** Two roster entries are related when they are the same kind of agent
    and, for facilities, the second comes from the first by facility
    operations. *)
Definition ajan_iliski (a a' : Ajan) : Prop :=
  match tesis_gorunumu a, tesis_gorunumu a' with
  | Some x, Some x' => clos_refl_trans _ tesis_islemi x x'
  | None, None => True
  | _, _ => False
  end.

(** A facility as its constructor leaves it. *)
Definition taze (x : EndustriyelTesis.t) : Prop :=
  EndustriyelTesis.durum x = Aktif /\
  EndustriyelTesis.izin_bankasi x = 0 /\
  EndustriyelTesis.net_emisyon x = 0 /\
  EndustriyelTesis.kalan_yatirim_suresi x = 0%Z /\
  EndustriyelTesis.yatirim_onlemi_kaydet x = None /\
  EndustriyelTesis.emisyon x = EndustriyelTesis.baslangic_emisyon x.

(** A facility of a run: constructed, then operated on any number of
    times. *)
Definition tesis_kosusu (x : EndustriyelTesis.t) : Prop :=
  exists x0, taze x0 /\ clos_refl_trans _ tesis_islemi x0 x.

(** The facility attributes of a roster entry, if it has any, satisfy [P]. *)
Definition tesis_ozelligi (P : EndustriyelTesis.t -> Prop) (a : Ajan) : Prop :=
  forall x, tesis_gorunumu a = Some x -> P x.


(** Every value a computation with draws can return satisfies [P]. *)
Definition hep `{Kutuphane} {A : Type} (P : A -> Prop) (c : Rastgele A) : Prop :=
  forall z, P (fst (c z)).

(* ------------------------------------------------------------------ *)
(** ** Concrete inputs *)

Definition ornek_ortam (yil_ : Z) (fiyat : Q) : Ortam :=
  {| yil := yil_; karbon_fiyati := fiyat; ab_skdm_fiyat := 90;
     tesvik_miktari := 50000; yenilenebilir_kapasite := 0 |}.

(** An energy facility of a region with coefficient 3: 3 Mt a year. *)
Definition ornek_enerji_tesisi : EndustriyelTesis.t :=
  EndustriyelTesis.init "Enerji" "Zonguldak" 3 1 0.5.

(** An agriculture facility (subsidy class) of 100 Mt a year. *)
Definition ornek_tarim_tesisi : EndustriyelTesis.t :=
  EndustriyelTesis.init "Tarim" "Konya" 100 (10 # 3) 0.5.

(** An industry facility, 0.75 Mt a year. *)
Definition ornek_sanayi_tesisi : EndustriyelTesis.t :=
  EndustriyelTesis.init "Sanayi" "Bursa" 1 1 0.9.

(** The same facility with a penalty written on it by an audit. *)
Definition ornek_cezali_tesis : EndustriyelTesis.t :=
  MRVAjani.ceza_yaz 7.5 ornek_sanayi_tesisi.

(** A sector all of whose measures cost more than the ceiling price. *)
Definition ornek_cimento_profili : Profil :=
  {| baz_emisyon := 2; ihracat_orani := 0.1; skdm_kapsam := false;
     profil_maliyet_limit := 100; profil_yatirim_bedeli := 400;
     profil_duyarlilik := Vergi;
     mac_onlemler :=
       [ ("klinker_ikamesi"%string, {| mac := 160; potansiyel := 0.10; sure := 3 |});
         ("karbon_yakalama"%string, {| mac := 200; potansiyel := 0.60; sure := 8 |}) ] |}.

Definition ornek_cimento_tesisi : EndustriyelTesis.t :=
  {| EndustriyelTesis.sektor := "Cimento"; EndustriyelTesis.city := "Mersin";
     EndustriyelTesis.profil := ornek_cimento_profili;
     EndustriyelTesis.emisyon := 4; EndustriyelTesis.baslangic_emisyon := 4;
     EndustriyelTesis.ihracatci := false; EndustriyelTesis.durum := Aktif;
     EndustriyelTesis.yatirim_durumu := None;
     EndustriyelTesis.kalan_yatirim_suresi := 0;
     EndustriyelTesis.emisyon_azalma_potansiyeli := 0;
     EndustriyelTesis.maliyet_limit := 100;
     EndustriyelTesis.yatirim_bedeli := 400;
     EndustriyelTesis.duyarlilik := Vergi;
     EndustriyelTesis.ucretsiz_tahsisat := 0; EndustriyelTesis.izin_bankasi := 0;
     EndustriyelTesis.net_emisyon := 0;
     EndustriyelTesis.ceza_durumu := false; EndustriyelTesis.ceza_miktari := 0;
     EndustriyelTesis.yatirim_onlemi_kaydet := None |}.

(** That facility after the step that closes it. *)
Definition ornek_kapali_tesis : EndustriyelTesis.t :=
  EndustriyelTesis.step (ornek_ortam 2028 150) ornek_cimento_tesisi.

Definition ornek_hane : Hanehalki.t := Hanehalki.init "Izmir" dusuk 2000.

Definition ornek_ayarlar : Ayarlar.t :=
  {| Ayarlar.n_enerji := 1; Ayarlar.n_sanayi := 1; Ayarlar.n_tarim := 1;
     Ayarlar.n_yatirimci := 1; Ayarlar.n_ihracatci := 1; Ayarlar.n_hanehalki := 1;
     Ayarlar.baslangic_cap := 3; Ayarlar.cap_azalma_orani := 0.03;
     Ayarlar.ab_skdm_fiyat := 90; Ayarlar.tesvik_miktari := 50000;
     Ayarlar.vergi_artis_orani := 5; Ayarlar.senaryo_tipi := "Siki_ETS";
     Ayarlar.veritabani_kullan := false; Ayarlar.random_seed := Some 42%Z |}.

Definition ornek_dis (saat : Z) : Dis := {| saat_ms := saat; il_tablosu := [] |}.

Definition ornek_zar (g : nat) : @Zar ornek_kutuphane :=
  @Build_Zar ornek_kutuphane g g.

(** A model whose roster holds a closed and an active facility. *)
Definition ornek_dunya : @Zar ornek_kutuphane * @TurkiyeETSModel.t ornek_kutuphane :=
  let st := @TurkiyeETSModel.init ornek_kutuphane ornek_ayarlar (ornek_dis 0) (ornek_zar 0) in
  (fst st,
   TurkiyeETSModel.set_agents
     [Ref_piyasa_operatoru; Ref_mrv_merkezi;
      Tesis ornek_kapali_tesis; Tesis ornek_cimento_tesisi]
     (snd st)).

(** The industry facility after the step of 2028 that starts its
    investment. *)
Definition ornek_donusen_tesis : EndustriyelTesis.t :=
  EndustriyelTesis.step (ornek_ortam 2028 150) ornek_sanayi_tesisi.

(** An exporter of the industry sector under the border adjustment. *)
Definition ornek_ihracatci : IhracatciAjani.t :=
  IhracatciAjani.init "Sanayi" "Kocaeli" 1 1 0.1.

Definition ornek_gelistirici : ProjeGelistirici.t :=
  ProjeGelistirici.init 50000000 0.1.

Definition ornek_ges : ProjeGelistirici.ProjeTipi :=
  {| ProjeGelistirici.kapasite := 10; ProjeGelistirici.yatirim_birim := 700000;
     ProjeGelistirici.kf := 0.18; ProjeGelistirici.omur := 25 |}.

(* ------------------------------------------------------------------ *)
(** ** Further vocabulary *)

(** The facility after its own steps in the successive states [ms] of the
    model. *)
Definition adimlar (ms : list Ortam) (x : EndustriyelTesis.t) : EndustriyelTesis.t :=
  fold_left (fun x m => EndustriyelTesis.step m x) ms x.

(** An agent the monitoring agent may audit: a facility that is not
    closed. *)
Definition denetlenebilir (a : Ajan) : bool :=
  match tesis_gorunumu a with
  | Some x => negb (Durum_eqb (EndustriyelTesis.durum x) Kapali)
  | None => false
  end.

(** What one pass of the audit loop can do to an agent: nothing, or, on a
    facility that is not closed, the penalty for an under-reported share
    [u] of its emission at the unit price [birim]. *)
Definition denetim_izi (birim : Q) (a a' : Ajan) : Prop :=
  a' = a \/
  exists x u,
    tesis_gorunumu a = Some x /\ EndustriyelTesis.durum x <> Kapali /\
    a' = tesis_yaz a (MRVAjani.ceza_yaz (EndustriyelTesis.emisyon x * u * birim) x).





(* ================================================================== *)
(** * Properties *)

(** ** Comparisons and Python arithmetic *)

Lemma Qltb_true (a b : Q) : Qltb a b = true <-> a < b.
Proof.
  unfold Qltb. rewrite negb_true_iff. split; intro Hab.
  - apply Qnot_le_lt. intro Hle. apply Qle_bool_iff in Hle. congruence.
  - destruct (Qle_bool b a) eqn:E; [|reflexivity].
    apply Qle_bool_iff in E. apply Qle_not_lt in E. contradiction.
Qed.

Lemma Qltb_false (a b : Q) : Qltb a b = false <-> b <= a.
Proof.
  unfold Qltb. rewrite negb_false_iff. apply Qle_bool_iff.
Qed.

Lemma Qgtb_true (a b : Q) : Qgtb a b = true <-> b < a.
Proof. apply Qltb_true. Qed.

Lemma Qgtb_false (a b : Q) : Qgtb a b = false <-> a <= b.
Proof. apply Qltb_false. Qed.

Lemma Qgeb_true (a b : Q) : Qgeb a b = true <-> b <= a.
Proof. apply Qle_bool_iff. Qed.

Lemma Qgeb_false (a b : Q) : Qgeb a b = false <-> a < b.
Proof.
  unfold Qgeb. split; intro Hab.
  - apply Qnot_le_lt. intro Hle. apply Qle_bool_iff in Hle. congruence.
  - destruct (Qle_bool b a) eqn:E; [|reflexivity].
    apply Qle_bool_iff in E. apply Qle_not_lt in E. contradiction.
Qed.

(** Turns every boolean comparison met in the goal into its proposition. *)
Ltac karsilastir :=
  repeat match goal with
  | H : Qltb _ _ = true |- _ => apply Qltb_true in H
  | H : Qltb _ _ = false |- _ => apply Qltb_false in H
  | H : Qgtb _ _ = true |- _ => apply Qgtb_true in H
  | H : Qgtb _ _ = false |- _ => apply Qgtb_false in H
  | H : Qgeb _ _ = true |- _ => apply Qgeb_true in H
  | H : Qgeb _ _ = false |- _ => apply Qgeb_false in H
  | |- context [Qltb ?a ?b] => destruct (Qltb a b) eqn:?
  | |- context [Qgtb ?a ?b] => destruct (Qgtb a b) eqn:?
  | |- context [Qgeb ?a ?b] => destruct (Qgeb a b) eqn:?
  end.

Lemma py_max_spec (a b : Q) :
  (a < b /\ py_max a b = b) \/ (b <= a /\ py_max a b = a).
Proof. unfold py_max. karsilastir; [left | right]; split; auto. Qed.

Lemma py_min_spec (a b : Q) :
  (b < a /\ py_min a b = b) \/ (a <= b /\ py_min a b = a).
Proof. unfold py_min. karsilastir; [left | right]; split; auto. Qed.

Lemma py_abs_spec (a : Q) :
  (a < 0 /\ py_abs a = - a) \/ (0 <= a /\ py_abs a = a).
Proof. unfold py_abs. karsilastir; [left | right]; split; auto. Qed.

Lemma py_max_lower (a b : Q) : a <= py_max a b.
Proof. destruct (py_max_spec a b) as [[H ->]|[H ->]]; lra. Qed.

Lemma py_max_upper (a b c : Q) : a <= c -> b <= c -> py_max a b <= c.
Proof. intros. destruct (py_max_spec a b) as [[H1 ->]|[H1 ->]]; lra. Qed.

Lemma py_min_upper (a b : Q) : py_min a b <= a.
Proof. destruct (py_min_spec a b) as [[H ->]|[H ->]]; lra. Qed.

Lemma py_div_some (a b : Q) : ~ b == 0 -> py_div a b = Some (a / b).
Proof.
  intro Hb. unfold py_div. destruct (Qeq_bool b 0) eqn:E; [|reflexivity].
  apply Qeq_bool_iff in E. contradiction.
Qed.

Lemma Zgeb_true (a b : Z) : (a >=? b)%Z = true <-> (b <= a)%Z.
Proof. rewrite Z.geb_leb. apply Z.leb_le. Qed.

Lemma Zgeb_false (a b : Z) : (a >=? b)%Z = false <-> (a < b)%Z.
Proof. rewrite Z.geb_leb. apply Z.leb_gt. Qed.

Lemma Durum_eqb_eq (a b : Durum) : Durum_eqb a b = true <-> a = b.
Proof. destruct a, b; simpl; split; intro; congruence. Qed.

Lemma Durum_eqb_neq (a b : Durum) : Durum_eqb a b = false <-> a <> b.
Proof. destruct a, b; simpl; split; intro; congruence. Qed.

Lemma Duyarlilik_eqb_eq (a b : Duyarlilik) : Duyarlilik_eqb a b = true <-> a = b.
Proof. destruct a, b; simpl; split; intro; congruence. Qed.

(* ------------------------------------------------------------------ *)
(** ** PiyasaOperatoru *)

Section PiyasaOzellikleri.
Context `{K : Kutuphane}.

Lemma fiyat_belirle_toplam (yil_ : Z) (cap_ toplam : Q) :
  exists fiyat,
    PiyasaOperatoru.fiyat_belirle yil_ cap_ toplam = Some fiyat /\
    (((yil_ < PILOT_BASLANGIC)%Z \/ ~ 0 < cap_ \/ ~ 0 < toplam) -> fiyat = 0) /\
    ((PILOT_BASLANGIC <= yil_)%Z -> 0 < cap_ -> 0 < toplam ->
       TABAN_FIYAT <= fiyat <= TAVAN_FIYAT).
Proof.
  unfold PiyasaOperatoru.fiyat_belirle.
  destruct (yil_ >=? PILOT_BASLANGIC)%Z eqn:Ey; simpl.
  - apply Zgeb_true in Ey.
    destruct (Qgtb cap_ 0) eqn:Ec; simpl.
    + destruct (Qgtb toplam 0) eqn:Et; simpl.
      * karsilastir.
        rewrite py_div_some by lra.
        eexists. split; [reflexivity|]. split.
        -- intros [Hy|[Hc|Ht]]; [lia | contradiction | contradiction].
        -- intros _ _ _. split.
           ++ apply py_max_lower.
           ++ apply py_max_upper.
              ** unfold TABAN_FIYAT, TAVAN_FIYAT. lra.
              ** apply py_min_upper.
      * karsilastir. exists 0. split; [reflexivity|]. split; [reflexivity|].
        intros _ _ Ht. lra.
    + karsilastir. exists 0. split; [reflexivity|]. split; [reflexivity|].
      intros _ Hc _. lra.
  - apply Zgeb_false in Ey.
    exists 0. split; [reflexivity|]. split; [reflexivity|].
    intros Hy _ _. lia.
Qed.



End PiyasaOzellikleri.

(* ------------------------------------------------------------------ *)
(** ** EndustriyelTesis: the pieces of [step] *)

Module TesisOzellikleri.
Import EndustriyelTesis.

Lemma step_kapali (m : Ortam) (x : t) : durum x = Kapali -> step m x = x.
Proof. intro H. unfold step. rewrite H. reflexivity. Qed.

(** The three ways through [step]. *)
Lemma step_cozumle (m : Ortam) (x : t) :
  (durum x = Kapali /\ step m x = x) \/
  (durum x <> Kapali /\ (0 < kalan_yatirim_suresi x)%Z /\
   step m x = yatirim_ilerlet (tahsisat_ve_bankalama m x)) \/
  (durum x <> Kapali /\ (kalan_yatirim_suresi x <= 0)%Z /\
   step m x = karar_uygula m (tahsisat_ve_bankalama m x) (efektif_fiyat m x)).
Proof.
  unfold step. destruct (Durum_eqb (durum x) Kapali) eqn:Ed.
  - left. apply Durum_eqb_eq in Ed. auto.
  - apply Durum_eqb_neq in Ed. right.
    assert (Hk : kalan_yatirim_suresi (tahsisat_ve_bankalama m x) = kalan_yatirim_suresi x).
    { unfold tahsisat_ve_bankalama.
      repeat match goal with |- context [if ?b then _ else _] => destruct b end;
        reflexivity. }
    rewrite Hk. destruct (kalan_yatirim_suresi x >? 0)%Z eqn:Ek.
    + left. apply Z.gtb_lt in Ek. auto.
    + right. rewrite Z.gtb_ltb in Ek. apply Z.ltb_ge in Ek. auto.
Qed.

(** The reconciliation touches the allowance ledger only. *)
Lemma tahsisat_diger_alanlar (m : Ortam) (x : t) :
  let y := tahsisat_ve_bankalama m x in
  durum y = durum x /\ emisyon y = emisyon x /\
  baslangic_emisyon y = baslangic_emisyon x /\
  kalan_yatirim_suresi y = kalan_yatirim_suresi x /\
  emisyon_azalma_potansiyeli y = emisyon_azalma_potansiyeli x /\
  yatirim_durumu y = yatirim_durumu x /\
  ceza_durumu y = ceza_durumu x /\ duyarlilik y = duyarlilik x /\
  profil y = profil x /\ maliyet_limit y = maliyet_limit x /\
  yatirim_bedeli y = yatirim_bedeli x /\ ihracatci y = ihracatci x /\
  yatirim_onlemi_kaydet y = yatirim_onlemi_kaydet x.
Proof.
  unfold tahsisat_ve_bankalama.
  repeat match goal with |- context [if ?b then _ else _] => destruct b end;
    simpl; repeat split; reflexivity.
Qed.

(** The ledger after the reconciliation of a year in which the scheme is
    active. *)
Lemma tahsisat_aktif (m : Ortam) (x : t) :
  (PILOT_BASLANGIC <= yil m)%Z ->
  let oran := if (yil m <? TAM_UYGULAMA)%Z then 1.0 else 0.7 in
  let y := tahsisat_ve_bankalama m x in
  let fazla := baslangic_emisyon x * oran - emisyon x in
  ucretsiz_tahsisat y = baslangic_emisyon x * oran /\
  (0 < fazla -> izin_bankasi y = izin_bankasi x + fazla /\ net_emisyon y = 0) /\
  (fazla <= 0 ->
     izin_bankasi y = izin_bankasi x - py_min (py_abs fazla) (izin_bankasi x) /\
     net_emisyon y = py_abs fazla - py_min (py_abs fazla) (izin_bankasi x)).
Proof.
  intros Hy. unfold tahsisat_ve_bankalama.
  apply Zgeb_true in Hy. rewrite Hy. simpl.
  destruct (Qgtb _ 0) eqn:Ef; karsilastir; simpl.
  - split; [reflexivity|]. split; [auto|]. intro Hle. lra.
  - split; [reflexivity|]. split; [|auto]. intro Hlt. lra.
Qed.

Lemma tahsisat_oncesi (m : Ortam) (x : t) :
  (yil m < PILOT_BASLANGIC)%Z ->
  let y := tahsisat_ve_bankalama m x in
  izin_bankasi y = izin_bankasi x /\ net_emisyon y = 0 /\
  ucretsiz_tahsisat y = ucretsiz_tahsisat x.
Proof.
  intros Hy. unfold tahsisat_ve_bankalama.
  apply Zgeb_false in Hy. rewrite Hy. simpl. auto.
Qed.

(** The ledger is never negative after a reconciliation. *)
Lemma tahsisat_negatif_degil (m : Ortam) (x : t) :
  let y := tahsisat_ve_bankalama m x in
  0 <= net_emisyon y /\ (0 <= izin_bankasi x -> 0 <= izin_bankasi y).
Proof.
  destruct (Z_lt_le_dec (yil m) PILOT_BASLANGIC) as [Hy|Hy].
  - destruct (tahsisat_oncesi m x Hy) as (Hb & Hn & _).
    simpl. rewrite Hb, Hn. split; [lra | auto].
  - destruct (tahsisat_aktif m x Hy) as (_ & Hsur & Hdef). simpl.
    set (fazla := baslangic_emisyon x *
                  (if (yil m <? TAM_UYGULAMA)%Z then 1.0 else 0.7) - emisyon x) in *.
    destruct (Qlt_le_dec 0 fazla) as [Hf|Hf].
    + destruct (Hsur Hf) as [-> ->]. split; [lra | intro; lra].
    + destruct (Hdef Hf) as [-> ->].
      destruct (py_abs_spec fazla) as [[Ha ->]|[Ha ->]];
        destruct (py_min_spec (- fazla) (izin_bankasi x)) as [[Hm Hm']|[Hm Hm']];
        destruct (py_min_spec fazla (izin_bankasi x)) as [[Hn Hn']|[Hn Hn']];
        rewrite ?Hm', ?Hn'; (split; [lra | intro; lra]).
Qed.

(** A running investment moves no ledger entry and never closes. *)
Lemma yatirim_ilerlet_alanlar (x : t) :
  let y := yatirim_ilerlet x in
  izin_bankasi y = izin_bankasi x /\ net_emisyon y = net_emisyon x /\
  duyarlilik y = duyarlilik x /\
  (durum y = durum x \/ durum y = Temiz) /\
  (durum y = Kapali -> durum x = Kapali /\ emisyon y = emisyon x).
Proof.
  unfold yatirim_ilerlet. simpl.
  destruct (kalan_yatirim_suresi x - 1 =? 0)%Z; simpl;
    (split; [reflexivity | split; [reflexivity | split; [reflexivity |
       split; [auto | intro Hk; try discriminate Hk; auto]]]]).
Qed.

Lemma yatirim_baslat_alanlar (x : t) (fiyat : Q) :
  let y := yatirim_baslat x fiyat in
  durum y = Donusum /\ izin_bankasi y = izin_bankasi x /\
  net_emisyon y = net_emisyon x /\ duyarlilik y = duyarlilik x /\
  emisyon y = emisyon x /\ ceza_durumu y = ceza_durumu x.
Proof.
  unfold yatirim_baslat.
  destruct (yatirim_onlemi_kaydet x) as [[ad o]|];
    [|destruct (ilk_uygun_onlem _ _) as [[ad o]|]]; simpl; repeat split.
Qed.

(** [_karar_ver] changes at most the saved measure. *)
Lemma karar_ver_nesne (m : Ortam) (x : t) (fiyat : Q) :
  snd (karar_ver m x fiyat) = x \/
  exists kv, snd (karar_ver m x fiyat) = set_yatirim_onlemi_kaydet kv x.
Proof.
  unfold karar_ver.
  repeat match goal with |- context [if ?b then _ else _] => destruct b end;
    simpl; eauto.
Qed.

(** The decision of an active facility moves no ledger entry. *)
Lemma karar_uygula_alanlar (m : Ortam) (x : t) (fiyat : Q) :
  let y := karar_uygula m x fiyat in
  izin_bankasi y = izin_bankasi x /\ net_emisyon y = net_emisyon x /\
  duyarlilik y = duyarlilik x /\ ceza_durumu y = ceza_durumu x.
Proof.
  unfold karar_uygula. destruct (Durum_eqb (durum x) Aktif); [|simpl; auto].
  destruct (karar_ver m x fiyat) as [karar x'] eqn:Ek.
  assert (Hx' : izin_bankasi x' = izin_bankasi x /\ net_emisyon x' = net_emisyon x /\
                duyarlilik x' = duyarlilik x /\ ceza_durumu x' = ceza_durumu x).
  { destruct (karar_ver_nesne m x fiyat) as [H|[kv H]];
      rewrite Ek in H; simpl in H; subst x'; simpl; auto. }
  destruct Hx' as (Hb & Hn & Hd & Hc).
  destruct karar; simpl.
  - destruct (yatirim_baslat_alanlar x' fiyat) as (_ & Hb' & Hn' & Hd' & _ & Hc').
    simpl in *. rewrite Hb', Hn', Hd', Hc'. auto.
  - auto.
  - auto.
Qed.

(** The ledger entries after [step]: those of the reconciliation, unless
    the facility is closed. *)
Lemma step_defter (m : Ortam) (x : t) :
  durum x <> Kapali ->
  izin_bankasi (step m x) = izin_bankasi (tahsisat_ve_bankalama m x) /\
  net_emisyon (step m x) = net_emisyon (tahsisat_ve_bankalama m x).
Proof.
  intro Hd. destruct (step_cozumle m x) as [[H _]|[(_ & _ & ->)|(_ & _ & ->)]].
  - contradiction.
  - destruct (yatirim_ilerlet_alanlar (tahsisat_ve_bankalama m x)) as (Hb & Hn & _).
    simpl in *. auto.
  - destruct (karar_uygula_alanlar m (tahsisat_ve_bankalama m x) (efektif_fiyat m x))
      as (Hb & Hn & _).
    simpl in *. auto.
Qed.

End TesisOzellikleri.

(* ------------------------------------------------------------------ *)
(** ** EndustriyelTesis: the net present value and the choice of a measure *)

Module KararOzellikleri.
Import EndustriyelTesis.

Lemma fold_indirgenmis (a c : Q) (n : nat) (acc : Q) :
  fold_left (fun npv k => npv + a / (1 + c) ^ Z.of_nat k) (seq 1 n) acc
  == acc + indirgenmis_toplam a c n.
Proof.
  induction n as [|n IH].
  - simpl. ring.
  - rewrite seq_S, fold_left_app. simpl fold_left. rewrite IH.
    simpl indirgenmis_toplam. replace (1 + n)%nat with (S n) by reflexivity. ring.
Qed.

Lemma indirgenmis_olcek (a a' k c : Q) (n : nat) :
  a' == k * a ->
  indirgenmis_toplam a' c n == k * indirgenmis_toplam a c n.
Proof.
  intro Ha. induction n as [|n IH].
  - simpl. ring.
  - simpl indirgenmis_toplam. rewrite IH. unfold Qdiv. rewrite Ha. ring.
Qed.

(** The loop of [_karar_ver] adds up the worded net present value, in
    dollars instead of millions of dollars. *)
Lemma npv_hesapla_tanim (e p : Q) (o : Onlem) :
  npv_hesapla e p o == 1000000 * NPV_tanim e p o.
Proof.
  unfold npv_hesapla, NPV_tanim, range, ekonomik_omur, r.
  replace (10 + 1 - 1)%nat with 10%nat by reflexivity.
  rewrite fold_indirgenmis.
  rewrite (indirgenmis_olcek (potansiyel o * e * p) _ 1000000) by ring.
  destruct (Qgtb (mac o) 0); ring.
Qed.

Lemma npv_isaret (e p : Q) (o : Onlem) :
  0 < npv_hesapla e p o <-> 0 < NPV_tanim e p o.
Proof. rewrite npv_hesapla_tanim. split; intro; lra. Qed.

Lemma npv_sira (e p : Q) (o o' : Onlem) :
  (npv_hesapla e p o < npv_hesapla e p o' <-> NPV_tanim e p o < NPV_tanim e p o') /\
  (npv_hesapla e p o <= npv_hesapla e p o' <-> NPV_tanim e p o <= NPV_tanim e p o').
Proof. rewrite !npv_hesapla_tanim. repeat split; intro; lra. Qed.

(** The running best of the loop over the catalog. *)
Lemma en_iyi_dongu (e p : Q) (l : list (string * Onlem))
    (b0 : Q) (s0 : option (string * Onlem)) :
  let sonuc := fold_left (onlem_degerlendir e p) l (b0, s0) in
  b0 <= fst sonuc /\
  (forall kv, In kv l -> mac (snd kv) < p -> npv_hesapla e p (snd kv) <= fst sonuc) /\
  (sonuc = (b0, s0) \/
   exists l1 kv l2,
     l = l1 ++ kv :: l2 /\ sonuc = (npv_hesapla e p (snd kv), Some kv) /\
     mac (snd kv) < p /\ b0 < npv_hesapla e p (snd kv) /\
     (forall y, In y l1 -> mac (snd y) < p ->
        npv_hesapla e p (snd y) < npv_hesapla e p (snd kv)) /\
     (forall y, In y l2 -> mac (snd y) < p ->
        npv_hesapla e p (snd y) <= npv_hesapla e p (snd kv))).
Proof.
  cbv zeta. revert b0 s0.
  induction l as [|a l IH]; intros b0 s0; cbn [fold_left].
  - split; [cbn [fst]; lra|]. split; [intros kv []|]. left. reflexivity.
  - assert (Hadim :
      (p <= mac (snd a) /\ onlem_degerlendir e p (b0, s0) a = (b0, s0)) \/
      (mac (snd a) < p /\ b0 < npv_hesapla e p (snd a) /\
       onlem_degerlendir e p (b0, s0) a = (npv_hesapla e p (snd a), Some a)) \/
      (mac (snd a) < p /\ npv_hesapla e p (snd a) <= b0 /\
       onlem_degerlendir e p (b0, s0) a = (b0, s0))).
    { unfold onlem_degerlendir. cbn [fst].
      destruct (Qgeb (mac (snd a)) p) eqn:Em;
        [|destruct (Qgtb (npv_hesapla e p (snd a)) b0) eqn:En]; karsilastir; auto. }
    destruct Hadim as [(Hm & ->)|[(Hm & Hn & ->)|(Hm & Hn & ->)]].
    + (* not eligible: skipped *)
      destruct (IH b0 s0) as (Hle & Hall & Hsel).
      split; [exact Hle|]. split.
      * intros kv [<-|Hin] Hkv; [lra | auto].
      * destruct Hsel as [Heq|(l1 & kv & l2 & -> & Hs & Hkv & Hb & H1 & H2)];
          [left; exact Heq | right].
        exists (a :: l1), kv, l2. repeat split; auto.
        intros y [<-|Hin] Hy; [lra | auto].
    + (* a new best *)
      destruct (IH (npv_hesapla e p (snd a)) (Some a)) as (Hle & Hall & Hsel).
      split; [lra|]. split.
      * intros kv [<-|Hin] Hkv; [exact Hle | auto].
      * right.
        destruct Hsel as [Heq|(l1 & kv & l2 & -> & Hs & Hkv & Hb & H1 & H2)].
        -- exists [], a, l. rewrite Heq in Hall. cbn [fst] in Hall.
           repeat split; auto. intros y [].
        -- exists (a :: l1), kv, l2. repeat split; auto; [lra|].
           intros y [<-|Hin] Hy; [lra | auto].
    + (* not better than the running best *)
      destruct (IH b0 s0) as (Hle & Hall & Hsel).
      split; [exact Hle|]. split.
      * intros kv [<-|Hin] Hkv; [lra | auto].
      * destruct Hsel as [Heq|(l1 & kv & l2 & -> & Hs & Hkv & Hb & H1 & H2)];
          [left; exact Heq | right].
        exists (a :: l1), kv, l2. repeat split; auto.
        intros y [<-|Hin] Hy; [lra | auto].
Qed.

(** The measure the catalog loop ends with, in the design's vocabulary. *)
Lemma en_iyi_onlem_bul_pozitif (e p : Q) (l : list (string * Onlem)) :
  (exists kv, In kv l /\ mac (snd kv) < p /\ 0 < NPV_tanim e p (snd kv)) ->
  exists kv,
    snd (en_iyi_onlem_bul e p l) = Some kv /\
    0 < fst (en_iyi_onlem_bul e p l) /\
    0 < NPV_tanim e p (snd kv) /\
    ilk_en_iyi (fun y => NPV_tanim e p (snd y)) (fun y => mac (snd y) < p) l kv.
Proof.
  intros (kv0 & Hin0 & Hm0 & Hpos0).
  unfold en_iyi_onlem_bul.
  destruct (en_iyi_dongu e p l (-9999) None) as (_ & Hall & Hsel).
  cbv zeta in Hall, Hsel.
  apply npv_isaret in Hpos0.
  pose proof (Hall kv0 Hin0 Hm0) as Hbest.
  destruct Hsel as [Heq|(l1 & kv & l2 & Hl & Hs & Hkv & Hb & H1 & H2)].
  - rewrite Heq in Hbest. cbn [fst] in Hbest. lra.
  - rewrite Hs in *. cbn [fst snd] in *. exists kv.
    split; [reflexivity|]. split; [lra|]. split; [apply npv_isaret; lra|].
    exists l1, l2. repeat split; auto.
    + intros y Hy Hmy. apply npv_sira. auto.
    + intros y Hy Hmy. apply npv_sira. auto.
Qed.

Lemma en_iyi_onlem_bul_pozitif_degil (e p : Q) (l : list (string * Onlem)) :
  (forall kv, In kv l -> mac (snd kv) < p -> NPV_tanim e p (snd kv) <= 0) ->
  fst (en_iyi_onlem_bul e p l) <= 0.
Proof.
  intros Hhep. unfold en_iyi_onlem_bul.
  destruct (en_iyi_dongu e p l (-9999) None) as (_ & _ & Hsel).
  cbv zeta in Hsel.
  destruct Hsel as [Heq|(l1 & kv & l2 & Hl & Hs & Hkv & Hb & H1 & H2)].
  - rewrite Heq. cbn [fst]. lra.
  - rewrite Hs. cbn [fst].
    assert (Hin : In kv l) by (rewrite Hl; apply in_or_app; right; left; reflexivity).
    pose proof (Hhep kv Hin Hkv) as Hneg.
    rewrite npv_hesapla_tanim. lra.
Qed.

End KararOzellikleri.

(* ------------------------------------------------------------------ *)
(** ** EndustriyelTesis: the decision of an active facility *)

Module TesisKarari.
Import EndustriyelTesis TesisOzellikleri KararOzellikleri.

(** [step] of an active facility with no investment under way is the
    reconciliation followed by the decision. *)
Lemma step_aktif (m : Ortam) (x : t) :
  durum x = Aktif -> (kalan_yatirim_suresi x <= 0)%Z ->
  step m x =
    let x1 := tahsisat_ve_bankalama m x in
    let (karar, x2) := karar_ver m x1 (efektif_fiyat m x) in
    match karar with
    | yatirim => yatirim_baslat x2 (efektif_fiyat m x)
    | kapat => set_emisyon 0 (set_durum Kapali x2)
    | bekle => x2
    end.
Proof.
  intros Hd Hk.
  destruct (step_cozumle m x) as [[H _]|[(_ & H & _)|(_ & _ & ->)]];
    [congruence | lia |].
  unfold karar_uygula.
  destruct (tahsisat_diger_alanlar m x) as (-> & _). rewrite Hd. reflexivity.
Qed.

(** The decision of a facility that is neither of the subsidy class nor
    penalised, from the best value of the catalog loop. *)
Lemma karar_ver_degerlendirme (m : Ortam) (x : t) (fiyat : Q) :
  duyarlilik x <> Tesvik -> ceza_durumu x = false ->
  let en_iyi := en_iyi_onlem_bul (emisyon x) fiyat (mac_onlemler (profil x)) in
  (0 < fst en_iyi ->
     karar_ver m x fiyat = (yatirim, set_yatirim_onlemi_kaydet (snd en_iyi) x)) /\
  (fst en_iyi <= 0 ->
     (0 < net_emisyon x -> maliyet_limit x < net_emisyon x * fiyat ->
        karar_ver m x fiyat = (kapat, x)) /\
     (~ (0 < net_emisyon x /\ maliyet_limit x < net_emisyon x * fiyat) ->
        karar_ver m x fiyat = (bekle, x))).
Proof.
  intros Hd Hc. cbv zeta. unfold karar_ver.
  destruct (Duyarlilik_eqb (duyarlilik x) Tesvik) eqn:Ed;
    [apply Duyarlilik_eqb_eq in Ed; contradiction|].
  rewrite Hc.
  destruct (Qgtb (fst (en_iyi_onlem_bul _ _ _)) 0) eqn:Eb.
  - apply Qgtb_true in Eb. split; [reflexivity | intro; lra].
  - apply Qgtb_false in Eb. split; [intro; lra|]. intros _. split.
    + intros Hn Hm.
      apply Qgtb_true in Hn. apply Qgtb_true in Hm. rewrite Hn, Hm. reflexivity.
    + intros Hno.
      destruct (Qgtb (net_emisyon x) 0) eqn:En; [|reflexivity].
      destruct (Qgtb (net_emisyon x * fiyat) (maliyet_limit x)) eqn:Em; [|reflexivity].
      apply Qgtb_true in En. apply Qgtb_true in Em.
      exfalso. apply Hno. split; assumption.
Qed.

(** The remaining duration is 1: the investment completes in this step. *)
Lemma step_tamamlanan (m : Ortam) (x : t) :
  durum x <> Kapali -> kalan_yatirim_suresi x = 1%Z ->
  ceza_durumu (step m x) = false /\ durum (step m x) = Temiz /\
  kalan_yatirim_suresi (step m x) = 0%Z.
Proof.
  intros Hd Hk.
  destruct (step_cozumle m x) as [[H _]|[(_ & _ & ->)|(_ & H & _)]];
    [contradiction | | lia].
  destruct (tahsisat_diger_alanlar m x) as (_ & _ & _ & Hkal & _).
  unfold yatirim_ilerlet. cbn [kalan_yatirim_suresi set_kalan_yatirim_suresi].
  rewrite Hkal, Hk. simpl. auto.
Qed.

(** In every other case [step] leaves the penalty flag as it is. *)
Lemma step_ceza_korunur (m : Ortam) (x : t) :
  ~ (durum x <> Kapali /\ kalan_yatirim_suresi x = 1%Z) ->
  ceza_durumu (step m x) = ceza_durumu x.
Proof.
  intros Hno.
  destruct (step_cozumle m x) as [[_ ->]|[(Hd & Hk & ->)|(_ & _ & ->)]].
  - reflexivity.
  - destruct (tahsisat_diger_alanlar m x) as (_ & _ & _ & Hkal & _ & _ & Hc & _).
    unfold yatirim_ilerlet. cbn [kalan_yatirim_suresi set_kalan_yatirim_suresi].
    rewrite Hkal.
    destruct (kalan_yatirim_suresi x - 1 =? 0)%Z eqn:E.
    + apply Z.eqb_eq in E. exfalso. apply Hno. split; [exact Hd | lia].
    + simpl. exact Hc.
  - destruct (karar_uygula_alanlar m (tahsisat_ve_bankalama m x) (efektif_fiyat m x))
      as (_ & _ & _ & Hc).
    destruct (tahsisat_diger_alanlar m x) as (_ & _ & _ & _ & _ & _ & Hc' & _).
    simpl in Hc. congruence.
Qed.

(** The decision of a facility of the subsidy class is never "close". *)
Lemma karar_ver_tesvik (m : Ortam) (x : t) (fiyat : Q) :
  duyarlilik x = Tesvik ->
  karar_ver m x fiyat = (yatirim, x) \/ karar_ver m x fiyat = (bekle, x).
Proof.
  intro Hd. unfold karar_ver. rewrite Hd. simpl.
  destruct (Qgeb _ _); auto.
Qed.

End TesisKarari.

(* ------------------------------------------------------------------ *)
(** ** Hanehalki *)

Module HanehalkiOzellikleri.
Import Hanehalki.

Lemma step_emisyon (m : Ortam) (h : t) :
  durum h = Aktif ->
  (0 < karbon_fiyati m ->
     emisyon (step m h) =
       (tuketim h / 1000) * EMISYON_FAKTORU_TR *
       py_max 0.5 (1 + elastikiyet h * (karbon_fiyati m / 100))) /\
  (karbon_fiyati m <= 0 ->
     emisyon (step m h) = (tuketim h / 1000) * EMISYON_FAKTORU_TR).
Proof.
  intro Hd. unfold step. rewrite Hd. simpl.
  destruct (Qgtb (karbon_fiyati m) 0) eqn:E; karsilastir; simpl;
    split; intro; try reflexivity; exfalso; lra.
Qed.

(** The price-response multiplier falls with the price, down to a half. *)
Lemma fiyat_etkisi_azalan (el p1 p2 : Q) :
  el < 0 -> p1 < p2 ->
  let c1 := py_max 0.5 (1 + el * (p1 / 100)) in
  let c2 := py_max 0.5 (1 + el * (p2 / 100)) in
  0.5 <= c2 /\ c2 <= c1 /\ (0.5 < 1 + el * (p1 / 100) -> c2 < c1).
Proof.
  intros Hel Hp. cbv zeta.
  assert (Hb : p1 / 100 < p2 / 100).
  { unfold Qdiv. apply Qmult_lt_compat_r; [reflexivity | exact Hp]. }
  assert (Ha : el * (p2 / 100) < el * (p1 / 100)).
  { set (a := p1 / 100) in *. set (b := p2 / 100) in *. nra. }
  destruct (py_max_spec 0.5 (1 + el * (p1 / 100))) as [[H1 ->]|[H1 ->]];
    destruct (py_max_spec 0.5 (1 + el * (p2 / 100))) as [[H2 ->]|[H2 ->]];
    (split; [lra | split; [lra | intro; lra]]).
Qed.

(** C7 (amended). For an active household with positive consumption and
    negative elasticity, at a positive carbon price p the emission after
    the step is (consumption / 1000) * grid factor * max(0.5, 1 +
    elasticity * p / 100); as the price rises the emission never rises, it
    falls strictly as long as the multiplier at the lower price is above
    the floor of a half, and it is never below half of the emission at no
    carbon price. *)
Theorem hanehalki_fiyat_tepkisi (m1 m2 m0 : Ortam) (h : t)
    (Haktif : durum h = Aktif)
    (Htuketim : 0 < tuketim h)
    (Helastik : elastikiyet h < 0)
    (Hp1 : 0 < karbon_fiyati m1)
    (Hp12 : karbon_fiyati m1 < karbon_fiyati m2)
    (Hp0 : karbon_fiyati m0 <= 0) :
  emisyon (step m1 h) =
    (tuketim h / 1000) * EMISYON_FAKTORU_TR *
    py_max 0.5 (1 + elastikiyet h * (karbon_fiyati m1 / 100)) /\
  emisyon (step m2 h) <= emisyon (step m1 h) /\
  (0.5 < 1 + elastikiyet h * (karbon_fiyati m1 / 100) ->
     emisyon (step m2 h) < emisyon (step m1 h)) /\
  0.5 * emisyon (step m0 h) <= emisyon (step m2 h) /\
  0.5 * emisyon (step m0 h) <= emisyon (step m1 h).
Proof.
  destruct (step_emisyon m1 h Haktif) as (E1 & _). specialize (E1 Hp1).
  destruct (step_emisyon m2 h Haktif) as (E2 & _).
  specialize (E2 (Qlt_trans _ _ _ Hp1 Hp12)).
  destruct (step_emisyon m0 h Haktif) as (_ & E0). specialize (E0 Hp0).
  rewrite E0, E1, E2.
  destruct (fiyat_etkisi_azalan _ _ _ Helastik Hp12) as (Hyarim & Hazalan & Hkesin).
  cbv zeta in Hyarim, Hazalan, Hkesin.
  set (c1 := py_max 0.5 (1 + elastikiyet h * (karbon_fiyati m1 / 100))) in *.
  set (c2 := py_max 0.5 (1 + elastikiyet h * (karbon_fiyati m2 / 100))) in *.
  assert (Htaban : 0 < (tuketim h / 1000) * EMISYON_FAKTORU_TR).
  { assert (0 < tuketim h / 1000).
    { unfold Qdiv. apply Qmult_lt_0_compat; [exact Htuketim | reflexivity]. }
    unfold EMISYON_FAKTORU_TR. set (a := tuketim h / 1000) in *. nra. }
  set (taban := (tuketim h / 1000) * EMISYON_FAKTORU_TR) in *.
  split; [reflexivity|].
  split; [nra|]. split; [intro Hust; specialize (Hkesin Hust); nra|].
  split; nra.
Qed.

End HanehalkiOzellikleri.

(* ------------------------------------------------------------------ *)
(** ** The roster during a run *)

Module RosterOzellikleri.
Import TesisOzellikleri.

Lemma ajan_iliski_refl (a : Ajan) : ajan_iliski a a.
Proof.
  unfold ajan_iliski. destruct (tesis_gorunumu a); [apply rt_refl | exact I].
Qed.

Lemma ajan_iliski_trans (a b c : Ajan) :
  ajan_iliski a b -> ajan_iliski b c -> ajan_iliski a c.
Proof.
  unfold ajan_iliski.
  destruct (tesis_gorunumu a), (tesis_gorunumu b), (tesis_gorunumu c);
    try contradiction; auto.
  apply rt_trans.
Qed.

Lemma roster_iliski_refl (l : list Ajan) : Forall2 ajan_iliski l l.
Proof. induction l; constructor; auto using ajan_iliski_refl. Qed.

Lemma roster_iliski_trans (l1 l2 l3 : list Ajan) :
  Forall2 ajan_iliski l1 l2 -> Forall2 ajan_iliski l2 l3 ->
  Forall2 ajan_iliski l1 l3.
Proof.
  intros H12. revert l3. induction H12; intros l3 H23; inversion H23; subst.
  - constructor.
  - constructor; eauto using ajan_iliski_trans.
Qed.

Lemma liste_yaz_iliski (l : list Ajan) (i : nat) (a a' : Ajan) :
  nth_error l i = Some a -> ajan_iliski a a' ->
  Forall2 ajan_iliski l (liste_yaz i a' l).
Proof.
  revert i. induction l as [|b l IH]; intros i Hi Hr.
  - destruct i; discriminate.
  - destruct i as [|i]; simpl in *.
    + injection Hi as ->. constructor; [exact Hr | apply roster_iliski_refl].
    + constructor; [apply ajan_iliski_refl | eauto].
Qed.

Lemma tesis_yaz_gorunum (a : Ajan) (x y : EndustriyelTesis.t) :
  tesis_gorunumu a = Some x -> tesis_gorunumu (tesis_yaz a y) = Some y.
Proof. destruct a; simpl; intro H; try discriminate; reflexivity. Qed.

(** The facility part of an exporter after its step is the inherited step
    of the facility part: the border-adjustment block does not touch it. *)
Lemma ihracatci_step_taban (m : Ortam) (x : IhracatciAjani.t) :
  IhracatciAjani.taban (IhracatciAjani.step m x) =
  EndustriyelTesis.step m (IhracatciAjani.taban x).
Proof.
  unfold IhracatciAjani.step.
  destruct (Durum_eqb (EndustriyelTesis.durum (IhracatciAjani.taban x)) Kapali) eqn:E.
  - apply Durum_eqb_eq in E. rewrite step_kapali by exact E. reflexivity.
  - assert (Ht : IhracatciAjani.taban (IhracatciAjani.cbam_hesapla m x)
                 = IhracatciAjani.taban x).
    { unfold IhracatciAjani.cbam_hesapla.
      repeat match goal with |- context [if ?b then _ else _] => destruct b end;
        reflexivity. }
    simpl. rewrite Ht. reflexivity.
Qed.

Lemma gorunum_iliski (l l' : list Ajan) (i : nat) :
  Forall2 ajan_iliski l l' ->
  match gorunum l i, gorunum l' i with
  | Some x, Some x' => clos_refl_trans _ tesis_islemi x x'
  | None, None => True
  | _, _ => False
  end.
Proof.
  intro H. revert i. induction H as [|a a' l l' Ha _ IH]; intro i.
  - unfold gorunum. destruct i; simpl; exact I.
  - destruct i as [|i].
    + unfold gorunum. simpl. exact Ha.
    + unfold gorunum in *. simpl. apply IH.
Qed.

Lemma islem_zinciri (P : EndustriyelTesis.t -> Prop) :
  (forall x y, tesis_islemi x y -> P x -> P y) ->
  forall x y, clos_refl_trans _ tesis_islemi x y -> P x -> P y.
Proof. intros Hkorur x y H. induction H; eauto. Qed.

Section Kutuphaneli.
Context `{K : Kutuphane}.

(** One audit leaves the agent as it is or writes a penalty on it. *)
Lemma denetle_sonuc (self : MRVAjani.t) (gorulen : list Ajan) (a : Ajan) (z : Zar) :
  exists self1 a1 z1,
    MRVAjani.denetle (self, gorulen) a z = ((self1, gorulen ++ [a1]), z1) /\
    ajan_iliski a a1.
Proof.
  unfold MRVAjani.denetle.
  destruct (tesis_gorunumu a) as [x|] eqn:Eg.
  - destruct (Durum_eqb (EndustriyelTesis.durum x) Kapali) eqn:Ed; simpl.
    + unfold ret. eauto 6 using ajan_iliski_refl.
    + apply Durum_eqb_neq in Ed.
      unfold bind, random_random, np_random_uniform, ret.
      repeat (cbn [py_durum np_durum fst snd];
              match goal with
              | |- context [py_random ?g] => destruct (py_random g)
              | |- context [np_uniform ?g ?a ?b] => destruct (np_uniform g a b)
              | |- context [if ?b then _ else _] => destruct b
              end);
        (do 3 eexists; split; [reflexivity|]); try apply ajan_iliski_refl.
      unfold ajan_iliski. rewrite Eg.
      rewrite (tesis_yaz_gorunum a x _ Eg).
      apply rt_step. apply islem_ceza. exact Ed.
  - unfold ret. eauto 6 using ajan_iliski_refl.
Qed.

Lemma denetim_dongusu (agents : list Ajan) (self : MRVAjani.t)
    (gorulen : list Ajan) (z : Zar) :
  exists self' agents' z',
    dongu MRVAjani.denetle agents (self, gorulen) z = ((self', gorulen ++ agents'), z') /\
    Forall2 ajan_iliski agents agents'.
Proof.
  revert self gorulen z. induction agents as [|a agents IH]; intros self gorulen z.
  - exists self, [], z. simpl. unfold ret. rewrite app_nil_r. split; constructor.
  - cbn [dongu]. unfold bind at 1.
    destruct (denetle_sonuc self gorulen a z) as (self1 & a1 & z1 & -> & Ha).
    destruct (IH self1 (gorulen ++ [a1]) z1) as (self' & agents' & z' & -> & Hrest).
    exists self', (a1 :: agents'), z'. rewrite <- app_assoc. simpl.
    split; [reflexivity | constructor; assumption].
Qed.

Lemma mrv_step_iliski (agents : list Ajan) (self : MRVAjani.t) (z : Zar) :
  Forall2 ajan_iliski agents (snd (fst (MRVAjani.step agents self z))).
Proof.
  unfold MRVAjani.step.
  destruct (denetim_dongusu agents
              {| MRVAjani.denetim_olasiligi := MRVAjani.denetim_olasiligi self;
                 MRVAjani.ceza_miktari := MRVAjani.ceza_miktari self;
                 MRVAjani.toplam_denetim := MRVAjani.toplam_denetim self;
                 MRVAjani.toplam_ceza := MRVAjani.toplam_ceza self;
                 MRVAjani.uyumsuz_tesis_sayisi := 0 |} [] z)
    as (self' & agents' & z' & -> & H).
  simpl. exact H.
Qed.

(** The step of the market operator always returns. *)
Lemma piyasa_step_toplam (m : Ortam) (agents : list Ajan) (self : PiyasaOperatoru.t) :
  exists sonuc, PiyasaOperatoru.step m agents self = Some sonuc.
Proof.
  unfold PiyasaOperatoru.step.
  set (self1 := if (yil m >=? PILOT_BASLANGIC)%Z then _ else self).
  destruct (fiyat_belirle_toplam (yil m) (PiyasaOperatoru.cap self1)
              (PiyasaOperatoru.toplam_emisyon_hesapla agents)) as (fiyat & -> & _).
  eauto.
Qed.

Import TurkiyeETSModel.

(** The call of one agent's step always returns, and acts on the
    facilities of the roster by facility operations only. *)
Lemma ajan_step_iliski (i : nat) (st : Zar * t) :
  exists st', ajan_step i st = Some st' /\
              Forall2 ajan_iliski (agents (snd st)) (agents (snd st')).
Proof.
  destruct st as [z self]. unfold ajan_step.
  destruct (nth_error (agents self) i) as [a|] eqn:Ei.
  - destruct a as [| |x|x|h|g].
    + destruct (piyasa_step_toplam (ortam self) (agents self) (piyasa_operatoru self))
        as ([p fiyat] & ->).
      eexists. split; [reflexivity|]. simpl. apply roster_iliski_refl.
    + pose proof (mrv_step_iliski (agents self) (mrv_merkezi self) z) as H.
      destruct (MRVAjani.step (agents self) (mrv_merkezi self) z) as [sonuc z'].
      eexists. split; [reflexivity|]. simpl in *. exact H.
    + eexists. split; [reflexivity|]. simpl.
      apply (liste_yaz_iliski _ _ _ _ Ei).
      unfold ajan_iliski. simpl. apply rt_step. constructor.
    + eexists. split; [reflexivity|]. simpl.
      apply (liste_yaz_iliski _ _ _ _ Ei).
      unfold ajan_iliski. simpl. rewrite ihracatci_step_taban.
      apply rt_step. constructor.
    + eexists. split; [reflexivity|]. simpl.
      apply (liste_yaz_iliski _ _ _ _ Ei). exact I.
    + destruct (ProjeGelistirici.step (ortam self) g) as [g' kap].
      eexists. split; [reflexivity|]. simpl.
      apply (liste_yaz_iliski _ _ _ _ Ei). exact I.
  - eexists. split; [reflexivity|]. apply roster_iliski_refl.
Qed.

Lemma sirayla_iliski (sira : list nat) (st : Zar * t) :
  exists st', sirayla sira st = Some st' /\
              Forall2 ajan_iliski (agents (snd st)) (agents (snd st')).
Proof.
  revert st. induction sira as [|i sira IH]; intro st; simpl.
  - eexists. split; [reflexivity | apply roster_iliski_refl].
  - destruct (ajan_step_iliski i st) as (st1 & -> & H1).
    destruct (IH st1) as (st' & -> & H2).
    eexists. split; [reflexivity | eapply roster_iliski_trans; eassumption].
Qed.

(** One simulated year always completes. *)
Lemma step_iliski (st : Zar * t) :
  exists st', step st = Some st' /\
              Forall2 ajan_iliski (agents (snd st)) (agents (snd st')).
Proof.
  destruct st as [z self]. unfold step.
  set (self1 := set_datacollector _ (zaman_cizelgesi self)).
  assert (Ha : agents self1 = agents self).
  { subst self1. unfold zaman_cizelgesi.
    repeat match goal with |- context [if ?b then _ else _] => destruct b end;
      reflexivity. }
  destruct (py_shuffle (random self1) (List.length (agents self1))) as [sira g].
  destruct (sirayla_iliski sira (z, set_random g self1)) as ([z' self'] & -> & H).
  eexists. split; [reflexivity|]. simpl in *. rewrite <- Ha. exact H.
Qed.

(** A run of any number of years completes. *)
Lemma adimla_iliski (n : nat) (st : Zar * t) :
  exists st', adimla n st = Some st' /\
              Forall2 ajan_iliski (agents (snd st)) (agents (snd st')).
Proof.
  revert st. induction n as [|n IH]; intro st; simpl.
  - eexists. split; [reflexivity | apply roster_iliski_refl].
  - destruct (step_iliski st) as (st1 & -> & H1).
    destruct (IH st1) as (st' & -> & H2).
    eexists. split; [reflexivity | eapply roster_iliski_trans; eassumption].
Qed.

(** A property of facilities that every facility operation preserves
    holds of the roster after a run if it holds before. *)
Lemma degismez_tasima (P : EndustriyelTesis.t -> Prop) :
  (forall x y, tesis_islemi x y -> P x -> P y) ->
  forall (n : nat) (st st' : Zar * t),
    adimla n st = Some st' ->
    (forall i x, gorunum (agents (snd st)) i = Some x -> P x) ->
    forall i x, gorunum (agents (snd st')) i = Some x -> P x.
Proof.
  intros Hkorur n st st' Hrun Hbas i x' Hx'.
  destruct (adimla_iliski n st) as (st1 & Hrun1 & Hrel).
  rewrite Hrun in Hrun1. injection Hrun1 as <-.
  pose proof (gorunum_iliski _ _ i Hrel) as Hi. rewrite Hx' in Hi.
  destruct (gorunum (agents (snd st)) i) as [x|] eqn:Ex; [|contradiction].
  exact (islem_zinciri P Hkorur x x' Hi (Hbas i x Ex)).
Qed.

End Kutuphaneli.

End RosterOzellikleri.

(* ------------------------------------------------------------------ *)
(** ** The life cycle of a facility *)

Module YasamDongusu.
Import EndustriyelTesis TesisOzellikleri TesisKarari RosterOzellikleri.

Lemma step_duyarlilik (m : Ortam) (x : t) : duyarlilik (step m x) = duyarlilik x.
Proof.
  destruct (tahsisat_diger_alanlar m x) as (_ & _ & _ & _ & _ & _ & _ & Hd & _).
  destruct (step_cozumle m x) as [[_ ->]|[(_ & _ & ->)|(_ & _ & ->)]].
  - reflexivity.
  - destruct (yatirim_ilerlet_alanlar (tahsisat_ve_bankalama m x)) as (_ & _ & H & _).
    simpl in *. congruence.
  - destruct (karar_uygula_alanlar m (tahsisat_ve_bankalama m x) (efektif_fiyat m x))
      as (_ & _ & H & _).
    simpl in *. congruence.
Qed.

(** The transitions of the status in one step. *)
Lemma step_gecis (m : Ortam) (x : t) :
  step m x = x \/
  (durum x <> Kapali /\ durum (step m x) = durum x) \/
  (durum x <> Kapali /\ durum (step m x) = Temiz) \/
  (durum x = Aktif /\ durum (step m x) = Donusum) \/
  (durum x = Aktif /\ duyarlilik x <> Tesvik /\
   durum (step m x) = Kapali /\ emisyon (step m x) = 0).
Proof.
  destruct (tahsisat_diger_alanlar m x) as (Hdur & _ & _ & _ & _ & _ & _ & Hduy & _).
  destruct (step_cozumle m x) as [[_ ->]|[(Hd & _ & ->)|(Hd & _ & ->)]].
  - left. reflexivity.
  - right.
    destruct (yatirim_ilerlet_alanlar (tahsisat_ve_bankalama m x))
      as (_ & _ & _ & [H|H] & _); simpl in H.
    + left. split; [exact Hd | congruence].
    + right. left. auto.
  - right. unfold karar_uygula. simpl in Hdur, Hduy.
    destruct (Durum_eqb (durum (tahsisat_ve_bankalama m x)) Aktif) eqn:Ea.
    + apply Durum_eqb_eq in Ea. rewrite Hdur in Ea.
      destruct (karar_ver m (tahsisat_ve_bankalama m x) (efektif_fiyat m x))
        as [karar x2] eqn:Ek.
      assert (Hx2 : durum x2 = durum x).
      { destruct (karar_ver_nesne m (tahsisat_ve_bankalama m x) (efektif_fiyat m x))
          as [H|[kv H]]; rewrite Ek in H; simpl in H; subst x2; simpl; congruence. }
      destruct karar.
      * right. right. left. split; [exact Ea|].
        apply (yatirim_baslat_alanlar x2 (efektif_fiyat m x)).
      * right. right. right. split; [exact Ea|]. split; [|split; reflexivity].
        intro Ht. rewrite <- Hduy in Ht.
        destruct (karar_ver_tesvik m (tahsisat_ve_bankalama m x) (efektif_fiyat m x) Ht)
          as [H|H]; rewrite Ek in H; discriminate.
      * left. split; [exact Hd | exact Hx2].
    + left. split; [exact Hd | exact Hdur].
Qed.

Lemma ceza_yaz_alanlar (ceza : Q) (x : t) :
  let y := MRVAjani.ceza_yaz ceza x in
  durum y = durum x /\ emisyon y = emisyon x /\ duyarlilik y = duyarlilik x /\
  izin_bankasi y = izin_bankasi x /\ net_emisyon y = net_emisyon x.
Proof. simpl. auto. Qed.

(** The allowance ledger stays non-negative under every operation. *)
Lemma defter_korunur (x y : t) :
  tesis_islemi x y ->
  0 <= izin_bankasi x /\ 0 <= net_emisyon x ->
  0 <= izin_bankasi y /\ 0 <= net_emisyon y.
Proof.
  intros [m x0|ceza x0 Hd] [Hb Hn].
  - destruct (Durum_eqb (durum x0) Kapali) eqn:E.
    + apply Durum_eqb_eq in E. rewrite step_kapali by exact E. auto.
    + apply Durum_eqb_neq in E.
      destruct (step_defter m x0 E) as [-> ->].
      destruct (tahsisat_negatif_degil m x0) as [Hn' Hb']. auto.
  - simpl. auto.
Qed.

(** A closed facility is not changed by any operation. *)
Lemma kapali_sabit (x y : t) :
  clos_refl_trans _ tesis_islemi x y -> durum x = Kapali -> y = x.
Proof.
  intros H Hk.
  apply (islem_zinciri (fun y => y = x)) with (x := x); [|exact H|reflexivity].
  intros y1 y2 Hop ->. destruct Hop as [m x0|ceza x0 Hd].
  - apply step_kapali. exact Hk.
  - contradiction.
Qed.

(** A facility that is closed after some operations was closed before
    them and is unchanged, or has emission 0. *)
Lemma kapanis_sifirlar (x y : t) :
  clos_refl_trans _ tesis_islemi x y ->
  durum y = Kapali -> y = x \/ emisyon y = 0.
Proof.
  intro H.
  apply (islem_zinciri (fun y => durum y = Kapali -> y = x \/ emisyon y = 0))
    with (x := x); [|exact H|auto].
  intros y1 y2 Hop IH Hk. destruct Hop as [m x0|ceza x0 Hd].
  - destruct (step_gecis m x0)
      as [Heq|[(Hd & Hs)|[(_ & Hs)|[(_ & Hs)|(_ & _ & _ & He)]]]].
    + rewrite Heq in *. auto.
    + rewrite Hs in Hk. contradiction.
    + rewrite Hs in Hk. discriminate.
    + rewrite Hs in Hk. discriminate.
    + right. exact He.
  - simpl in Hk. contradiction.
Qed.

(** A facility of the subsidy class that is not closed stays so. *)
Lemma tesvik_korunur (x y : t) :
  tesis_islemi x y ->
  duyarlilik x = Tesvik /\ durum x <> Kapali ->
  duyarlilik y = Tesvik /\ durum y <> Kapali.
Proof.
  intros [m x0|ceza x0 Hd] [Ht Hk].
  - split; [rewrite step_duyarlilik; exact Ht|].
    destruct (step_gecis m x0)
      as [Heq|[(_ & Hs)|[(_ & Hs)|[(_ & Hs)|(_ & Hno & _)]]]].
    + rewrite Heq. exact Hk.
    + rewrite Hs. exact Hk.
    + rewrite Hs. discriminate.
    + rewrite Hs. discriminate.
    + contradiction.
  - simpl. auto.
Qed.

Lemma tesvik_zinciri (x y : t) :
  clos_refl_trans _ tesis_islemi x y ->
  duyarlilik x = Tesvik -> durum x <> Kapali ->
  duyarlilik y = Tesvik /\ durum y <> Kapali.
Proof.
  intros H Ht Hk.
  apply (islem_zinciri (fun y => duyarlilik y = Tesvik /\ durum y <> Kapali))
    with (x := x); [exact tesvik_korunur | exact H | split; assumption].
Qed.

Lemma duyarlilik_zinciri (x y : t) :
  clos_refl_trans _ tesis_islemi x y -> duyarlilik y = duyarlilik x.
Proof.
  intro H.
  apply (islem_zinciri (fun y => duyarlilik y = duyarlilik x)) with (x := x);
    [|exact H|reflexivity].
  intros y1 y2 [m x0|ceza x0 Hd] IH.
  - rewrite step_duyarlilik. exact IH.
  - exact IH.
Qed.

(** A decision other than "invest" leaves the object as it is. *)
Lemma karar_ver_yatirimsiz (m : Ortam) (x : t) (fiyat : Q) :
  fst (karar_ver m x fiyat) <> yatirim -> snd (karar_ver m x fiyat) = x.
Proof.
  unfold karar_ver.
  repeat match goal with |- context [if ?b then _ else _] => destruct b end;
    simpl; intro H; try reflexivity; exfalso; apply H; reflexivity.
Qed.

(** An active facility has no investment under way, no saved measure and
    its initial emission: all three change only together with the status. *)
Lemma aktif_bekleyen_korunur (x y : t) :
  tesis_islemi x y ->
  (durum x = Aktif ->
     kalan_yatirim_suresi x = 0%Z /\ yatirim_onlemi_kaydet x = None /\
     emisyon x = baslangic_emisyon x) ->
  (durum y = Aktif ->
     kalan_yatirim_suresi y = 0%Z /\ yatirim_onlemi_kaydet y = None /\
     emisyon y = baslangic_emisyon y).
Proof.
  intros [m x0|ceza x0 Hd] Hinv Hy; [|simpl in *; auto].
  destruct (tahsisat_diger_alanlar m x0)
    as (Hdur & Hem & Hbas & Hkal & _ & _ & _ & _ & _ & _ & _ & _ & Hkay).
  simpl in Hdur, Hem, Hbas, Hkal, Hkay.
  destruct (step_cozumle m x0) as [[_ E]|[(Hd & Hk & E)|(Hd & Hk & E)]];
    rewrite E in *.
  - auto.
  - exfalso.
    destruct (yatirim_ilerlet_alanlar (tahsisat_ve_bankalama m x0))
      as (_ & _ & _ & [H|H] & _); simpl in H.
    + rewrite H, Hdur in Hy. destruct (Hinv Hy) as [H0 _]. lia.
    + rewrite H in Hy. discriminate.
  - unfold karar_uygula in *.
    destruct (Durum_eqb (durum (tahsisat_ve_bankalama m x0)) Aktif) eqn:Ea.
    + apply Durum_eqb_eq in Ea. rewrite Hdur in Ea.
      destruct (Hinv Ea) as (H0 & Hn & He).
      pose proof (karar_ver_yatirimsiz m (tahsisat_ve_bankalama m x0)
                    (efektif_fiyat m x0)) as Hsame.
      destruct (karar_ver m (tahsisat_ve_bankalama m x0) (efektif_fiyat m x0))
        as [karar x2].
      destruct karar; simpl in Hsame.
      * destruct (yatirim_baslat_alanlar x2 (efektif_fiyat m x0)) as (Hdon & _).
        simpl in Hdon. rewrite Hdon in Hy. discriminate.
      * simpl in Hy. discriminate.
      * rewrite Hsame by discriminate. rewrite Hkal, Hkay, Hem, Hbas. auto.
    + apply Durum_eqb_neq in Ea. contradiction.
Qed.

Lemma kosu_aktif (x : t) :
  tesis_kosusu x -> durum x = Aktif ->
  kalan_yatirim_suresi x = 0%Z /\ yatirim_onlemi_kaydet x = None /\
  emisyon x = baslangic_emisyon x.
Proof.
  intros (x0 & (_ & _ & _ & Hk & Hn & He) & Hzincir).
  apply (islem_zinciri
           (fun y => durum y = Aktif ->
                     kalan_yatirim_suresi y = 0%Z /\ yatirim_onlemi_kaydet y = None /\
                     emisyon y = baslangic_emisyon y))
    with (x := x0); [exact aktif_bekleyen_korunur | exact Hzincir | auto].
Qed.



Lemma taze_kosu (x : t) : taze x -> tesis_kosusu x.
Proof. intro H. exists x. split; [exact H | apply rt_refl]. Qed.

End YasamDongusu.

(* ------------------------------------------------------------------ *)
(** ** EndustriyelTesis: closing, choosing a measure, penalties *)

Module TesisIddialari.
Import EndustriyelTesis TesisOzellikleri KararOzellikleri TesisKarari YasamDongusu.

(** C1 (amended). An active facility of a run, not of
    the subsidy class, not penalised, none of whose measures below the
    effective price has a positive net present value, and whose
    reconciliation of the year leaves a positive net uncovered emission
    whose cost at the effective price exceeds the shutdown threshold, is
    closed by its step, with emission 0. *)
Theorem kapanma_esigi (m : Ortam) (x : t)
    (Haktif : durum x = Aktif)
    (Hkosu : tesis_kosusu x)
    (Hvergi : duyarlilik x <> Tesvik)
    (Hcezasiz : ceza_durumu x = false)
    (Hnpv : forall kv, In kv (mac_onlemler (profil x)) ->
              mac (snd kv) < efektif_fiyat m x ->
              NPV_tanim (emisyon x) (efektif_fiyat m x) (snd kv) <= 0)
    (Hnet : 0 < net_emisyon (tahsisat_ve_bankalama m x))
    (Hmaliyet : maliyet_limit x <
                net_emisyon (tahsisat_ve_bankalama m x) * efektif_fiyat m x) :
  durum (step m x) = Kapali /\ emisyon (step m x) = 0.
Proof.
  destruct (kosu_aktif x Hkosu Haktif) as (Hkalan & _ & _).
  rewrite (step_aktif m x Haktif) by lia. cbv zeta.
  destruct (tahsisat_diger_alanlar m x)
    as (_ & He & _ & _ & _ & _ & Hc & Hd & Hp & Hl & _).
  set (x1 := tahsisat_ve_bankalama m x) in *.
  destruct (karar_ver_degerlendirme m x1 (efektif_fiyat m x)) as (_ & Hdegil);
    [congruence | congruence |].
  rewrite He, Hp in Hdegil.
  destruct (Hdegil (en_iyi_onlem_bul_pozitif_degil _ _ _ Hnpv)) as (Hkapat & _).
  rewrite Hkapat; [| exact Hnet | rewrite Hl; exact Hmaliyet].
  split; reflexivity.
Qed.

(** C6. For an active facility of a run with no penalty flag and a class
    other than subsidy: the value the decision computes
    for a measure is the worded net present value (expressed in dollars,
    that is times 10^6); only the catalog measures whose marginal cost is
    strictly below the effective price count; if one of them has a positive
    net present value, the step begins an investment with the measure of
    highest net present value among them, the first of the catalog on a
    tie; and if none has, the step begins no investment. *)
Theorem npv_ile_secim (m : Ortam) (x : t)
    (Haktif : durum x = Aktif)
    (Hkosu : tesis_kosusu x)
    (Hcezasiz : ceza_durumu x = false)
    (Hvergi : duyarlilik x <> Tesvik) :
  let fiyat := efektif_fiyat m x in
  let deger := fun kv : string * Onlem => NPV_tanim (emisyon x) fiyat (snd kv) in
  let uygun := fun kv : string * Onlem => mac (snd kv) < fiyat in
  let y := step m x in
  (forall o, npv_hesapla (emisyon x) fiyat o == 1000000 * NPV_tanim (emisyon x) fiyat o) /\
  ((exists kv, In kv (mac_onlemler (profil x)) /\ uygun kv /\ 0 < deger kv) ->
   exists kv,
     ilk_en_iyi deger uygun (mac_onlemler (profil x)) kv /\ 0 < deger kv /\
     durum y = Donusum /\
     yatirim_durumu y = Some (fst kv) /\
     kalan_yatirim_suresi y = sure (snd kv) /\
     emisyon_azalma_potansiyeli y = potansiyel (snd kv)) /\
  ((forall kv, In kv (mac_onlemler (profil x)) -> uygun kv -> deger kv <= 0) ->
   durum y <> Donusum /\
   yatirim_durumu y = yatirim_durumu x /\
   kalan_yatirim_suresi y = kalan_yatirim_suresi x /\
   emisyon_azalma_potansiyeli y = emisyon_azalma_potansiyeli x).
Proof.
  cbv zeta. split; [intro o; apply npv_hesapla_tanim|].
  destruct (kosu_aktif x Hkosu Haktif) as (Hkalan & _ & _).
  rewrite (step_aktif m x Haktif) by lia. cbv zeta.
  destruct (tahsisat_diger_alanlar m x)
    as (Hdur & He & _ & Hkal & Hpot & Hyat & Hc & Hd & Hp & _).
  set (x1 := tahsisat_ve_bankalama m x) in *.
  destruct (karar_ver_degerlendirme m x1 (efektif_fiyat m x)) as (Hpoz & Hdegil);
    [congruence | congruence |].
  rewrite He, Hp in Hpoz, Hdegil.
  split.
  - intros Hvar.
    destruct (en_iyi_onlem_bul_pozitif _ _ _ Hvar) as (kv & Hs & Hb & Hkv & Hilk).
    exists kv. split; [exact Hilk|]. split; [exact Hkv|].
    rewrite (Hpoz Hb), Hs.
    unfold yatirim_baslat. cbn [yatirim_onlemi_kaydet set_yatirim_onlemi_kaydet].
    destruct kv as [ad o]. simpl. auto.
  - intros Hyok.
    pose proof (en_iyi_onlem_bul_pozitif_degil _ _ _ Hyok) as Hb.
    destruct (Hdegil Hb) as (Hkapat & Hbekle).
    destruct (Qlt_le_dec 0 (net_emisyon x1)) as [Hn|Hn];
      [destruct (Qlt_le_dec (maliyet_limit x1) (net_emisyon x1 * efektif_fiyat m x))
         as [Hm|Hm]|].
    + rewrite (Hkapat Hn Hm). simpl.
      rewrite Hyat, Hkal, Hpot. repeat split; auto. discriminate.
    + rewrite Hbekle by (intros [_ H]; lra).
      rewrite Hdur, Hyat, Hkal, Hpot, Haktif. repeat split; auto. discriminate.
    + rewrite Hbekle by (intros [H _]; lra).
      rewrite Hdur, Hyat, Hkal, Hpot, Haktif. repeat split; auto. discriminate.
Qed.

(** C8. For an active facility of a run whose class is not subsidy, a
    set penalty flag makes the decision "invest" whatever the price and
    the catalog, without evaluating any measure, and the step starts an
    investment (with the first catalog measure below the effective price,
    or a general improvement of three years and 20 per cent when there is
    none); the step of a facility clears the penalty flag when the
    remaining duration of an investment reaches zero, together with the
    change of status to clean, and in every other case leaves the flag as
    it was. *)
Theorem ceza_zorunlu_yatirim (m : Ortam) (x : t) :
  (tesis_kosusu x -> durum x = Aktif ->
   duyarlilik x <> Tesvik -> ceza_durumu x = true ->
     (forall m' fiyat, karar_ver m' x fiyat = (yatirim, x)) /\
     durum (step m x) = Donusum /\
     ceza_durumu (step m x) = true /\
     match ilk_uygun_onlem (mac_onlemler (profil x)) (efektif_fiyat m x) with
     | Some kv =>
         yatirim_durumu (step m x) = Some (fst kv) /\
         kalan_yatirim_suresi (step m x) = sure (snd kv) /\
         emisyon_azalma_potansiyeli (step m x) = potansiyel (snd kv)
     | None =>
         yatirim_durumu (step m x) = Some "genel_iyilestirme"%string /\
         kalan_yatirim_suresi (step m x) = 3%Z /\
         emisyon_azalma_potansiyeli (step m x) = 0.20
     end) /\
  (durum x <> Kapali -> kalan_yatirim_suresi x = 1%Z ->
     ceza_durumu (step m x) = false /\ durum (step m x) = Temiz /\
     kalan_yatirim_suresi (step m x) = 0%Z) /\
  (~ (durum x <> Kapali /\ kalan_yatirim_suresi x = 1%Z) ->
     ceza_durumu (step m x) = ceza_durumu x).
Proof.
  split; [|split; [apply step_tamamlanan | apply step_ceza_korunur]].
  intros Hkosu Haktif Hvergi Hceza.
  destruct (kosu_aktif x Hkosu Haktif) as (Hkalan & Hkayit & _).
  assert (Hkarar : forall m' (z : t) fiyat,
            duyarlilik z = duyarlilik x -> ceza_durumu z = true ->
            karar_ver m' z fiyat = (yatirim, z)).
  { intros m' z fiyat Hd Hc. unfold karar_ver.
    destruct (Duyarlilik_eqb (duyarlilik z) Tesvik) eqn:Ed.
    - apply Duyarlilik_eqb_eq in Ed. congruence.
    - rewrite Hc. reflexivity. }
  split; [intros m' fiyat; apply Hkarar; auto|].
  rewrite (step_aktif m x Haktif) by lia. cbv zeta.
  destruct (tahsisat_diger_alanlar m x)
    as (_ & _ & _ & _ & _ & _ & Hc & Hd & Hp & _ & _ & _ & Hkay).
  cbv zeta in Hc, Hd, Hp, Hkay.
  rewrite Hkarar by congruence.
  unfold yatirim_baslat. rewrite Hkay, Hkayit, Hp.
  destruct (ilk_uygun_onlem (mac_onlemler (profil x)) (efektif_fiyat m x))
    as [[ad o]|]; simpl; rewrite Hc, Hceza; auto 10.
Qed.

End TesisIddialari.

(* ------------------------------------------------------------------ *)
(** ** The closing branch under SEKTOR_PROFILLERI *)

Module KatalogOzellikleri.
Import EndustriyelTesis TesisOzellikleri KararOzellikleri TesisKarari YasamDongusu.






End KatalogOzellikleri.

(* ------------------------------------------------------------------ *)
(** ** The model after its constructor *)

Module BaslangicOzellikleri.

Section Kutuphaneli.
Context `{K : Kutuphane}.

Lemma hep_ret {A : Type} (P : A -> Prop) (a : A) : P a -> hep P (ret a).
Proof. intros H z. exact H. Qed.

Lemma hep_bind {A B : Type} (P : A -> Prop) (Q : B -> Prop)
    (c : Rastgele A) (k : A -> Rastgele B) :
  hep P c -> (forall a, P a -> hep Q (k a)) -> hep Q (bind c k).
Proof.
  intros Hc Hk z. unfold bind. specialize (Hc z).
  destruct (c z) as [a z']. simpl in Hc. apply Hk. exact Hc.
Qed.

Lemma hep_herhangi {A : Type} (c : Rastgele A) : hep (fun _ => True) c.
Proof. intros z. exact I. Qed.

Lemma hep_tekrarla {A : Type} (P : A -> Prop) (c : Rastgele A) (n : nat) :
  hep P c -> hep (Forall P) (TurkiyeETSModel.tekrarla n c).
Proof.
  intro Hc. induction n as [|n IH]; simpl.
  - apply hep_ret. constructor.
  - apply (hep_bind P); [exact Hc|]. intros a Ha.
    apply (hep_bind (Forall P)); [exact IH|]. intros l Hl.
    apply hep_ret. constructor; assumption.
Qed.

Section Yapici.
Variable P : EndustriyelTesis.t -> Prop.
Hypothesis HP : forall sektor_adi sehir il_katsayi uniform zar,
  P (EndustriyelTesis.init sektor_adi sehir il_katsayi uniform zar).

Lemma tesis_olustur_ozellik tablo sehirler sektor_adi :
  hep (tesis_ozelligi P) (TurkiyeETSModel.tesis_olustur tablo sehirler sektor_adi).
Proof.
  unfold TurkiyeETSModel.tesis_olustur.
  apply (hep_bind (fun _ => True)); [apply hep_herhangi|]. intros sehir _.
  apply (hep_bind (fun _ => True)); [apply hep_herhangi|]. intros u _.
  apply (hep_bind (fun _ => True)); [apply hep_herhangi|]. intros zar _.
  apply hep_ret. intros x Hx. simpl in Hx. injection Hx as <-. apply HP.
Qed.

Lemma ihracatci_olustur_ozellik tablo sehirler :
  hep (tesis_ozelligi P) (TurkiyeETSModel.ihracatci_olustur tablo sehirler).
Proof.
  unfold TurkiyeETSModel.ihracatci_olustur.
  apply (hep_bind (fun _ => True)); [apply hep_herhangi|]. intros sehir _.
  apply (hep_bind (fun _ => True)); [apply hep_herhangi|]. intros u _.
  apply (hep_bind (fun _ => True)); [apply hep_herhangi|]. intros zar _.
  apply hep_ret. intros x Hx. simpl in Hx. injection Hx as <-. apply HP.
Qed.

Lemma hanehalki_olustur_ozellik sehirler :
  hep (tesis_ozelligi P) (TurkiyeETSModel.hanehalki_olustur sehirler).
Proof.
  unfold TurkiyeETSModel.hanehalki_olustur.
  apply (hep_bind (fun _ => True)); [apply hep_herhangi|]. intros sehir _.
  apply (hep_bind (fun _ => True)); [apply hep_herhangi|]. intros g _.
  apply (hep_bind (fun _ => True)); [apply hep_herhangi|]. intros u _.
  apply hep_ret. intros x Hx. discriminate.
Qed.

Lemma gelistirici_olustur_ozellik :
  hep (tesis_ozelligi P) TurkiyeETSModel.gelistirici_olustur.
Proof.
  unfold TurkiyeETSModel.gelistirici_olustur.
  apply (hep_bind (fun _ => True)); [apply hep_herhangi|]. intros s _.
  apply (hep_bind (fun _ => True)); [apply hep_herhangi|]. intros u _.
  apply hep_ret. intros x Hx. discriminate.
Qed.

(** What holds of every facility the constructor of [EndustriyelTesis]
    returns holds of every facility of the roster that the constructor of
    the model builds. *)
Lemma init_tesisleri (a : Ayarlar.t) (d : Dis) (once : Zar) (i : nat)
    (x : EndustriyelTesis.t) :
  gorunum (TurkiyeETSModel.agents (snd (TurkiyeETSModel.init a d once))) i = Some x ->
  P x.
Proof.
  unfold TurkiyeETSModel.init.
  set (olustur := bind _ _).
  assert (Hol : hep (Forall (tesis_ozelligi P)) olustur).
  { subst olustur.
    apply (hep_bind (Forall (tesis_ozelligi P)));
      [apply hep_tekrarla, tesis_olustur_ozellik|]. intros l1 H1.
    apply (hep_bind (Forall (tesis_ozelligi P)));
      [apply hep_tekrarla, tesis_olustur_ozellik|]. intros l2 H2.
    apply (hep_bind (Forall (tesis_ozelligi P)));
      [apply hep_tekrarla, tesis_olustur_ozellik|]. intros l3 H3.
    apply (hep_bind (Forall (tesis_ozelligi P)));
      [apply hep_tekrarla, ihracatci_olustur_ozellik|]. intros l4 H4.
    apply (hep_bind (Forall (tesis_ozelligi P)));
      [apply hep_tekrarla, hanehalki_olustur_ozellik|]. intros l5 H5.
    apply (hep_bind (Forall (tesis_ozelligi P)));
      [apply hep_tekrarla, gelistirici_olustur_ozellik|]. intros l6 H6.
    apply hep_ret. repeat (apply Forall_app; split); assumption. }
  match goal with
  | |- context [olustur ?z] =>
      specialize (Hol z); destruct (olustur z) as [olusan z']
  end.
  simpl in Hol. simpl. intro Hg.
  unfold gorunum in Hg.
  destruct i as [|[|i]]; simpl in Hg; try discriminate.
  destruct (nth_error olusan i) as [b|] eqn:Eb; [|discriminate].
  apply nth_error_In in Eb.
  rewrite Forall_forall in Hol. exact (Hol b Eb x Hg).
Qed.

End Yapici.

Lemma yapici_taze sektor_adi sehir il_katsayi uniform zar :
  taze (EndustriyelTesis.init sektor_adi sehir il_katsayi uniform zar).
Proof. repeat split. Qed.


(** Every facility of the roster that the constructor builds is fresh:
    active, with an empty bank and no net uncovered emission. *)
Lemma init_taze (a : Ayarlar.t) (d : Dis) (once : Zar) (i : nat)
    (x : EndustriyelTesis.t) :
  gorunum (TurkiyeETSModel.agents (snd (TurkiyeETSModel.init a d once))) i = Some x ->
  taze x.
Proof. apply (init_tesisleri taze yapici_taze). Qed.



End Kutuphaneli.

End BaslangicOzellikleri.

(* ------------------------------------------------------------------ *)
(** ** The simulation *)

Module ModelOzellikleri.
Import TesisOzellikleri RosterOzellikleri YasamDongusu BaslangicOzellikleri.

Section Kutuphaneli.
Context `{K : Kutuphane}.

Import TurkiyeETSModel.

(** C4. After any number of years of a run, every facility of the roster
    has a bank and a net uncovered emission that are not negative.  In a
    year in which the scheme is active the step of a facility that is not
    closed banks a surplus of the free allocation over the current
    emission and leaves no net uncovered emission; it covers a deficit
    from the bank first, and only what the bank does not cover becomes the
    net uncovered emission.  Before the pilot start the bank is untouched
    and the net uncovered emission is 0. *)
Theorem defter_negatif_olmaz :
  (forall (a : Ayarlar.t) (d : Dis) (once : Zar) (n : nat) (st : Zar * t)
          (i : nat) (x : EndustriyelTesis.t),
      adimla n (init a d once) = Some st ->
      gorunum (agents (snd st)) i = Some x ->
      0 <= EndustriyelTesis.izin_bankasi x /\ 0 <= EndustriyelTesis.net_emisyon x) /\
  (forall (m : Ortam) (x : EndustriyelTesis.t),
      EndustriyelTesis.durum x <> Kapali ->
      let y := EndustriyelTesis.step m x in
      let oran := if (yil m <? TAM_UYGULAMA)%Z then 1.0 else 0.7 in
      let fazla :=
        EndustriyelTesis.baslangic_emisyon x * oran - EndustriyelTesis.emisyon x in
      ((PILOT_BASLANGIC <= yil m)%Z -> 0 < fazla ->
         EndustriyelTesis.izin_bankasi y = EndustriyelTesis.izin_bankasi x + fazla /\
         EndustriyelTesis.net_emisyon y = 0) /\
      ((PILOT_BASLANGIC <= yil m)%Z -> fazla <= 0 ->
       0 <= EndustriyelTesis.izin_bankasi x ->
         (- fazla <= EndustriyelTesis.izin_bankasi x ->
            EndustriyelTesis.izin_bankasi y == EndustriyelTesis.izin_bankasi x + fazla /\
            EndustriyelTesis.net_emisyon y == 0) /\
         (EndustriyelTesis.izin_bankasi x < - fazla ->
            EndustriyelTesis.izin_bankasi y == 0 /\
            EndustriyelTesis.net_emisyon y == - fazla - EndustriyelTesis.izin_bankasi x)) /\
      ((yil m < PILOT_BASLANGIC)%Z ->
         EndustriyelTesis.izin_bankasi y = EndustriyelTesis.izin_bankasi x /\
         EndustriyelTesis.net_emisyon y = 0)).
Proof.
  split.
  - intros a d once n st i x Hrun Hx.
    apply (degismez_tasima
             (fun x => 0 <= EndustriyelTesis.izin_bankasi x /\
                       0 <= EndustriyelTesis.net_emisyon x)
             defter_korunur n _ _ Hrun) with (i := i); [|exact Hx].
    intros j x0 Hx0. destruct (init_taze _ _ _ _ _ Hx0) as (_ & -> & -> & _).
    split; lra.
  - intros m x Hd. cbv zeta.
    destruct (step_defter m x Hd) as [-> ->].
    split; [|split].
    + intros Hy Hf. destruct (tahsisat_aktif m x Hy) as (_ & Hsur & _).
      exact (Hsur Hf).
    + intros Hy Hf Hb. destruct (tahsisat_aktif m x Hy) as (_ & _ & Hdef).
      destruct (Hdef Hf) as [-> ->].
      set (fazla := EndustriyelTesis.baslangic_emisyon x *
                    (if (yil m <? TAM_UYGULAMA)%Z then 1.0 else 0.7)
                    - EndustriyelTesis.emisyon x) in *.
      assert (Ha : py_abs fazla == - fazla).
      { destruct (py_abs_spec fazla) as [[_ ->]|[H ->]]; lra. }
      split; intro Hc.
      * destruct (py_min_spec (py_abs fazla) (EndustriyelTesis.izin_bankasi x))
          as [[Hm ->]|[Hm ->]]; split; lra.
      * destruct (py_min_spec (py_abs fazla) (EndustriyelTesis.izin_bankasi x))
          as [[Hm ->]|[Hm ->]]; split; lra.
    + intros Hy. destruct (tahsisat_oncesi m x Hy) as (Hb & Hn & _). auto.
Qed.

(** C5. Through any number of years of a run, from any state of the
    model: a facility (plain or exporter) that is closed is found at its
    place of the roster unchanged, so still closed and with the same
    emission; and a facility that was not closed and is found closed has
    emission 0. *)
Theorem kapali_kalici (n : nat) (st st' : Zar * t) (i : nat)
    (x : EndustriyelTesis.t)
    (Hrun : adimla n st = Some st')
    (Hx : gorunum (agents (snd st)) i = Some x) :
  exists x',
    gorunum (agents (snd st')) i = Some x' /\
    (EndustriyelTesis.durum x = Kapali -> x' = x) /\
    (EndustriyelTesis.durum x <> Kapali -> EndustriyelTesis.durum x' = Kapali ->
       EndustriyelTesis.emisyon x' = 0).
Proof.
  destruct (adimla_iliski n st) as (st1 & Hrun1 & Hrel).
  rewrite Hrun in Hrun1. injection Hrun1 as <-.
  pose proof (gorunum_iliski _ _ i Hrel) as Hi. rewrite Hx in Hi.
  destruct (gorunum (agents (snd st')) i) as [x'|]; [|contradiction].
  exists x'. split; [reflexivity|]. split.
  - intro Hk. exact (kapali_sabit _ _ Hi Hk).
  - intros Hacik Hk. destruct (kapanis_sifirlar _ _ Hi Hk) as [->|He]; [contradiction|exact He].
Qed.

(** C10. The decision of a facility of the subsidy class is "invest" or
    "wait", never "close", whatever the price, the net uncovered emission
    and the threshold; its step never closes it; and after any number of
    years of a run no facility of the subsidy class is closed. *)
Theorem tesvik_kapanmaz :
  (forall (m : Ortam) (x : EndustriyelTesis.t) (fiyat : Q),
      EndustriyelTesis.duyarlilik x = Tesvik ->
      fst (EndustriyelTesis.karar_ver m x fiyat) = yatirim \/
      fst (EndustriyelTesis.karar_ver m x fiyat) = bekle) /\
  (forall (m : Ortam) (x : EndustriyelTesis.t),
      EndustriyelTesis.duyarlilik x = Tesvik ->
      EndustriyelTesis.durum x <> Kapali ->
      EndustriyelTesis.durum (EndustriyelTesis.step m x) <> Kapali) /\
  (forall (a : Ayarlar.t) (d : Dis) (once : Zar) (n : nat) (st : Zar * t)
          (i : nat) (x : EndustriyelTesis.t),
      adimla n (init a d once) = Some st ->
      gorunum (agents (snd st)) i = Some x ->
      EndustriyelTesis.duyarlilik x = Tesvik ->
      EndustriyelTesis.durum x <> Kapali).
Proof.
  split; [|split].
  - intros m x fiyat Ht.
    destruct (TesisKarari.karar_ver_tesvik m x fiyat Ht) as [-> | ->]; auto.
  - intros m x Ht Hk.
    apply (tesvik_korunur _ _ (islem_step m x)). split; assumption.
  - intros a d once n st i x Hrun Hx Ht.
    destruct (adimla_iliski n (init a d once)) as (st1 & Hrun1 & Hrel).
    rewrite Hrun in Hrun1. injection Hrun1 as <-.
    pose proof (gorunum_iliski _ _ i Hrel) as Hi. rewrite Hx in Hi.
    destruct (gorunum (agents (snd (init a d once))) i) as [x0|] eqn:E0;
      [|contradiction].
    destruct (init_taze _ _ _ _ _ E0) as (Ha & _).
    apply (tesvik_zinciri _ _ Hi).
    + rewrite <- (duyarlilik_zinciri _ _ Hi). exact Ht.
    + rewrite Ha. discriminate.
Qed.

(** Every facility found in the roster during a run of the model is a
    facility of a run: constructed fresh, then operated on. *)
Lemma model_kosusu (a : Ayarlar.t) (d : Dis) (once : Zar) (n : nat)
    (st : Zar * t) (i : nat) (x : EndustriyelTesis.t) :
  adimla n (init a d once) = Some st ->
  gorunum (agents (snd st)) i = Some x ->
  tesis_kosusu x.
Proof.
  intros Hrun Hx.
  destruct (adimla_iliski n (init a d once)) as (st1 & Hrun1 & Hrel).
  rewrite Hrun in Hrun1. injection Hrun1 as <-.
  pose proof (gorunum_iliski _ _ i Hrel) as Hi. rewrite Hx in Hi.
  destruct (gorunum (agents (snd (init a d once))) i) as [x0|] eqn:E0;
    [|contradiction].
  exists x0. split; [exact (init_taze _ _ _ _ _ E0) | exact Hi].
Qed.


(** The agents' steps do not touch the collected rows. *)
Lemma ajan_step_seri (i : nat) (st st' : Zar * t) :
  ajan_step i st = Some st' -> datacollector (snd st') = datacollector (snd st).
Proof.
  destruct st as [z self]. unfold ajan_step.
  destruct (nth_error (agents self) i) as [[| |x|x|h|g]|].
  - destruct (PiyasaOperatoru.step _ _ _) as [[p fiyat]|]; [|discriminate].
    intro H. injection H as <-. reflexivity.
  - destruct (MRVAjani.step _ _ _) as [sonuc z'].
    intro H. injection H as <-. reflexivity.
  - intro H. injection H as <-. reflexivity.
  - intro H. injection H as <-. reflexivity.
  - intro H. injection H as <-. reflexivity.
  - destruct (ProjeGelistirici.step _ _) as [g' kap].
    intro H. injection H as <-. reflexivity.
  - intro H. injection H as <-. reflexivity.
Qed.

Lemma sirayla_seri (sira : list nat) (st st' : Zar * t) :
  sirayla sira st = Some st' -> datacollector (snd st') = datacollector (snd st).
Proof.
  revert st. induction sira as [|i sira IH]; intros st; simpl.
  - intro H. injection H as <-. reflexivity.
  - destruct (ajan_step i st) as [st1|] eqn:E; [|discriminate].
    intro H. rewrite (IH _ H). exact (ajan_step_seri i st _ E).
Qed.

Lemma zaman_cizelgesi_seri (self : t) :
  datacollector (zaman_cizelgesi self) = datacollector self.
Proof.
  unfold zaman_cizelgesi.
  repeat match goal with |- context [if ?b then _ else _] => destruct b end;
    reflexivity.
Qed.

(** Each year adds one row to the series. *)
Lemma adimla_seri_uzunlugu (n : nat) (st st' : Zar * t) :
  adimla n st = Some st' ->
  List.length (datacollector (snd st')) = (List.length (datacollector (snd st)) + n)%nat.
Proof.
  revert st. induction n as [|n IH]; intros st; simpl.
  - intro H. injection H as <-. lia.
  - destruct (step st) as [st1|] eqn:E; [|discriminate].
    intro H. rewrite (IH _ H).
    destruct st as [z self]. unfold step in E.
    destruct (py_shuffle _ _) as [sira g].
    destruct (sirayla sira _) as [[z' self']|] eqn:Es; [|discriminate].
    injection E as <-. apply sirayla_seri in Es.
    cbn [snd datacollector set_ortam set_random set_datacollector] in *.
    rewrite Es, length_app, zaman_cizelgesi_seri. simpl. lia.
Qed.


End Kutuphaneli.

End ModelOzellikleri.

(* ------------------------------------------------------------------ *)
(** ** The properties on concrete inputs *)

(** Decides a closed comparison or equation by evaluation. *)
Ltac hesapla :=
  vm_compute;
  first [ reflexivity | discriminate
        | let H := fresh in intro H; discriminate H ].

Module Ornekler.
Import EndustriyelTesis.

(** C1 as stated fails.  In 2028 at the ceiling price an active energy
    facility whose net uncovered-emission cost (0.9 * 150 = 135) exceeds
    its threshold (90) starts an investment and keeps its emission; an
    active facility of the subsidy class whose cost (30 * 150 = 4500)
    exceeds its threshold (999) stays active. *)
Lemma kapanma_esigi_karsi_ornek :
  let m := ornek_ortam 2028 150 in
  (durum ornek_enerji_tesisi = Aktif /\
   maliyet_limit ornek_enerji_tesisi <
     net_emisyon (step m ornek_enerji_tesisi) * efektif_fiyat m ornek_enerji_tesisi /\
   durum (step m ornek_enerji_tesisi) = Donusum /\
   emisyon (step m ornek_enerji_tesisi) == 3) /\
  (durum ornek_tarim_tesisi = Aktif /\
   maliyet_limit ornek_tarim_tesisi <
     net_emisyon (step m ornek_tarim_tesisi) * efektif_fiyat m ornek_tarim_tesisi /\
   durum (step m ornek_tarim_tesisi) = Aktif /\
   emisyon (step m ornek_tarim_tesisi) == 100).
Proof. cbv zeta. repeat split; hesapla. Qed.

Lemma ornek_tesisler_kosuda :
  tesis_kosusu ornek_cimento_tesisi /\ tesis_kosusu ornek_sanayi_tesisi /\
  tesis_kosusu ornek_cezali_tesis.
Proof.
  split; [|split].
  - apply YasamDongusu.taze_kosu. repeat split.
  - apply YasamDongusu.taze_kosu. repeat split.
  - exists ornek_sanayi_tesisi. split; [repeat split|].
    apply rt_step. apply islem_ceza. discriminate.
Defined.

Lemma kapanma_esigi_tanik :
  let m := ornek_ortam 2028 150 in
  let x := ornek_cimento_tesisi in
  (durum x = Aktif /\ tesis_kosusu x /\
   duyarlilik x <> Tesvik /\ ceza_durumu x = false /\
   0 < net_emisyon (tahsisat_ve_bankalama m x) /\
   maliyet_limit x < net_emisyon (tahsisat_ve_bankalama m x) * efektif_fiyat m x) /\
  (durum (step m x) = Kapali /\ emisyon (step m x) = 0).
Proof.
  cbv zeta. split.
  - split; [hesapla|]. split; [exact (proj1 ornek_tesisler_kosuda)|].
    repeat split; hesapla.
  - apply TesisIddialari.kapanma_esigi;
      [ hesapla | exact (proj1 ornek_tesisler_kosuda) | hesapla | hesapla
      | | hesapla | hesapla ].
    intros kv [<-|[<-|[]]] H; vm_compute in H; discriminate H.
Defined.

(** C6 on an industry facility in 2028 at the ceiling price: all three
    measures are below the price, and the investment starts with the one
    of highest net present value. *)
Lemma npv_ile_secim_tanik :
  let m := ornek_ortam 2028 150 in
  let x := ornek_sanayi_tesisi in
  (durum x = Aktif /\ tesis_kosusu x /\
   ceza_durumu x = false /\ duyarlilik x <> Tesvik) /\
  exists kv,
    ilk_en_iyi (fun kv => NPV_tanim (emisyon x) (efektif_fiyat m x) (snd kv))
               (fun kv => mac (snd kv) < efektif_fiyat m x)
               (mac_onlemler (profil x)) kv /\
    fst kv = "teknoloji_degisimi"%string /\
    durum (step m x) = Donusum /\
    kalan_yatirim_suresi (step m x) = sure (snd kv).
Proof.
  cbv zeta. split.
  { split; [hesapla|]. split; [exact (proj1 (proj2 ornek_tesisler_kosuda))|].
    split; hesapla. }
  destruct (TesisIddialari.npv_ile_secim (ornek_ortam 2028 150) ornek_sanayi_tesisi)
    as (_ & Hvar & _);
    [ hesapla | exact (proj1 (proj2 ornek_tesisler_kosuda)) | hesapla | hesapla | ].
  destruct Hvar as (kv & Hilk & _ & Hd & Hy & Hk & _).
  - exists ("enerji_verimliligi"%string, {| mac := -5; potansiyel := 0.10; sure := 2 |}).
    split; [left; reflexivity|]. split; hesapla.
  - exists kv. split; [exact Hilk|]. split; [|split; assumption].
    vm_compute in Hy. injection Hy as Hy. symmetry. exact Hy.
Defined.

(** The penalty makes the same facility invest in the first measure
    below the price instead of the best one. *)
Example ceza_zorunlu_yatirim_ornek :
  let m := ornek_ortam 2028 150 in
  durum ornek_cezali_tesis = Aktif /\ ceza_durumu ornek_cezali_tesis = true /\
  durum (step m ornek_cezali_tesis) = Donusum /\
  yatirim_durumu (step m ornek_cezali_tesis) = Some "enerji_verimliligi"%string /\
  yatirim_durumu (step m ornek_sanayi_tesisi) = Some "teknoloji_degisimi"%string /\
  ceza_durumu (step m (step m (step m ornek_cezali_tesis))) = false /\
  durum (step m (step m (step m ornek_cezali_tesis))) = Temiz.
Proof. cbv zeta. repeat split; hesapla. Qed.

(** The reconciliation of the closing cement facility: allocation 2.8 of
    emission 4, nothing banked, 1.2 uncovered. *)
Example defter_ornek :
  ucretsiz_tahsisat ornek_kapali_tesis == 2.8 /\
  izin_bankasi ornek_kapali_tesis == 0 /\
  net_emisyon ornek_kapali_tesis == 1.2 /\
  durum ornek_kapali_tesis = Kapali /\ emisyon ornek_kapali_tesis = 0.
Proof. repeat split; hesapla. Qed.



(** The clearing price of the operator on three rosters: emission 3
    against a cap of 77.6 gives the floor, against a cap of 0.97 the
    ceiling, and an empty roster gives 0. *)
Example piyasa_fiyati_ornek :
  let m := ornek_ortam 2026 0 in
  option_map snd (@PiyasaOperatoru.step ornek_kutuphane m [Tesis ornek_enerji_tesisi]
                    (PiyasaOperatoru.init 80 0.03)) = Some 20 /\
  option_map snd (@PiyasaOperatoru.step ornek_kutuphane m [Tesis ornek_enerji_tesisi]
                    (PiyasaOperatoru.init 1 0.03)) = Some 150 /\
  option_map snd (@PiyasaOperatoru.step ornek_kutuphane m []
                    (PiyasaOperatoru.init 80 0.03)) = Some 0.
Proof. cbv zeta. repeat split; vm_compute; reflexivity. Qed.

(** C7 as stated fails on the floor: a low-income household emits the
    same at the prices 100 and 150. *)
Lemma hanehalki_fiyat_tepkisi_karsi_ornek :
  let m1 := ornek_ortam 2030 100 in
  let m2 := ornek_ortam 2030 150 in
  Hanehalki.durum ornek_hane = Aktif /\
  0 < Hanehalki.tuketim ornek_hane /\
  Hanehalki.elastikiyet ornek_hane < 0 /\
  0 < karbon_fiyati m1 /\ karbon_fiyati m1 < karbon_fiyati m2 /\
  Hanehalki.emisyon (Hanehalki.step m2 ornek_hane)
    == Hanehalki.emisyon (Hanehalki.step m1 ornek_hane) /\
  ~ Hanehalki.emisyon (Hanehalki.step m2 ornek_hane)
      < Hanehalki.emisyon (Hanehalki.step m1 ornek_hane).
Proof. cbv zeta. repeat split; hesapla. Qed.

Lemma hanehalki_fiyat_tepkisi_tanik :
  let m1 := ornek_ortam 2030 20 in
  let m2 := ornek_ortam 2030 50 in
  let m0 := ornek_ortam 2025 0 in
  (Hanehalki.durum ornek_hane = Aktif /\ 0 < Hanehalki.tuketim ornek_hane /\
   Hanehalki.elastikiyet ornek_hane < 0 /\ 0 < karbon_fiyati m1 /\
   karbon_fiyati m1 < karbon_fiyati m2 /\ karbon_fiyati m0 <= 0) /\
  Hanehalki.emisyon (Hanehalki.step m2 ornek_hane)
    < Hanehalki.emisyon (Hanehalki.step m1 ornek_hane) /\
  0.5 * Hanehalki.emisyon (Hanehalki.step m0 ornek_hane)
    <= Hanehalki.emisyon (Hanehalki.step m2 ornek_hane).
Proof.
  cbv zeta. split; [repeat split; hesapla|].
  destruct (HanehalkiOzellikleri.hanehalki_fiyat_tepkisi
              (ornek_ortam 2030 20) (ornek_ortam 2030 50) (ornek_ortam 2025 0)
              ornek_hane) as (_ & _ & Hkesin & Hyarim & _);
    [ hesapla | hesapla | hesapla | hesapla | hesapla | hesapla | ].
  split; [apply Hkesin; hesapla | exact Hyarim].
Defined.

(** C5 on a model with a closed facility at place 2 of its roster: after
    a year it is found there unchanged. *)
Lemma kapali_kalici_tanik :
  exists st',
    @TurkiyeETSModel.adimla ornek_kutuphane 1 ornek_dunya = Some st' /\
    gorunum (TurkiyeETSModel.agents (snd ornek_dunya)) 2 = Some ornek_kapali_tesis /\
    exists x',
      gorunum (TurkiyeETSModel.agents (snd st')) 2 = Some x' /\
      (durum ornek_kapali_tesis = Kapali -> x' = ornek_kapali_tesis) /\
      (durum ornek_kapali_tesis <> Kapali -> durum x' = Kapali -> emisyon x' = 0).
Proof.
  destruct (@TurkiyeETSModel.adimla ornek_kutuphane 1 ornek_dunya) as [st'|] eqn:Hrun.
  - exists st'. split; [reflexivity|]. split; [reflexivity|].
    apply (@ModelOzellikleri.kapali_kalici ornek_kutuphane 1 ornek_dunya st' 2
             ornek_kapali_tesis Hrun).
    reflexivity.
  - vm_compute in Hrun. discriminate Hrun.
Defined.


(** Two years of a run: the facility of the subsidy class (place 4 of the
    roster) is active, and its ledger is not negative. *)
Example calistirma_ornegi :
  match @TurkiyeETSModel.adimla ornek_kutuphane 2
          (TurkiyeETSModel.init ornek_ayarlar (ornek_dis 0) (ornek_zar 0)) with
  | Some st =>
      match gorunum (TurkiyeETSModel.agents (snd st)) 4 with
      | Some x =>
          duyarlilik x = Tesvik /\ durum x = Aktif /\
          0 <= izin_bankasi x /\ 0 <= net_emisyon x
      | None => False
      end
  | None => False
  end.
Proof. vm_compute. repeat split; hesapla. Qed.

End Ornekler.

(* ------------------------------------------------------------------ *)
(** ** Further properties of the facility *)

Module TesisEkleri.
Import EndustriyelTesis TesisOzellikleri KararOzellikleri TesisKarari YasamDongusu.

(** A year of an investment that does not complete it. *)
Lemma step_donusum_ilerler (m : Ortam) (x : t) :
  durum x <> Kapali -> (1 < kalan_yatirim_suresi x)%Z ->
  durum (step m x) = durum x /\ emisyon (step m x) = emisyon x /\
  emisyon_azalma_potansiyeli (step m x) = emisyon_azalma_potansiyeli x /\
  kalan_yatirim_suresi (step m x) = (kalan_yatirim_suresi x - 1)%Z.
Proof.
  intros Hd Hk.
  destruct (step_cozumle m x) as [[H _]|[(_ & _ & ->)|(_ & H & _)]];
    [contradiction | | lia].
  destruct (tahsisat_diger_alanlar m x) as (Hdur & Hem & _ & Hkal & Hpot & _).
  cbv zeta in Hdur, Hem, Hkal, Hpot.
  unfold yatirim_ilerlet. cbn [kalan_yatirim_suresi set_kalan_yatirim_suresi].
  rewrite Hkal.
  destruct (kalan_yatirim_suresi x - 1 =? 0)%Z eqn:E;
    [apply Z.eqb_eq in E; lia|].
  simpl. auto.
Qed.

(** The year that completes an investment. *)
Lemma step_tamamlanan_emisyon (m : Ortam) (x : t) :
  durum x <> Kapali -> kalan_yatirim_suresi x = 1%Z ->
  emisyon (step m x) = emisyon x * (1 - emisyon_azalma_potansiyeli x) /\
  emisyon_azalma_potansiyeli (step m x) = emisyon_azalma_potansiyeli x.
Proof.
  intros Hd Hk.
  destruct (step_cozumle m x) as [[H _]|[(_ & _ & ->)|(_ & H & _)]];
    [contradiction | | lia].
  destruct (tahsisat_diger_alanlar m x) as (_ & Hem & _ & Hkal & Hpot & _).
  cbv zeta in Hem, Hkal, Hpot.
  unfold yatirim_ilerlet. cbn [kalan_yatirim_suresi set_kalan_yatirim_suresi].
  rewrite Hkal, Hk. simpl. rewrite Hem, Hpot. auto.
Qed.

(** A facility that is neither active nor closed and has no investment
    under way only has its ledger reconciled. *)
Lemma step_bekleyen (m : Ortam) (x : t) :
  durum x <> Kapali -> durum x <> Aktif -> (kalan_yatirim_suresi x <= 0)%Z ->
  step m x = tahsisat_ve_bankalama m x.
Proof.
  intros Hk Ha Hz.
  destruct (step_cozumle m x) as [[H _]|[(_ & H & _)|(_ & _ & ->)]];
    [contradiction | lia |].
  unfold karar_uygula.
  destruct (tahsisat_diger_alanlar m x) as (-> & _).
  apply Durum_eqb_neq in Ha. rewrite Ha. reflexivity.
Qed.

Lemma adimlar_temiz (ms : list Ortam) (x : t) :
  durum x = Temiz -> kalan_yatirim_suresi x = 0%Z ->
  durum (adimlar ms x) = Temiz /\ emisyon (adimlar ms x) = emisyon x /\
  kalan_yatirim_suresi (adimlar ms x) = 0%Z.
Proof.
  revert x. induction ms as [|m ms IH]; intros x Hd Hk; [simpl; auto|].
  unfold adimlar in *. simpl.
  assert (Hs : step m x = tahsisat_ve_bankalama m x).
  { apply step_bekleyen; [rewrite Hd; discriminate | rewrite Hd; discriminate | lia]. }
  destruct (tahsisat_diger_alanlar m x) as (Hdur & Hem & _ & Hkal & _).
  cbv zeta in Hdur, Hem, Hkal.
  destruct (IH (step m x)) as (H1 & H2 & H3).
  - rewrite Hs, Hdur. exact Hd.
  - rewrite Hs, Hkal. exact Hk.
  - rewrite H1, H2, H3, Hs, Hem. auto.
Qed.

Lemma adimlar_donusum (ms : list Ortam) (x : t) (kalan : Z) :
  durum x = Donusum -> (0 < kalan)%Z ->
  kalan_yatirim_suresi x = (Z.of_nat (List.length ms) + kalan)%Z ->
  durum (adimlar ms x) = Donusum /\ emisyon (adimlar ms x) = emisyon x /\
  emisyon_azalma_potansiyeli (adimlar ms x) = emisyon_azalma_potansiyeli x /\
  kalan_yatirim_suresi (adimlar ms x) = kalan.
Proof.
  revert x. induction ms as [|m ms IH]; intros x Hd Hpos Hk.
  - simpl in *. auto.
  - unfold adimlar in *. cbn [fold_left].
    destruct (step_donusum_ilerler m x) as (H1 & H2 & H3 & H4);
      [rewrite Hd; discriminate | cbn [List.length] in Hk; lia |].
    destruct (IH (step m x)) as (G1 & G2 & G3 & G4);
      [congruence | exact Hpos | cbn [List.length] in Hk; lia |].
    rewrite G1, G2, G3, G4, H2, H3. auto.
Qed.

(** X1. An investment lasts exactly as many steps as its remaining
    duration says: a facility in transition with remaining duration k > 0
    is still in transition, with its emission untouched, after fewer than
    k of its own steps; after k steps it is clean, its emission is the old
    one times (1 - reduction potential) and its penalty flag is cleared;
    and no later step changes that status or that emission, whatever the
    year, the prices and the subsidy are. *)
Theorem yatirim_takvimi (ms1 ms2 ms3 : list Ortam) (m : Ortam) (x : t)
    (Hdonusum : durum x = Donusum)
    (Hkalan : kalan_yatirim_suresi x = Z.of_nat (List.length (ms1 ++ m :: ms2))) :
  (durum (adimlar ms1 x) = Donusum /\ emisyon (adimlar ms1 x) = emisyon x) /\
  (durum (adimlar (ms1 ++ m :: ms2) x) = Temiz /\
   emisyon (adimlar (ms1 ++ m :: ms2) x)
     = emisyon x * (1 - emisyon_azalma_potansiyeli x) /\
   ceza_durumu (adimlar (ms1 ++ m :: ms2) x) = false) /\
  (durum (adimlar ((ms1 ++ m :: ms2) ++ ms3) x) = Temiz /\
   emisyon (adimlar ((ms1 ++ m :: ms2) ++ ms3) x)
     = emisyon x * (1 - emisyon_azalma_potansiyeli x)).
Proof.
  rewrite length_app in Hkalan. cbn [List.length] in Hkalan.
  destruct (adimlar_donusum ms1 x (Z.of_nat (S (List.length ms2))))
    as (A1 & A2 & _ & _);
    [exact Hdonusum | lia | rewrite Hkalan; lia |].
  split; [auto|].
  (* the last step of the investment *)
  destruct (exists_last (l := m :: ms2)) as (on & son & Hson); [discriminate|].
  assert (Hlen : List.length (m :: ms2) = S (List.length on)).
  { rewrite Hson, length_app. simpl. lia. }
  cbn [List.length] in Hlen.
  destruct (adimlar_donusum (ms1 ++ on) x 1) as (B1 & B2 & B3 & B4);
    [exact Hdonusum | lia | rewrite length_app, Hkalan; lia |].
  set (y := adimlar (ms1 ++ on) x) in *.
  assert (Hy : adimlar (ms1 ++ m :: ms2) x = step son y).
  { rewrite Hson, app_assoc. unfold adimlar, y. rewrite fold_left_app. reflexivity. }
  destruct (step_tamamlanan son y) as (C1 & C2 & C3);
    [rewrite B1; discriminate | exact B4 |].
  destruct (step_tamamlanan_emisyon son y) as (C4 & _);
    [rewrite B1; discriminate | exact B4 |].
  rewrite B2, B3 in C4.
  split; [rewrite Hy; auto|].
  destruct (adimlar_temiz ms3 (step son y) C2 C3) as (D1 & D2 & _).
  assert (Hz : adimlar ((ms1 ++ m :: ms2) ++ ms3) x = adimlar ms3 (step son y)).
  { rewrite <- Hy. unfold adimlar. apply fold_left_app. }
  rewrite Hz, D1, D2. auto.
Qed.

(** The emission after the decision of an active facility. *)
Lemma karar_uygula_emisyon (m : Ortam) (x : t) (fiyat : Q) :
  emisyon (karar_uygula m x fiyat) = emisyon x \/
  emisyon (karar_uygula m x fiyat) = 0.
Proof.
  unfold karar_uygula. destruct (Durum_eqb (durum x) Aktif); [|auto].
  assert (Hx2 : emisyon (snd (karar_ver m x fiyat)) = emisyon x).
  { destruct (karar_ver_nesne m x fiyat) as [-> | [kv ->]]; reflexivity. }
  destruct (karar_ver m x fiyat) as [karar x2]. simpl in Hx2.
  destruct karar; simpl; auto. left.
  destruct (yatirim_baslat_alanlar x2 fiyat) as (_ & _ & _ & _ & H & _).
  cbv zeta in H. congruence.
Qed.

(** X2. A step never raises the emission of a facility: with an emission
    that is not negative and an achieved reduction fraction between 0 and
    1, the emission after the step is not negative and at most the
    emission before. *)
Theorem emisyon_artmaz (m : Ortam) (x : t)
    (Hemisyon : 0 <= emisyon x)
    (Hpot : 0 <= emisyon_azalma_potansiyeli x <= 1) :
  0 <= emisyon (step m x) <= emisyon x.
Proof.
  destruct (tahsisat_diger_alanlar m x) as (_ & Hem & _ & Hkal & Hp & _).
  cbv zeta in Hem, Hkal, Hp.
  destruct (step_cozumle m x) as [[_ ->]|[(_ & _ & ->)|(_ & _ & ->)]].
  - lra.
  - unfold yatirim_ilerlet. cbn [kalan_yatirim_suresi set_kalan_yatirim_suresi].
    destruct (_ =? 0)%Z; simpl; rewrite ?Hem, ?Hp; nra.
  - destruct (karar_uygula_emisyon m (tahsisat_ve_bankalama m x) (efektif_fiyat m x))
      as [-> | ->]; rewrite ?Hem; lra.
Qed.

(** X3. An active facility of the subsidy class looks at the subsidy
    only: when the subsidy offered reaches 600 times its investment cost
    (60 per cent, scaled by 1000) its step starts an investment, otherwise
    the step leaves its status and its emission as they are; no carbon
    price, border price, penalty or net uncovered emission changes this. *)
Theorem tesvik_esigi (m : Ortam) (x : t)
    (Hkosu : tesis_kosusu x)
    (Haktif : durum x = Aktif)
    (Htesvik : duyarlilik x = Tesvik) :
  (yatirim_bedeli x * 0.6 * 1000 <= tesvik_miktari m ->
     durum (step m x) = Donusum /\ emisyon (step m x) = emisyon x) /\
  (tesvik_miktari m < yatirim_bedeli x * 0.6 * 1000 ->
     durum (step m x) = Aktif /\ emisyon (step m x) = emisyon x /\
     kalan_yatirim_suresi (step m x) = 0%Z).
Proof.
  destruct (kosu_aktif x Hkosu Haktif) as (Hkalan & _ & _).
  rewrite (step_aktif m x Haktif) by lia. cbv zeta.
  destruct (tahsisat_diger_alanlar m x)
    as (Hdur & Hem & _ & Hkal & _ & _ & _ & Hd & _ & _ & Hbedel & _).
  cbv zeta in Hdur, Hem, Hkal, Hd, Hbedel.
  unfold karar_ver. rewrite Hd, Htesvik. simpl Duyarlilik_eqb. cbv iota.
  rewrite Hbedel.
  destruct (Qgeb (tesvik_miktari m) (yatirim_bedeli x * 0.6 * 1000)) eqn:E.
  - apply Qgeb_true in E. split; [|intro; lra]. intros _.
    destruct (yatirim_baslat_alanlar (tahsisat_ve_bankalama m x) (efektif_fiyat m x))
      as (H1 & _ & _ & _ & H2 & _).
    cbv zeta in H1, H2. rewrite H1, H2, Hem. auto.
  - apply Qgeb_false in E. split; [intro; lra|]. intros _.
    rewrite Hdur, Hem, Hkal. auto.
Qed.



End TesisEkleri.

(* ------------------------------------------------------------------ *)
(** ** Further properties of the monitoring agent *)

Module DenetimEkleri.

Section Kutuphaneli.
Context `{K : Kutuphane}.

(** One pass of the audit loop. *)
Lemma denetle_etkisi (self : MRVAjani.t) (gorulen : list Ajan) (a : Ajan) (z : Zar) :
  exists self1 a1 z1,
    MRVAjani.denetle (self, gorulen) a z = ((self1, gorulen ++ [a1]), z1) /\
    denetim_izi (MRVAjani.ceza_miktari self) a a1 /\
    MRVAjani.ceza_miktari self1 = MRVAjani.ceza_miktari self /\
    MRVAjani.denetim_olasiligi self1 = MRVAjani.denetim_olasiligi self /\
    (0 <= MRVAjani.uyumsuz_tesis_sayisi self1 - MRVAjani.uyumsuz_tesis_sayisi self
       <= MRVAjani.toplam_denetim self1 - MRVAjani.toplam_denetim self)%Z /\
    (MRVAjani.toplam_denetim self1 - MRVAjani.toplam_denetim self
       <= if denetlenebilir a then 1 else 0)%Z.
Proof.
  unfold MRVAjani.denetle, denetlenebilir.
  destruct (tesis_gorunumu a) as [x|] eqn:Eg.
  - destruct (Durum_eqb (EndustriyelTesis.durum x) Kapali) eqn:Ed; simpl negb; cbv iota.
    + unfold ret. exists self, a, z. split; [reflexivity|].
      split; [left; reflexivity|]. repeat split; lia.
    + apply Durum_eqb_neq in Ed.
      unfold bind, random_random, np_random_uniform, ret.
      repeat (cbn [py_durum np_durum fst snd];
              match goal with
              | |- context [py_random ?g] => destruct (py_random g)
              | |- context [np_uniform ?g ?a ?b] => destruct (np_uniform g a b) as [pay ?]
              | |- context [if ?b then _ else _] => destruct b
              end);
        (do 3 eexists; split; [reflexivity|]);
        (split; [|cbn; repeat split; lia]);
        first [ left; reflexivity | right; exists x, pay; auto ].
  - unfold ret. exists self, a, z. split; [reflexivity|].
    split; [left; reflexivity|]. repeat split; lia.
Qed.

Lemma denetim_dongusu_etkisi (agents : list Ajan) (self : MRVAjani.t)
    (gorulen : list Ajan) (z : Zar) :
  exists self' agents' z',
    dongu MRVAjani.denetle agents (self, gorulen) z = ((self', gorulen ++ agents'), z') /\
    Forall2 (denetim_izi (MRVAjani.ceza_miktari self)) agents agents' /\
    MRVAjani.ceza_miktari self' = MRVAjani.ceza_miktari self /\
    MRVAjani.denetim_olasiligi self' = MRVAjani.denetim_olasiligi self /\
    (0 <= MRVAjani.uyumsuz_tesis_sayisi self' - MRVAjani.uyumsuz_tesis_sayisi self
       <= MRVAjani.toplam_denetim self' - MRVAjani.toplam_denetim self)%Z /\
    (MRVAjani.toplam_denetim self' - MRVAjani.toplam_denetim self
       <= Z.of_nat (List.length (filter denetlenebilir agents)))%Z.
Proof.
  revert self gorulen z. induction agents as [|a agents IH]; intros self gorulen z.
  - exists self, [], z. simpl. unfold ret. rewrite app_nil_r.
    split; [reflexivity|]. split; [constructor|]. repeat split; lia.
  - cbn [dongu]. unfold bind at 1.
    destruct (denetle_etkisi self gorulen a z)
      as (self1 & a1 & z1 & -> & Ha & Hc1 & Hp1 & Hu1 & Hd1).
    destruct (IH self1 (gorulen ++ [a1]) z1)
      as (self' & agents' & z' & -> & Hrest & Hc & Hp & Hu & Hd).
    exists self', (a1 :: agents'), z'. rewrite <- app_assoc. simpl.
    split; [reflexivity|]. rewrite Hc1 in Hrest.
    split; [constructor; assumption|].
    split; [congruence|]. split; [congruence|].
    destruct (denetlenebilir a); cbn [List.length]; split; lia.
Qed.


(** X4. One step of the monitoring agent keeps every agent of the roster
    in its place; it leaves agents that are not facilities and closed
    facilities untouched, and of any other facility it changes at most the
    penalty flag (set) and the penalty amount (an under-reported share of
    the emission times the unit penalty of the agent), never the status, the
    emission or anything else.  The count of non-compliant facilities it
    reports is that of this step only: it starts from 0 and is at most the
    number of audits of the step, which is at most the number of
    facilities that are not closed. *)
Theorem denetim_etkisi (agents : list Ajan) (self : MRVAjani.t) (z : Zar) :
  let sonuc := fst (MRVAjani.step agents self z) in
  Forall2 (denetim_izi (MRVAjani.ceza_miktari self)) agents (snd sonuc) /\
  MRVAjani.ceza_miktari (fst sonuc) = MRVAjani.ceza_miktari self /\
  MRVAjani.denetim_olasiligi (fst sonuc) = MRVAjani.denetim_olasiligi self /\
  (0 <= MRVAjani.uyumsuz_tesis_sayisi (fst sonuc)
     <= MRVAjani.toplam_denetim (fst sonuc) - MRVAjani.toplam_denetim self)%Z /\
  (MRVAjani.toplam_denetim (fst sonuc) - MRVAjani.toplam_denetim self
     <= Z.of_nat (List.length (filter denetlenebilir agents)))%Z.
Proof.
  cbv zeta. unfold MRVAjani.step.
  destruct (denetim_dongusu_etkisi agents
              {| MRVAjani.denetim_olasiligi := MRVAjani.denetim_olasiligi self;
                 MRVAjani.ceza_miktari := MRVAjani.ceza_miktari self;
                 MRVAjani.toplam_denetim := MRVAjani.toplam_denetim self;
                 MRVAjani.toplam_ceza := MRVAjani.toplam_ceza self;
                 MRVAjani.uyumsuz_tesis_sayisi := 0 |} [] z)
    as (self' & agents' & z' & -> & Hiz & Hc & Hp & Hu & Hd).
  simpl in *. repeat split; auto; lia.
Qed.

End Kutuphaneli.

End DenetimEkleri.

(* ------------------------------------------------------------------ *)
(** ** Further properties of the exporter, the developer and the operator *)

Module AjanEkleri.

(** X5. The step of an exporter that is not closed keeps the
    competitiveness index between 0.3 and 1.  For an exporter under the
    border adjustment, with a positive domestic price the border cost is
    never negative and, for an emission that is not negative, it is the
    emission times the excess of the border price over the domestic price
    (0 when there is no excess); the index is then 1 at no cost and
    max(0.3, 1 - cost / 500) otherwise.  For any other exporter facility
    the cost is 0 and the index stays as it was. *)
Theorem ihracatci_cbam (m : Ortam) (x : IhracatciAjani.t)
    (Hacik : EndustriyelTesis.durum (IhracatciAjani.taban x) <> Kapali) :
  let y := IhracatciAjani.step m x in
  let e := EndustriyelTesis.emisyon (IhracatciAjani.taban x) in
  let kapsamda := EndustriyelTesis.ihracatci (IhracatciAjani.taban x)
                  && skdm_kapsam (EndustriyelTesis.profil (IhracatciAjani.taban x)) in
  (0.3 <= IhracatciAjani.rekabet_gucu_indeksi x <= 1 ->
     0.3 <= IhracatciAjani.rekabet_gucu_indeksi y <= 1) /\
  (kapsamda = false ->
     IhracatciAjani.cbam_maliyeti y == 0 /\
     IhracatciAjani.rekabet_gucu_indeksi y = IhracatciAjani.rekabet_gucu_indeksi x) /\
  (kapsamda = true ->
     (0 < karbon_fiyati m -> 0 <= IhracatciAjani.cbam_maliyeti y) /\
     (0 < karbon_fiyati m -> 0 <= e -> karbon_fiyati m < ab_skdm_fiyat m ->
        IhracatciAjani.cbam_maliyeti y == e * (ab_skdm_fiyat m - karbon_fiyati m)) /\
     (0 < karbon_fiyati m -> 0 <= e -> ab_skdm_fiyat m <= karbon_fiyati m ->
        IhracatciAjani.cbam_maliyeti y == 0) /\
     (karbon_fiyati m <= 0 -> IhracatciAjani.cbam_maliyeti y == e * ab_skdm_fiyat m) /\
     (IhracatciAjani.cbam_maliyeti y <= 0 ->
        IhracatciAjani.rekabet_gucu_indeksi y == 1) /\
     (0 < IhracatciAjani.cbam_maliyeti y ->
        IhracatciAjani.rekabet_gucu_indeksi y
          == py_max 0.3 (1 - IhracatciAjani.cbam_maliyeti y / 500))).
Proof.
  cbv zeta. unfold IhracatciAjani.step.
  apply Durum_eqb_neq in Hacik. rewrite Hacik.
  cbn [IhracatciAjani.cbam_maliyeti IhracatciAjani.rekabet_gucu_indeksi
       IhracatciAjani.set_taban].
  unfold IhracatciAjani.cbam_hesapla.
  destruct (EndustriyelTesis.ihracatci (IhracatciAjani.taban x)
            && skdm_kapsam (EndustriyelTesis.profil (IhracatciAjani.taban x))).
  - set (e := EndustriyelTesis.emisyon (IhracatciAjani.taban x)).
    unfold IhracatciAjani.rekabet_gucu_hesapla.
    cbn [IhracatciAjani.cbam_maliyeti IhracatciAjani.rekabet_gucu_indeksi].
    set (c := IhracatciAjani.cbam_maliyeti
                (if Qgtb (karbon_fiyati m) 0 then _ else _)).
    assert (Hc : (0 < karbon_fiyati m ->
                  c = e * ab_skdm_fiyat m
                      - py_min (e * ab_skdm_fiyat m) (e * karbon_fiyati m)) /\
                 (karbon_fiyati m <= 0 -> c = e * ab_skdm_fiyat m)).
    { subst c. split; intros Hk.
      - apply Qgtb_true in Hk. rewrite Hk. reflexivity.
      - apply Qgtb_false in Hk. rewrite Hk. reflexivity. }
    clearbody c. destruct Hc as [Hc1 Hc2].
    assert (Hrek : 0.3 <= (if Qgtb c 0 then py_max 0.3 (1.0 - c / 50 * 0.1) else 1.0) <= 1).
    { destruct (Qgtb c 0) eqn:Ec; [|split; lra].
      apply Qgtb_true in Ec.
      split; [apply py_max_lower|].
      apply py_max_upper; [lra|].
      assert (0 <= c / 50 * 0.1); [|lra].
      apply Qmult_le_0_compat; [|lra].
      apply Qle_shift_div_l; lra. }
    split; [intros _; exact Hrek|]. split; [discriminate|]. intros _.
    split; [|split; [|split; [|split; [|split]]]].
    + intros Hk. rewrite (Hc1 Hk).
      pose proof (py_min_upper (e * ab_skdm_fiyat m) (e * karbon_fiyati m)). lra.
    + intros Hk He Hlt. rewrite (Hc1 Hk).
      destruct (py_min_spec (e * ab_skdm_fiyat m) (e * karbon_fiyati m))
        as [[H1 ->]|[H1 ->]]; [ring|].
      assert (0 <= e * (ab_skdm_fiyat m - karbon_fiyati m))
        by (apply Qmult_le_0_compat; lra).
      lra.
    + intros Hk He Hle. rewrite (Hc1 Hk).
      destruct (py_min_spec (e * ab_skdm_fiyat m) (e * karbon_fiyati m))
        as [[H1 ->]|[H1 ->]]; [|ring].
      assert (0 <= e * (karbon_fiyati m - ab_skdm_fiyat m))
        by (apply Qmult_le_0_compat; lra).
      lra.
    + intros Hk. rewrite (Hc2 Hk). reflexivity.
    + intros Hle. apply Qgtb_false in Hle. rewrite Hle. reflexivity.
    + intros Hlt. apply Qgtb_true in Hlt. rewrite Hlt.
      destruct (py_max_spec 0.3 (1.0 - c / 50 * 0.1)) as [[H1 ->]|[H1 ->]];
        destruct (py_max_spec 0.3 (1 - c / 500)) as [[H2 ->]|[H2 ->]];
        try reflexivity; try field; exfalso;
        assert (Heq : 1.0 - c / 50 * 0.1 == 1 - c / 500) by field; lra.
  - split; [|split; [|discriminate]].
    + intros H. exact H.
    + intros _. split; reflexivity.
Qed.

Lemma indirgenmis_pozitif (c : Q) (n : nat) :
  -1 < c -> 0 <= indirgenmis_toplam 1 c n /\ ((0 < n)%nat -> 0 < indirgenmis_toplam 1 c n).
Proof.
  intro Hc.
  assert (Hterim : forall k : nat, 0 < 1 / (1 + c) ^ Z.of_nat k).
  { intro k. unfold Qdiv. rewrite Qmult_1_l. apply Qinv_lt_0_compat.
    apply Qpower_0_lt. lra. }
  induction n as [|n [IH1 IH2]].
  - simpl. split; [lra | intro; lia].
  - cbn [indirgenmis_toplam]. pose proof (Hterim (S n)).
    split; [lra | intros _; lra].
Qed.

(** X6. The net present value a developer computes for a project is the
    discounted annual income less the investment, and with a risk premium
    above -1 (so that the discount factors are positive), a capacity and a
    capacity factor that are not negative, it never falls when the carbon
    price or the subsidy rises. *)
Theorem gelistirici_npv_artan (g : ProjeGelistirici.t) (params : ProjeGelistirici.ProjeTipi)
    (p1 p2 t1 t2 : Q)
    (Hrisk : -1 < ProjeGelistirici.risk_primi g)
    (Hkap : 0 <= ProjeGelistirici.kapasite params)
    (Hkf : 0 <= ProjeGelistirici.kf params)
    (Hfiyat : p1 <= p2)
    (Htesvik : t1 <= t2) :
  ProjeGelistirici.npv_hesapla g params p1 t1
    == - (ProjeGelistirici.kapasite params * ProjeGelistirici.yatirim_birim params)
       + (ProjeGelistirici.kapasite params * ProjeGelistirici.kf params * 8760 * 80
          + ProjeGelistirici.kapasite params * ProjeGelistirici.kf params * 8760 * 0.5 * p1
          + t1 * ProjeGelistirici.kapasite params)
         * indirgenmis_toplam 1 (ProjeGelistirici.risk_primi g)
             (ProjeGelistirici.omur params) /\
  ProjeGelistirici.npv_hesapla g params p1 t1
    <= ProjeGelistirici.npv_hesapla g params p2 t2.
Proof.
  assert (Hacik : forall p t,
    ProjeGelistirici.npv_hesapla g params p t
    == - (ProjeGelistirici.kapasite params * ProjeGelistirici.yatirim_birim params)
       + (ProjeGelistirici.kapasite params * ProjeGelistirici.kf params * 8760 * 80
          + ProjeGelistirici.kapasite params * ProjeGelistirici.kf params * 8760 * 0.5 * p
          + t * ProjeGelistirici.kapasite params)
         * indirgenmis_toplam 1 (ProjeGelistirici.risk_primi g)
             (ProjeGelistirici.omur params)).
  { intros p t. unfold ProjeGelistirici.npv_hesapla, range. cbv zeta.
    replace (ProjeGelistirici.omur params + 1 - 1)%nat
      with (ProjeGelistirici.omur params) by lia.
    rewrite KararOzellikleri.fold_indirgenmis.
    rewrite (KararOzellikleri.indirgenmis_olcek 1 _
               (ProjeGelistirici.kapasite params * ProjeGelistirici.kf params * 8760 * 80
                + ProjeGelistirici.kapasite params * ProjeGelistirici.kf params * 8760 * 0.5 * p
                + t * ProjeGelistirici.kapasite params)) by ring.
    ring. }
  split; [apply Hacik|].
  rewrite (Hacik p1 t1), (Hacik p2 t2).
  destruct (indirgenmis_pozitif (ProjeGelistirici.risk_primi g)
              (ProjeGelistirici.omur params) Hrisk) as (HA & _).
  set (A := indirgenmis_toplam 1 (ProjeGelistirici.risk_primi g)
              (ProjeGelistirici.omur params)) in *.
  set (kap := ProjeGelistirici.kapasite params) in *.
  set (kf := ProjeGelistirici.kf params) in *.
  assert (H1 : 0 <= kap * kf) by (apply Qmult_le_0_compat; assumption).
  assert (H2 : 0 <= kap * kf * (p2 - p1)) by (apply Qmult_le_0_compat; lra).
  assert (H3 : 0 <= (t2 - t1) * kap) by (apply Qmult_le_0_compat; lra).
  assert (H4 : 0 <= (kap * kf * 8760 * 0.5 * (p2 - p1) + (t2 - t1) * kap) * A).
  { apply Qmult_le_0_compat; [|exact HA]. lra. }
  lra.
Qed.


(** X7. One step of a project developer appends at most two projects
    (a 10 MW solar one, then a 20 MW wind one), each dated with the
    current year, and never changes an earlier entry; the capacity of the
    developer and the renewable capacity of the model grow by the very
    same amount, the capacity of the appended projects.  The capital
    never grows, falls by between 700000 and 1200000 per MW added, and a
    capital that is not negative stays so; the risk premium stays; with
    nothing appended nothing changes. *)
Theorem gelistirici_adimi (m : Ortam) (g : ProjeGelistirici.t) :
  let r := ProjeGelistirici.step m g in
  exists eklenen : list ProjeGelistirici.Proje,
    let mw := py_sum (map ProjeGelistirici.proje_kapasite eklenen) in
    ProjeGelistirici.projeler (fst r) = ProjeGelistirici.projeler g ++ eklenen /\
    (List.length eklenen <= 2)%nat /\
    Forall (fun p =>
              ProjeGelistirici.proje_yil p = yil m /\
              ((ProjeGelistirici.tip p = "GES"%string /\
                ProjeGelistirici.proje_kapasite p = 10) \/
               (ProjeGelistirici.tip p = "RES"%string /\
                ProjeGelistirici.proje_kapasite p = 20))) eklenen /\
    ProjeGelistirici.toplam_kapasite (fst r)
      == ProjeGelistirici.toplam_kapasite g + mw /\
    snd r == yenilenebilir_kapasite m + mw /\
    700000 * mw <= ProjeGelistirici.sermaye g - ProjeGelistirici.sermaye (fst r)
      <= 1200000 * mw /\
    (0 <= ProjeGelistirici.sermaye g -> 0 <= ProjeGelistirici.sermaye (fst r)) /\
    ProjeGelistirici.risk_primi (fst r) = ProjeGelistirici.risk_primi g /\
    (eklenen = [] -> r = (g, yenilenebilir_kapasite m)).
Proof.
  cbv zeta. unfold ProjeGelistirici.step, ProjeGelistirici.proje_tipleri.
  cbn [fold_left]. unfold ProjeGelistirici.proje_degerlendir.
  cbn [snd fst ProjeGelistirici.kapasite ProjeGelistirici.yatirim_birim].
  destruct (Qgeb (ProjeGelistirici.sermaye g) (10 * 700000)) eqn:E1;
    [destruct (Qgtb (ProjeGelistirici.npv_hesapla g _ _ _) 0) eqn:N1|];
    cbv iota beta;
    cbn [ProjeGelistirici.sermaye ProjeGelistirici.risk_primi
         ProjeGelistirici.projeler ProjeGelistirici.toplam_kapasite];
    match goal with
    | |- context [Qgeb ?a (20 * 1200000)] =>
        destruct (Qgeb a (20 * 1200000)) eqn:E2;
        [match goal with
         | |- context [Qgtb ?n 0] => destruct (Qgtb n 0) eqn:N2
         end|]
    end;
    cbn [fst snd ProjeGelistirici.sermaye ProjeGelistirici.risk_primi
         ProjeGelistirici.projeler ProjeGelistirici.toplam_kapasite];
    try apply Qgeb_true in E1; try apply Qgeb_true in E2;
    match goal with
    | |- exists _, (?p ++ [?a]) ++ [?b] = _ /\ _ =>
        exists [a; b]; split; [symmetry; apply (app_assoc p [a] [b])|]
    | |- exists _, ?p ++ [?a] = _ /\ _ =>
        exists [a]; split; [reflexivity|]
    | |- exists _, ?p = _ /\ _ =>
        exists []; split; [symmetry; apply app_nil_r|]
    end;
    (split; [simpl; lia|]);
    (split; [repeat constructor; cbn; auto|]);
    unfold py_sum;
    cbn [map fold_left ProjeGelistirici.proje_kapasite];
    (split; [ring|]); (split; [ring|]);
    (split; [split; lra|]);
    (split; [intros; lra|]);
    (split; [reflexivity|]);
    first [ intros _; reflexivity | discriminate ].
Qed.




(** X9. A sector name that is not a key of SEKTOR_PROFILLERI falls back
    to the profile of Sanayi: the facility records the name it was given,
    but its profile, emission, exporter draw, closing threshold,
    investment cost and sensitivity class are those of a Sanayi facility
    constructed from the same draws and coefficient. *)
Theorem bilinmeyen_sektor (sektor_adi sehir : string) (il_katsayi uniform zar : Q)
    (Henerji : sektor_adi <> "Enerji"%string)
    (Hsanayi : sektor_adi <> "Sanayi"%string)
    (Htarim : sektor_adi <> "Tarim"%string) :
  let x := EndustriyelTesis.init sektor_adi sehir il_katsayi uniform zar in
  let y := EndustriyelTesis.init "Sanayi" sehir il_katsayi uniform zar in
  EndustriyelTesis.sektor x = sektor_adi /\
  EndustriyelTesis.profil x = profil_Sanayi /\
  EndustriyelTesis.emisyon x = baz_emisyon profil_Sanayi * uniform * il_katsayi /\
  EndustriyelTesis.emisyon x = EndustriyelTesis.emisyon y /\
  EndustriyelTesis.baslangic_emisyon x = EndustriyelTesis.baslangic_emisyon y /\
  EndustriyelTesis.ihracatci x = EndustriyelTesis.ihracatci y /\
  EndustriyelTesis.maliyet_limit x = EndustriyelTesis.maliyet_limit y /\
  EndustriyelTesis.yatirim_bedeli x = EndustriyelTesis.yatirim_bedeli y /\
  EndustriyelTesis.duyarlilik x = EndustriyelTesis.duyarlilik y.
Proof.
  cbv zeta.
  assert (Hp : dict_get SEKTOR_PROFILLERI sektor_adi profil_Sanayi = profil_Sanayi).
  { unfold SEKTOR_PROFILLERI. cbn [dict_get].
    apply String.eqb_neq in Henerji, Hsanayi, Htarim.
    rewrite String.eqb_sym in Henerji. rewrite String.eqb_sym in Hsanayi.
    rewrite String.eqb_sym in Htarim.
    rewrite Henerji, Hsanayi, Htarim. reflexivity. }
  unfold EndustriyelTesis.init. rewrite Hp.
  repeat split; reflexivity.
Qed.

Section Piyasa.
Context `{K : Kutuphane}.



End Piyasa.

End AjanEkleri.

(* ------------------------------------------------------------------ *)
(** ** Further properties of a run *)

Module KosuEkleri.
Import RosterOzellikleri BaslangicOzellikleri ModelOzellikleri.

Section Kutuphaneli.
Context `{K : Kutuphane}.

Import TurkiyeETSModel.

Lemma zaman_cizelgesi_alanlar (self : t) :
  ortam (zaman_cizelgesi self) = ortam self /\
  agents (zaman_cizelgesi self) = agents self /\
  piyasa_operatoru (zaman_cizelgesi self) = piyasa_operatoru self /\
  mrv_merkezi (zaman_cizelgesi self) = mrv_merkezi self /\
  senaryo_tipi (zaman_cizelgesi self) = senaryo_tipi self.
Proof.
  unfold zaman_cizelgesi.
  repeat match goal with |- context [if ?b then _ else _] => destruct b end;
    repeat split; reflexivity.
Qed.

(** The state in which the agents of a year step: after the timeline
    block, the collection of the year's row and the shuffle. *)
Lemma yil_cozumle (z : Zar) (self : t) (st' : Zar * t) :
  step (z, self) = Some st' ->
  exists sira g z1 self1,
    sirayla sira
      (z, set_random g
            (set_datacollector
               (datacollector (zaman_cizelgesi self) ++ [collect (zaman_cizelgesi self)])
               (zaman_cizelgesi self))) = Some (z1, self1) /\
    st' = (z1, set_ortam (set_yil (yil (ortam self1) + 1)%Z (ortam self1)) self1).
Proof.
  unfold step. destruct (py_shuffle _ _) as [sira g].
  destruct (sirayla sira _) as [[z1 self1]|] eqn:Es; [|discriminate].
  intro H. injection H as <-. exists sira, g, z1, self1. auto.
Qed.

(** Induction over the years of a run, with one invariant between the
    years and one while the agents step; both may depend on the number of
    years gone by. *)
Lemma kosu_tumevarim (I J : nat -> t -> Prop) :
  (forall k self g, I k self ->
     J k (set_random g
            (set_datacollector
               (datacollector (zaman_cizelgesi self) ++ [collect (zaman_cizelgesi self)])
               (zaman_cizelgesi self)))) ->
  (forall k i z self st', J k self -> ajan_step i (z, self) = Some st' -> J k (snd st')) ->
  (forall k self, J k self ->
     I (S k) (set_ortam (set_yil (yil (ortam self) + 1)%Z (ortam self)) self)) ->
  forall n k st st',
    adimla n st = Some st' -> I k (snd st) -> I (k + n)%nat (snd st').
Proof.
  intros Hbas Hajan Hson.
  assert (Hsira : forall k sira st st',
             sirayla sira st = Some st' -> J k (snd st) -> J k (snd st')).
  { intros k sira. induction sira as [|i sira IH]; intros st st'; simpl.
    - intro H. injection H as <-. auto.
    - destruct (ajan_step i st) as [st1|] eqn:E; [|discriminate].
      intros H HJ. apply (IH _ _ H). destruct st as [z self].
      exact (Hajan k i z self st1 HJ E). }
  induction n as [|n IH]; intros k st st'; simpl.
  - intro H. injection H as <-. rewrite Nat.add_0_r. auto.
  - destruct (step st) as [st1|] eqn:E; [|discriminate].
    intros H HI. replace (k + S n)%nat with (S k + n)%nat by lia.
    apply (IH _ _ _ H). destruct st as [z self].
    destruct (yil_cozumle z self st1 E) as (sira & g & z1 & self1 & Hs & ->).
    apply Hson.
    exact (Hsira k sira _ _ Hs (Hbas k self g HI)).
Qed.


(** A run only appends to the collected rows. *)
Lemma adimla_seri_eki (n : nat) (st st' : Zar * t) :
  adimla n st = Some st' ->
  exists yeni, datacollector (snd st') = datacollector (snd st) ++ yeni.
Proof.
  revert st. induction n as [|n IH]; intro st; simpl.
  - intro H. injection H as <-. exists []. symmetry. apply app_nil_r.
  - destruct (step st) as [st1|] eqn:E; [|discriminate].
    intro H. destruct (IH _ H) as (yeni & ->).
    destruct st as [z self].
    destruct (yil_cozumle z self st1 E) as (sira & g & z1 & self1 & Hs & ->).
    apply sirayla_seri in Hs.
    cbn [snd datacollector set_ortam set_random set_datacollector] in *.
    rewrite Hs, zaman_cizelgesi_seri, <- app_assoc. eauto.
Qed.

(** The row of year [k] of a run is collected from the state that [k]
    years lead to, after the timeline block of that year. *)
Lemma seri_satiri (n : nat) (st st' : Zar * t) (k : nat) :
  adimla n st = Some st' -> (k < n)%nat ->
  exists st_k,
    adimla k st = Some st_k /\
    nth_error (datacollector (snd st')) (List.length (datacollector (snd st)) + k)
      = Some (collect (zaman_cizelgesi (snd st_k))).
Proof.
  revert st k. induction n as [|n IH]; intros st k; [lia|]. simpl.
  destruct (step st) as [st1|] eqn:E; [|discriminate].
  intros H Hk.
  assert (Hdc : datacollector (snd st1)
                = datacollector (snd st) ++ [collect (zaman_cizelgesi (snd st))]).
  { destruct st as [z self].
    destruct (yil_cozumle z self st1 E) as (sira & g & z1 & self1 & Hs & ->).
    apply sirayla_seri in Hs.
    cbn [snd datacollector set_ortam set_random set_datacollector] in *.
    rewrite Hs, zaman_cizelgesi_seri. reflexivity. }
  destruct k as [|k].
  - exists st. split; [reflexivity|].
    destruct (adimla_seri_eki _ _ _ H) as (yeni & ->).
    rewrite Hdc, Nat.add_0_r, <- app_assoc.
    rewrite nth_error_app2 by lia. rewrite Nat.sub_diag. reflexivity.
  - destruct (IH st1 k H) as (st_k & Hrun & Hrow); [lia|].
    exists st_k. split; [simpl; rewrite E; exact Hrun|].
    rewrite <- Hrow. f_equal. rewrite Hdc, length_app. simpl. lia.
Qed.

(** A run from the constructor completes, and row [k] of the series it
    returns is collected from the state of the model [k] years after the
    construction. *)
Lemma kosu_satirlari (a : Ayarlar.t) (d : Dis) (once : Zar) (years : nat) :
  exists son seri,
    run_simulation years (init a d once) = Some (son, seri) /\
    adimla years (init a d once) = Some son /\
    List.length seri = years /\
    forall k row, nth_error seri k = Some row ->
      exists st_k,
        adimla k (init a d once) = Some st_k /\
        row = collect (zaman_cizelgesi (snd st_k)).
Proof.
  unfold run_simulation.
  destruct (adimla_iliski years (init a d once)) as (son & Hrun & _).
  rewrite Hrun. exists son, (datacollector (snd son)).
  assert (Hbos : datacollector (snd (init a d once)) = []).
  { unfold init. destruct (bind _ _ _). reflexivity. }
  assert (Hlen : List.length (datacollector (snd son)) = years).
  { rewrite (adimla_seri_uzunlugu _ _ _ Hrun), Hbos. reflexivity. }
  split; [reflexivity|]. split; [reflexivity|]. split; [exact Hlen|].
  intros k row Hrow.
  assert (Hk : (k < years)%nat).
  { rewrite <- Hlen. apply nth_error_Some. congruence. }
  destruct (seri_satiri years _ _ k Hrun Hk) as (st_k & Hk1 & Hk2).
  exists st_k. split; [exact Hk1|].
  rewrite Hbos in Hk2. simpl in Hk2. congruence.
Qed.

(** What the step of an agent leaves of the model as it is. *)
Lemma ajan_step_ortam (i : nat) (z : Zar) (self : t) (st' : Zar * t) :
  ajan_step i (z, self) = Some st' ->
  yil (ortam (snd st')) = yil (ortam self) /\
  ab_skdm_fiyat (ortam (snd st')) = ab_skdm_fiyat (ortam self) /\
  tesvik_miktari (ortam (snd st')) = tesvik_miktari (ortam self) /\
  ets_aktif (snd st') = ets_aktif self /\
  acik_artirma_aktif (snd st') = acik_artirma_aktif self /\
  senaryo_tipi (snd st') = senaryo_tipi self.
Proof.
  unfold ajan_step.
  destruct (nth_error (agents self) i) as [[| |x|x|h|g]|].
  - destruct (PiyasaOperatoru.step _ _ _) as [[p fiyat]|]; [|discriminate].
    intro H. injection H as <-. repeat split.
  - destruct (MRVAjani.step _ _ _) as [sonuc z'].
    intro H. injection H as <-. repeat split.
  - intro H. injection H as <-. repeat split.
  - intro H. injection H as <-. repeat split.
  - intro H. injection H as <-. repeat split.
  - destruct (ProjeGelistirici.step _ _) as [g' kap].
    intro H. injection H as <-. repeat split.
  - intro H. injection H as <-. repeat split.
Qed.

(** The calendar of a run: the state [n] years after the construction. *)
Lemma kosu_takvimi (a : Ayarlar.t) (d : Dis) (once : Zar) (n : nat) (st : Zar * t) :
  adimla n (init a d once) = Some st ->
  yil (ortam (snd st)) = (2025 + Z.of_nat n)%Z /\
  senaryo_tipi (snd st) = Ayarlar.senaryo_tipi a /\
  ets_aktif (snd st) = (2 <=? n)%nat /\
  acik_artirma_aktif (snd st) = (4 <=? n)%nat.
Proof.
  set (I := fun (k : nat) (self : t) =>
              yil (ortam self) = (2025 + Z.of_nat k)%Z /\
              senaryo_tipi self = Ayarlar.senaryo_tipi a /\
              ets_aktif self = (2 <=? k)%nat /\
              acik_artirma_aktif self = (4 <=? k)%nat).
  set (J := fun (k : nat) (self : t) =>
              yil (ortam self) = (2025 + Z.of_nat k)%Z /\
              senaryo_tipi self = Ayarlar.senaryo_tipi a /\
              ets_aktif self = (1 <=? k)%nat /\
              acik_artirma_aktif self = (3 <=? k)%nat).
  intros Hrun.
  apply (kosu_tumevarim I J) with (n := n) (k := O) (st := init a d once);
    [| | |exact Hrun|].
  - intros k self g (Hy & Hs & He & Ha). unfold J.
    cbn [ortam senaryo_tipi ets_aktif acik_artirma_aktif
         set_random set_datacollector].
    unfold zaman_cizelgesi. rewrite Hy, He, Ha.
    destruct (2025 + Z.of_nat k =? 2026)%Z eqn:E1;
      [|destruct (2025 + Z.of_nat k =? 2028)%Z eqn:E2].
    + apply Z.eqb_eq in E1. assert (k = 1%nat) by lia. subst k.
      cbn. auto.
    + apply Z.eqb_eq in E2. assert (k = 3%nat) by lia. subst k.
      cbn. auto.
    + apply Z.eqb_neq in E1. apply Z.eqb_neq in E2.
      repeat split; auto.
      * rewrite He. destruct k as [|[|k]]; try reflexivity; exfalso; lia.
      * rewrite Ha. destruct k as [|[|[|[|k]]]]; try reflexivity; exfalso; lia.
  - intros k i z self st' (Hy & Hs & He & Ha) Hstep.
    destruct (ajan_step_ortam i z self st' Hstep) as (H1 & _ & _ & H2 & H3 & H4).
    unfold J. rewrite H1, H2, H3, H4. repeat split; assumption.
  - intros k self (Hy & Hs & He & Ha). unfold I.
    cbn [ortam senaryo_tipi ets_aktif acik_artirma_aktif set_ortam yil set_yil].
    repeat split; auto. lia.
  - unfold init. destruct (bind _ _ _). cbn. repeat split.
Qed.





























End Kutuphaneli.

End KosuEkleri.

(* ------------------------------------------------------------------ *)
(** ** The scenario comparison *)

Module SenaryoEkleri.
Import KosuEkleri.

Lemma son_satir_var (df : list Satir) :
  df <> [] -> exists son, son_satir df = Some son /\ In son df.
Proof.
  intro H. unfold son_satir.
  destruct (nth_error df (List.length df - 1)) as [son|] eqn:E.
  - exists son. split; [reflexivity | exact (nth_error_In _ _ E)].
  - exfalso. apply nth_error_None in E. destruct df; [contradiction | simpl in E; lia].
Qed.

Lemma azaltim_kendisi (bau_emisyon : Q) : azaltim bau_emisyon bau_emisyon == 0.
Proof.
  unfold azaltim. destruct (Qgtb bau_emisyon 0) eqn:E; [|reflexivity].
  apply Qgtb_true in E. field. lra.
Qed.

(** X19. The reduction that the summary table prints is guarded against
    a reference emission that is not positive (it is 0 then, and nothing
    is divided); against a positive reference it is 0 for the reference
    itself, between 0 and 100 for an emission between 0 and the
    reference, and negative for an emission above the reference. *)
Theorem azaltim_sinirlari (bau_emisyon emisyon_ : Q) :
  (bau_emisyon <= 0 -> azaltim bau_emisyon emisyon_ = 0) /\
  azaltim bau_emisyon bau_emisyon == 0 /\
  (0 < bau_emisyon -> 0 <= emisyon_ <= bau_emisyon ->
     0 <= azaltim bau_emisyon emisyon_ <= 100) /\
  (0 < bau_emisyon -> bau_emisyon < emisyon_ -> azaltim bau_emisyon emisyon_ < 0).
Proof.
  unfold azaltim. split; [|split; [|split]].
  - intro H. apply Qgtb_false in H. rewrite H. reflexivity.
  - apply azaltim_kendisi.
  - intros Hb He. apply Qgtb_true in Hb as E. rewrite E.
    assert (H1 : (bau_emisyon - emisyon_) / bau_emisyon * 100
                 == 100 - 100 * (emisyon_ / bau_emisyon)) by (field; lra).
    assert (H2 : 0 <= emisyon_ / bau_emisyon) by (apply Qle_shift_div_l; lra).
    assert (H3 : emisyon_ / bau_emisyon <= 1) by (apply Qle_shift_div_r; lra).
    rewrite H1. split; lra.
  - intros Hb He. apply Qgtb_true in Hb as E. rewrite E.
    assert (H1 : (bau_emisyon - emisyon_) / bau_emisyon * 100
                 == 100 - 100 * (emisyon_ / bau_emisyon)) by (field; lra).
    assert (H3 : 1 < emisyon_ / bau_emisyon) by (apply Qlt_shift_div_l; lra).
    rewrite H1. lra.
Qed.

Lemma dict_bul_yok {A : Type} (d : list (string * A)) (k : string) :
  dict_bul d k = None <-> ~ In k (map fst d).
Proof.
  induction d as [|[k' x] d IH]; simpl; [tauto|].
  destruct (String.eqb k' k) eqn:E.
  - apply String.eqb_eq in E. split; [discriminate | intro H; exfalso; apply H; auto].
  - apply String.eqb_neq in E. rewrite IH. tauto.
Qed.

Lemma dict_bul_var {A : Type} (d : list (string * A)) (k : string) (x : A) :
  NoDup (map fst d) -> In (k, x) d -> dict_bul d k = Some x.
Proof.
  induction d as [|[k' y] d IH]; intros Hnd Hin; [contradiction|].
  simpl in *. inversion Hnd as [|? ? Hk' Hnd']; subst.
  destruct Hin as [Heq|Hin].
  - injection Heq as -> ->. rewrite String.eqb_refl. reflexivity.
  - destruct (String.eqb k' k) eqn:E; [|exact (IH Hnd' Hin)].
    apply String.eqb_eq in E. subst k'. exfalso. apply Hk'.
    change k with (fst (k, x)). apply in_map. exact Hin.
Qed.

Lemma dict_yaz_yeni {A : Type} (d : list (string * A)) (k : string) (v : A) :
  ~ In k (map fst d) -> dict_yaz d k v = d ++ [(k, v)].
Proof.
  induction d as [|[k' x] d IH]; intro H; [reflexivity|]. simpl in *.
  destruct (String.eqb k' k) eqn:E.
  - apply String.eqb_eq in E. exfalso. apply H. auto.
  - rewrite IH; [reflexivity|]. intro Hin. apply H. auto.
Qed.

(** What a line of the summary says of the series it comes from. *)
Lemma ozet_satirlari_var (bau_emisyon : Q) (sonuclar : list (string * list Satir)) :
  Forall (fun kv => snd kv <> []) sonuclar ->
  exists satirlar,
    ozet_satirlari bau_emisyon sonuclar = Some satirlar /\
    Forall2 (fun kv s =>
               ozet_senaryo s = fst kv /\
               exists son,
                 son_satir (snd kv) = Some son /\
                 ozet_emisyon s = Toplam_Emisyon son /\
                 ozet_azaltim s = azaltim bau_emisyon (Toplam_Emisyon son) /\
                 ozet_fiyat s = Karbon_Fiyati son /\
                 ozet_temiz s = Temiz_Tesis son) sonuclar satirlar.
Proof.
  intro H. induction H as [|[ad df] l Hdf _ IH].
  - exists []. split; [reflexivity | constructor].
  - destruct IH as (satirlar & Hs & HF). simpl in Hdf.
    destruct (son_satir_var df Hdf) as (son & Hson & _).
    cbn [ozet_satirlari]. rewrite Hson, Hs.
    eexists. split; [reflexivity|].
    constructor; [|exact HF]. split; [reflexivity|].
    exists son. cbn. auto.
Qed.

Lemma ozet_satirlari_bos (bau_emisyon : Q) (sonuclar : list (string * list Satir)) :
  (exists ad, In (ad, []) sonuclar) -> ozet_satirlari bau_emisyon sonuclar = None.
Proof.
  intros (ad & Hin). induction sonuclar as [|[ad' df] l IH]; [contradiction|].
  cbn [ozet_satirlari]. destruct Hin as [Heq|Hin].
  - injection Heq as -> ->. reflexivity.
  - destruct (son_satir df); [|reflexivity]. rewrite (IH Hin). reflexivity.
Qed.

(** With the key BAU present and no series empty the summary is printed. *)
Lemma ozet_tablo_tamam (sonuclar : list (string * list Satir)) (bau_df : list Satir) :
  NoDup (map fst sonuclar) -> In ("BAU"%string, bau_df) sonuclar ->
  Forall (fun kv => snd kv <> []) sonuclar ->
  exists bau satirlar,
    son_satir bau_df = Some bau /\
    ozet_tablo_yazdir sonuclar = Some satirlar /\
    ozet_satirlari (Toplam_Emisyon bau) sonuclar = Some satirlar.
Proof.
  intros Hnd Hin Hdolu. unfold ozet_tablo_yazdir.
  rewrite (dict_bul_var sonuclar "BAU" bau_df Hnd Hin).
  assert (Hbd : bau_df <> []).
  { rewrite Forall_forall in Hdolu. exact (Hdolu _ Hin). }
  destruct (son_satir_var bau_df Hbd) as (bau & Hson & _). rewrite Hson.
  destruct (ozet_satirlari_var (Toplam_Emisyon bau) sonuclar Hdolu)
    as (satirlar & Hs & _).
  exists bau, satirlar. auto.
Qed.

(** X20. The summary table: it raises when the dict of results has no
    key BAU, and when a series of the dict is empty; otherwise (keys
    being unique, as in a dict) it prints one line per scenario, in the
    order of the dict, with the total emission, the price and the number
    of clean facilities of the last row of that scenario's series and
    the reduction against the last total emission of BAU, which for BAU
    itself is 0. *)
Theorem ozet_tablo_davranisi (sonuclar : list (string * list Satir)) :
  (~ In "BAU"%string (map fst sonuclar) -> ozet_tablo_yazdir sonuclar = None) /\
  ((exists ad, In (ad, []) sonuclar) -> ozet_tablo_yazdir sonuclar = None) /\
  (forall bau_df bau,
      NoDup (map fst sonuclar) -> In ("BAU"%string, bau_df) sonuclar ->
      Forall (fun kv => snd kv <> []) sonuclar ->
      son_satir bau_df = Some bau ->
      exists satirlar,
        ozet_tablo_yazdir sonuclar = Some satirlar /\
        Forall2 (fun kv s =>
                   ozet_senaryo s = fst kv /\
                   exists son,
                     son_satir (snd kv) = Some son /\
                     ozet_emisyon s = Toplam_Emisyon son /\
                     ozet_azaltim s
                       = azaltim (Toplam_Emisyon bau) (Toplam_Emisyon son) /\
                     ozet_fiyat s = Karbon_Fiyati son /\
                     ozet_temiz s = Temiz_Tesis son /\
                     (fst kv = "BAU"%string -> ozet_azaltim s == 0))
                sonuclar satirlar).
Proof.
  unfold ozet_tablo_yazdir. split; [|split].
  - intro H. apply dict_bul_yok in H. rewrite H. reflexivity.
  - intro H. destruct (dict_bul sonuclar "BAU") as [bau_df|]; [|reflexivity].
    destruct (son_satir bau_df) as [bau|]; [|reflexivity].
    apply ozet_satirlari_bos. exact H.
  - intros bau_df bau Hnd Hin Hdolu Hbau.
    rewrite (dict_bul_var sonuclar "BAU" bau_df Hnd Hin), Hbau.
    destruct (ozet_satirlari_var (Toplam_Emisyon bau) sonuclar Hdolu)
      as (satirlar & Hs & HF).
    exists satirlar. split; [exact Hs|].
    assert (Hkv : forall kv, In kv sonuclar -> fst kv = "BAU"%string -> snd kv = bau_df).
    { intros [ad df] Hkv Had. simpl in *. subst ad.
      pose proof (dict_bul_var sonuclar "BAU" df Hnd Hkv) as H1.
      pose proof (dict_bul_var sonuclar "BAU" bau_df Hnd Hin) as H2.
      congruence. }
    clear Hs Hin Hnd Hdolu.
    induction HF as [|kv s l l' (H1 & son & H2 & H3 & H4 & H5 & H6) _ IH];
      [constructor|].
    constructor.
    + split; [exact H1|]. exists son. repeat (split; [assumption|]).
      intro Had. rewrite H4.
      rewrite (Hkv kv (or_introl eq_refl) Had) in H2.
      assert (son = bau) by congruence. subst son.
      apply azaltim_kendisi.
    + apply IH. intros kv' Hin'. apply Hkv. right. exact Hin'.
Qed.


Section Kutuphaneli.
Context `{K : Kutuphane}.

(** The loop over scenarios whose names are new to the dict completes,
    and appends one labelled series of eleven years per scenario. *)
Lemma senaryo_dongusu_sonuc (l : list (string * SenaryoParametreleri))
    (saat : nat -> Dis) (k : nat) (z : Zar) (sonuclar : list (string * list Satir)) :
  NoDup (map fst l) ->
  (forall ad, In ad (map fst l) -> ~ In ad (map fst sonuclar)) ->
  exists z' yeni,
    senaryo_dongusu l saat k z sonuclar = Some (z', sonuclar ++ yeni) /\
    map fst yeni = map fst l /\
    Forall (fun kv =>
              List.length (snd kv) = 11%nat /\
              forall i row, nth_error (snd kv) i = Some row ->
                Yil row = (2025 + Z.of_nat i)%Z /\ Senaryo row = fst kv) yeni.
Proof.
  revert k z sonuclar. induction l as [|[ad params] l IH]; intros k z sonuclar Hnd Hyeni.
  - exists z, []. rewrite app_nil_r. split; [reflexivity|]. split; constructor.
  - cbn [senaryo_dongusu].
    destruct (kosu_satirlari (senaryo_ayarlari params) (saat k) z 11)
      as (son & seri & Hrun & _ & Hlen & Hrows).
    rewrite Hrun. cbv zeta.
    assert (Hdolu : map (set_Senaryo ad) seri <> []).
    { destruct seri; [discriminate Hlen | discriminate]. }
    destruct (son_satir_var _ Hdolu) as (r & -> & _).
    inversion Hnd as [|? ? Had Hnd']; subst.
    rewrite dict_yaz_yeni by (apply Hyeni; left; reflexivity).
    destruct (IH (S k) (fst son) (sonuclar ++ [(ad, map (set_Senaryo ad) seri)]) Hnd')
      as (z' & yeni & Hd & Hk & HF).
    { intros ad' Hin'. rewrite map_app, in_app_iff. cbn [map fst In].
      intros [H|[H|[]]].
      - apply (Hyeni ad'); [right; exact Hin' | exact H].
      - subst ad'. contradiction. }
    exists z', ((ad, map (set_Senaryo ad) seri) :: yeni).
    split; [rewrite Hd, <- app_assoc; reflexivity|].
    split; [cbn [map fst]; rewrite Hk; reflexivity|].
    constructor; [|exact HF]. cbn [fst snd].
    split; [rewrite length_map; exact Hlen|].
    intros i row Hrow. rewrite nth_error_map in Hrow.
    destruct (nth_error seri i) as [row0|] eqn:E0; [|discriminate].
    injection Hrow as <-. destruct (Hrows i row0 E0) as (st_i & Hi & ->).
    destruct (kosu_takvimi _ _ _ i st_i Hi) as (Hy & _).
    destruct (zaman_cizelgesi_alanlar (snd st_i)) as (Ho & _).
    cbn [Yil Senaryo set_Senaryo TurkiyeETSModel.collect]. rewrite Ho.
    split; [exact Hy | reflexivity].
Qed.

(** X22. [senaryo_karsilastirmasi] never raises, whatever the clock and
    the generators are: it returns the four scenarios BAU, Yumusak_ETS,
    Siki_ETS and ETS_Tesvik in this order, each with a series of eleven
    rows for the years 2025 to 2035, every row labelled with the name of
    its scenario. *)
Theorem senaryo_karsilastirmasi_sonucu (saat : nat -> Dis) (z : Zar) :
  exists z' sonuclar,
    senaryo_karsilastirmasi saat z = Some (z', sonuclar) /\
    map fst sonuclar = ["BAU"; "Yumusak_ETS"; "Siki_ETS"; "ETS_Tesvik"]%string /\
    Forall (fun kv =>
              List.length (snd kv) = 11%nat /\
              forall i row, nth_error (snd kv) i = Some row ->
                Yil row = (2025 + Z.of_nat i)%Z /\ Senaryo row = fst kv) sonuclar.
Proof.
  unfold senaryo_karsilastirmasi.
  destruct (senaryo_dongusu_sonuc senaryolar saat 0 z [])
    as (z' & sonuclar & Hd & Hk & HF).
  { unfold senaryolar. cbn [map fst].
    repeat constructor; cbn [In]; intuition discriminate. }
  { intros ad _ []. }
  rewrite Hd. cbn [app].
  assert (Hnd : NoDup (map fst sonuclar)).
  { rewrite Hk. unfold senaryolar. cbn [map fst].
    repeat constructor; cbn [In]; intuition discriminate. }
  assert (Hdolu : Forall (fun kv : string * list Satir => snd kv <> []) sonuclar).
  { eapply Forall_impl; [|exact HF]. intros kv (Hl & _) E. rewrite E in Hl. discriminate. }
  assert (Hbau : exists bau_df, In ("BAU"%string, bau_df) sonuclar).
  { destruct sonuclar as [|[ad df] rest]; [discriminate Hk|].
    cbn [map fst senaryolar] in Hk. injection Hk as -> _. exists df. left. reflexivity. }
  destruct Hbau as (bau_df & Hin).
  destruct (ozet_tablo_tamam sonuclar bau_df Hnd Hin Hdolu)
    as (bau & satirlar & _ & -> & _).
  exists z', sonuclar. split; [reflexivity|]. split; [exact Hk | exact HF].
Qed.

End Kutuphaneli.

End SenaryoEkleri.

(* ------------------------------------------------------------------ *)
(** ** The further properties on concrete inputs *)

Module EkOrnekler.

(** The investment of the industry facility takes six years: still
    transforming after five steps, clean after the sixth and from then on. *)
Lemma yatirim_takvimi_tanik :
  let x := ornek_donusen_tesis in
  let m := ornek_ortam 2029 150 in
  let ms := [m; m; m; m; m] in
  (EndustriyelTesis.durum x = Donusum /\
   EndustriyelTesis.kalan_yatirim_suresi x = Z.of_nat (List.length (ms ++ m :: []))) /\
  (EndustriyelTesis.durum (adimlar ms x) = Donusum /\
   EndustriyelTesis.emisyon (adimlar ms x) = EndustriyelTesis.emisyon x) /\
  (EndustriyelTesis.durum (adimlar (ms ++ m :: []) x) = Temiz /\
   EndustriyelTesis.emisyon (adimlar (ms ++ m :: []) x)
     = EndustriyelTesis.emisyon x * (1 - EndustriyelTesis.emisyon_azalma_potansiyeli x) /\
   EndustriyelTesis.ceza_durumu (adimlar (ms ++ m :: []) x) = false) /\
  (EndustriyelTesis.durum (adimlar ((ms ++ m :: []) ++ [m]) x) = Temiz /\
   EndustriyelTesis.emisyon (adimlar ((ms ++ m :: []) ++ [m]) x)
     = EndustriyelTesis.emisyon x * (1 - EndustriyelTesis.emisyon_azalma_potansiyeli x)).
Proof.
  cbv zeta. split; [split; hesapla|].
  apply (TesisEkleri.yatirim_takvimi
           [ornek_ortam 2029 150; ornek_ortam 2029 150; ornek_ortam 2029 150;
            ornek_ortam 2029 150; ornek_ortam 2029 150]
           [] [ornek_ortam 2029 150]
           (ornek_ortam 2029 150) ornek_donusen_tesis); hesapla.
Defined.

Lemma emisyon_artmaz_tanik :
  let x := ornek_donusen_tesis in
  let m := ornek_ortam 2029 150 in
  (0 <= EndustriyelTesis.emisyon x /\
   0 <= EndustriyelTesis.emisyon_azalma_potansiyeli x <= 1) /\
  0 <= EndustriyelTesis.emisyon (EndustriyelTesis.step m x) <= EndustriyelTesis.emisyon x.
Proof.
  cbv zeta. split; [split; [hesapla | split; hesapla]|].
  apply TesisEkleri.emisyon_artmaz; [hesapla | split; hesapla].
Defined.

Lemma ornek_tarim_kosuda : tesis_kosusu ornek_tarim_tesisi.
Proof. apply YasamDongusu.taze_kosu. repeat split. Defined.

(** The agriculture facility needs a subsidy of 0.6 * 1000 times its
    investment cost before it invests. *)
Lemma tesvik_esigi_tanik :
  let x := ornek_tarim_tesisi in
  let m := ornek_ortam 2028 150 in
  (tesis_kosusu x /\ EndustriyelTesis.durum x = Aktif /\
   EndustriyelTesis.duyarlilik x = Tesvik) /\
  (EndustriyelTesis.yatirim_bedeli x * 0.6 * 1000 <= tesvik_miktari m ->
     EndustriyelTesis.durum (EndustriyelTesis.step m x) = Donusum /\
     EndustriyelTesis.emisyon (EndustriyelTesis.step m x) = EndustriyelTesis.emisyon x) /\
  (tesvik_miktari m < EndustriyelTesis.yatirim_bedeli x * 0.6 * 1000 ->
     EndustriyelTesis.durum (EndustriyelTesis.step m x) = Aktif /\
     EndustriyelTesis.emisyon (EndustriyelTesis.step m x) = EndustriyelTesis.emisyon x /\
     EndustriyelTesis.kalan_yatirim_suresi (EndustriyelTesis.step m x) = 0%Z).
Proof.
  cbv zeta. split; [split; [exact ornek_tarim_kosuda | split; hesapla]|].
  apply TesisEkleri.tesvik_esigi; [exact ornek_tarim_kosuda | hesapla | hesapla].
Defined.

Lemma ihracatci_cbam_tanik :
  let x := ornek_ihracatci in
  let m := ornek_ortam 2028 50 in
  EndustriyelTesis.durum (IhracatciAjani.taban x) <> Kapali /\
  (0.3 <= IhracatciAjani.rekabet_gucu_indeksi x <= 1 ->
     0.3 <= IhracatciAjani.rekabet_gucu_indeksi (IhracatciAjani.step m x) <= 1).
Proof.
  cbv zeta. split; [hesapla|].
  apply (AjanEkleri.ihracatci_cbam (ornek_ortam 2028 50) ornek_ihracatci). hesapla.
Defined.

Lemma gelistirici_npv_artan_tanik :
  let g := ornek_gelistirici in
  (-1 < ProjeGelistirici.risk_primi g /\
   0 <= ProjeGelistirici.kapasite ornek_ges /\ 0 <= ProjeGelistirici.kf ornek_ges /\
   20 <= 150 /\ 0 <= 50000) /\
  ProjeGelistirici.npv_hesapla g ornek_ges 20 0
    <= ProjeGelistirici.npv_hesapla g ornek_ges 150 50000.
Proof.
  cbv zeta. split; [repeat split; hesapla|].
  apply (AjanEkleri.gelistirici_npv_artan ornek_gelistirici ornek_ges 20 150 0 50000);
    hesapla.
Defined.

Lemma bilinmeyen_sektor_tanik :
  let x := EndustriyelTesis.init "Cimento" "Mersin" 1 1 0.5 in
  ("Cimento" <> "Enerji" /\ "Cimento" <> "Sanayi" /\ "Cimento" <> "Tarim")%string /\
  EndustriyelTesis.sektor x = "Cimento"%string /\
  EndustriyelTesis.profil x = profil_Sanayi.
Proof.
  cbv zeta. split; [repeat split; discriminate|].
  destruct (AjanEkleri.bilinmeyen_sektor "Cimento" "Mersin" 1 1 0.5)
    as (H1 & H2 & _); [discriminate | discriminate | discriminate |].
  split; [exact H1 | exact H2].
Defined.



End EkOrnekler.
